(** * Fat-Tree failure detection and route repair

    A shallow embedding of [router_config.py] (class [RouterConfigManager]),
    [fat_tree_autofix.py], the static topology of [fat_tree_topology.py]
    and the network operations of [main_controller.py], together with the
    properties of the failure-detection-and-route-repair engine.

    The Python code drives an emulated network: it looks nodes up by name,
    runs [ip route ...] and [ping] commands inside them, and changes and
    reads the state of links.  The embedding threads that network, and the
    console output, through a small state-and-exception monad. *)

From stdpp Require Import gmap strings list fin_maps.

(** ** The emulated network *)

(** Next hop of a route: [via <gateway>] or [dev <interface>]. *)
Inductive hop :=
  | via (gateway : string)
  | dev (interface : string).

(** What the kernel stores for one route.  A node's table is keyed by
    destination prefix and metric: routes to one prefix with different
    metrics live side by side, a second route with the same prefix and the
    same metric is refused. *)
Record Route := { nexthop : hop; prefsrc : option string }.

(** The commands the code runs through [node.cmd(...)].
    [ip_route_del d m] stands for [ip route del d [metric m] 2>/dev/null || true],
    [ip_route_add d h s m] for [ip route add d (via g | dev i) [src s] [metric m]],
    [ping c w t] for [ping -c c -W w t]. *)
Inductive command :=
  | ip_route_del (destination : string) (metric : option nat)
  | ip_route_add (destination : string) (h : hop) (src : option string)
      (metric : option nat)
  | ip_route_flush_cache
  | ovs_ofctl (arguments : string)
  | ping (count deadline : nat) (target : string).

(** A node: its primary address ([node.IP()], [None] for the routers, which
    are created with [ip=None]) and its table of installed static routes. *)
Record Node := { IP : option string; routes : gmap (string * nat) Route }.

(** One end of a link.  [up] is what [intf.isUp()] answers; [None] stands
    for a status query that raises. *)
Record Intf := { node : string; up : option bool }.

Record Link := { intf1 : Intf; intf2 : Intf }.

(** [net]: the nodes by name and the links in creation order. *)
Record Mininet := { nameToNode : gmap string Node; links : list Link }.

Inductive LinkState := st_up | st_down.

(** What a run leaves behind for an observer: console lines, link state
    changes and the commands run in each node. *)
Inductive Event :=
  | Print (line : string)
  | LinkStatus (src dst : string) (status : LinkState)
  | Cmd (node_name : string) (c : command).

Record World := { net : Mininet; output : list Event }.

(** ** State and exceptions *)

Inductive Exn := AttributeError | KeyError | OSError.

Inductive Res (A : Type) :=
  | Ret (a : A)
  | Raise (e : Exn).

Arguments Ret {A} a.
Arguments Raise {A} e.

Definition M (A : Type) : Type := World -> Res A * World.

Definition ret {A} (a : A) : M A := fun w => (Ret a, w).

Definition bind {A B} (m : M A) (k : A -> M B) : M B :=
  fun w =>
    match m w with
    | (Ret a, w') => k a w'
    | (Raise e, w') => (Raise e, w')
    end.

Declare Scope M_scope.
Delimit Scope M_scope with M.
Bind Scope M_scope with M.

Notation "x <- c1 ;; c2" := (bind c1 (fun x => c2))
  (at level 100, c1 at next level, right associativity) : M_scope.
Notation "c1 ;; c2" := (bind c1 (fun _ => c2))
  (at level 100, right associativity) : M_scope.

Open Scope M_scope.

(** [try: body / except: pass] *)
Definition try_pass (body : M unit) : M unit :=
  fun w =>
    match body w with
    | (Ret _, w') => (Ret tt, w')
    | (Raise _, w') => (Ret tt, w')
    end.

Definition print (line : string) : M unit :=
  fun w => (Ret tt, {| net := net w; output := output w ++ [Print line] |}).

(** [time.sleep]: no effect on the network or the console. *)
Definition sleep (seconds : nat) : M unit := ret tt.

(** ** The kernel's routing table *)

Definition metrics_to (t : gmap (string * nat) Route) (d : string) : list nat :=
  omap (fun e : string * nat * Route =>
          if decide (e.1.1 = d) then Some e.1.2 else None)
       (map_to_list t).

Definition lowest (l : list nat) : option nat :=
  match l with
  | [] => None
  | x :: xs => Some (foldr Nat.min x xs)
  end.

(** [ip route del d]: removes ONE route to [d], the first in the kernel's
    order, that is the one with the lowest metric; with [metric m], [m > 0],
    the route with that metric.  A missing route is no error to the caller
    ([2>/dev/null || true]). *)
Definition route_del (d : string) (metric : option nat)
    (t : gmap (string * nat) Route) : gmap (string * nat) Route :=
  match metric with
  | Some (S m) => delete (d, S m) t
  | _ => match lowest (metrics_to t d) with
         | Some m => delete (d, m) t
         | None => t
         end
  end.

(** [ip route add]: refused ("File exists") when the table holds a route
    with the same prefix and metric; no metric means metric 0. *)
Definition route_add (d : string) (h : hop) (src : option string)
    (metric : option nat) (t : gmap (string * nat) Route)
    : gmap (string * nat) Route :=
  let m := default 0 metric in
  match t !! (d, m) with
  | Some _ => t
  | None => <[(d, m) := {| nexthop := h; prefsrc := src |}]> t
  end.

Definition kernel (c : command) (t : gmap (string * nat) Route)
    : gmap (string * nat) Route :=
  match c with
  | ip_route_del d m => route_del d m t
  | ip_route_add d h s m => route_add d h s m t
  | _ => t
  end.

Definition set_routes (t : gmap (string * nat) Route) (n : Node) : Node :=
  {| IP := IP n; routes := t |}.

Definition run_in (name : string) (c : command) (n : Mininet) : Mininet :=
  match c with
  | ip_route_del _ _ | ip_route_add _ _ _ _ =>
      {| nameToNode :=
           alter (fun nd => set_routes (kernel c (routes nd)) nd) name
                 (nameToNode n);
         links := links n |}
  | _ => n
  end.

(** Routes to [d] in the table of node [name]. *)
Definition routes_to (n : Mininet) (name d : string) : list nat :=
  match nameToNode n !! name with
  | Some nd => metrics_to (routes nd) d
  | None => []
  end.

Definition contains (needle hay : string) : bool :=
  match String.index 0 needle hay with
  | Some _ => true
  | None => false
  end.

Definition dquote : string := String (Ascii.ascii_of_nat 34) EmptyString.

Definition newline : string := String (Ascii.ascii_of_nat 10) EmptyString.

(** [f'{x}'] of an optional address *)
Definition fmt (ip : option string) : string := default "None" ip.

(** ** The failed elements *)

Inductive Element := AR1 | AR2 | AR3 | AR4 | CR1 | CR2.

Definition element_name (e : Element) : string :=
  match e with
  | AR1 => "ar1" | AR2 => "ar2" | AR3 => "ar3" | AR4 => "ar4"
  | CR1 => "cr1" | CR2 => "cr2"
  end.

(** The first console line of each recovery plan. *)
Definition banner (e : Element) : string :=
  match e with
  | AR1 => "🔧 Fixing complete AR1 failure..."
  | AR2 => "🔧 Fixing complete AR2 failure..."
  | AR3 => "🔧 Fixing complete AR3 failure..."
  | AR4 => "🔧 Fixing complete AR4 failure..."
  | CR1 => "🔧 Fixing complete CR1 failure..."
  | CR2 => "🔧 Fixing complete CR2 failure..."
  end.

Section Engine.

(** The command sink outside the program: whether the kernel of a node
    accepts a command in the current state of the network (a refused
    command changes nothing), and what [ping] prints. *)
Variable cmd_ok : Mininet -> string -> command -> bool.
Variable ping_reply : Mininet -> string -> string -> string.

(** [net.get(name)].  [Mininet.get] indexes the [nameToNode] dict: a name
    that is not in the network raises [KeyError].  What it returns is a node
    object, never [None], so the guards [if not router] and [if host] that
    follow the lookups in the source always find a node. *)
Definition net_get (name : string) : M (option string) :=
  fun w =>
    match nameToNode (net w) !! name with
    | Some _ => (Ret (Some name), w)
    | None => (Raise KeyError, w)
    end.

(** [d[key]] on a dict: [KeyError] when the key is absent. *)
Definition dict_get {A} (v : option A) : M A :=
  fun w =>
    match v with
    | Some a => (Ret a, w)
    | None => (Raise KeyError, w)
    end.

(** [node.cmd(c)]; on [None] the attribute lookup raises. *)
Definition cmd (nd : option string) (c : command) : M string :=
  fun w =>
    match nd with
    | None => (Raise AttributeError, w)
    | Some name =>
        (Ret (match c with
              | ping _ _ target => ping_reply (net w) name target
              | _ => EmptyString
              end),
         {| net := if cmd_ok (net w) name c then run_in name c (net w)
                   else net w;
            output := output w ++ [Cmd name c] |})
    end.

(** [node.IP()] *)
Definition node_IP (nd : option string) : M (option string) :=
  fun w =>
    match nd with
    | None => (Raise AttributeError, w)
    | Some name =>
        (Ret (match nameToNode (net w) !! name with
              | Some n => IP n
              | None => None
              end), w)
    end.

(** ** router_config.py *)

(** [route_config]: a dict.  The code reads its keys ['type'],
    ['interface'] and ['gateway'] (strings) and ['metric'] (a number); each
    of them may be absent ([None]). *)
Record route_config := {
  cfg_type : option string;
  cfg_interface : option string;
  cfg_gateway : option string;
  cfg_metric : option nat
}.

(** [{'type': 'dev', 'interface': i}], with ['metric'] when given. *)
Definition rc_dev (interface : string) (metric : option nat) : route_config :=
  {| cfg_type := Some "dev"; cfg_interface := Some interface;
     cfg_gateway := None; cfg_metric := metric |}.

(** [{'type': 'via', 'gateway': g}], with ['metric'] when given. *)
Definition rc_via (gateway : string) (metric : option nat) : route_config :=
  {| cfg_type := Some "via"; cfg_interface := None;
     cfg_gateway := Some gateway; cfg_metric := metric |}.

(** [{'type': t}] *)
Definition rc_other (type : string) : route_config :=
  {| cfg_type := Some type; cfg_interface := None;
     cfg_gateway := None; cfg_metric := None |}.

Definition is_set (nd : option string) : bool :=
  match nd with Some _ => true | None => false end.

Definition is_set_node (nodes : gmap string Node) (name : string) : bool :=
  match nodes !! name with Some _ => true | None => false end.

Definition update_router_route (router_name destination : string)
    (rc : route_config) : M bool :=
  router <- net_get router_name ;;
  if negb (is_set router) then ret false
  else
    cmd router (ip_route_del destination None) ;;
    cmd router (ip_route_del destination (Some 1)) ;;
    cmd router (ip_route_del destination (Some 2)) ;;
    type <- dict_get (cfg_type rc) ;;
    (if bool_decide (type = "dev") then
       interface <- dict_get (cfg_interface rc) ;;
       cmd router (ip_route_add destination (dev interface) None
                     (Some (default 1 (cfg_metric rc)))) ;;
       ret tt
     else
       type <- dict_get (cfg_type rc) ;;
       if bool_decide (type = "via") then
         gateway <- dict_get (cfg_gateway rc) ;;
         cmd router (ip_route_add destination (via gateway) None
                       (Some (default 1 (cfg_metric rc)))) ;;
         ret tt
       else ret tt) ;;
    cmd router ip_route_flush_cache ;;
    ret true.

Definition update_host_route (host_name destination gateway : string) : M bool :=
  host <- net_get host_name ;;
  if negb (is_set host) then ret false
  else
    cmd host (ip_route_del destination None) ;;
    cmd host (ip_route_add destination (via gateway) None (Some 1)) ;;
    cmd host ip_route_flush_cache ;;
    ret true.

Definition test_connectivity (src_name dst_name : string) : M bool :=
  src <- net_get src_name ;;
  dst <- net_get dst_name ;;
  if negb (is_set src) || negb (is_set dst) then ret false
  else
    ip <- node_IP dst ;;
    result <- cmd src (ping 1 2 (fmt ip)) ;;
    ret (contains "bytes from" result).

Definition host_routes : list (string * string) :=
  [ ("h1", "10.1.1.254"); ("h2", "10.1.1.254");
    ("h3", "10.1.2.254"); ("h4", "10.1.2.254");
    ("h5", "10.2.1.254"); ("h6", "10.2.1.254");
    ("h7", "10.2.2.254"); ("h8", "10.2.2.254") ].

Fixpoint _setup_host_routes_loop (items : list (string * string)) : M unit :=
  match items with
  | [] => ret tt
  | (host_name, gateway) :: rest =>
      host <- net_get host_name ;;
      (if is_set host
       then cmd host (ip_route_add "default" (via gateway) None None) ;; ret tt
       else ret tt) ;;
      _setup_host_routes_loop rest
  end.

Definition _setup_host_routes : M unit := _setup_host_routes_loop host_routes.

Fixpoint _setup_switch_forwarding_loop (switches : list string) : M unit :=
  match switches with
  | [] => ret tt
  | switch_name :: rest =>
      switch <- net_get switch_name ;;
      (if is_set switch
       then
         cmd switch (ovs_ofctl ("del-flows " +:+ switch_name)) ;;
         cmd switch (ovs_ofctl ("add-flow " +:+ switch_name +:+
                                " " +:+ dquote +:+ "priority=0,actions=normal"
                                +:+ dquote)) ;;
         ret tt
       else ret tt) ;;
      _setup_switch_forwarding_loop rest
  end.

Definition _setup_switch_forwarding : M unit :=
  _setup_switch_forwarding_loop ["es1"; "es2"; "es3"; "es4"].

Definition _setup_router_routes : M unit :=
  ar1 <- net_get "ar1" ;;
  (if is_set ar1
   then
     cmd ar1 (ip_route_add "10.1.2.0/24" (dev "ar1-eth3") None (Some 1)) ;;
     cmd ar1 (ip_route_add "10.2.0.0/16" (via "172.16.1.1") None None) ;;
     ret tt
   else ret tt) ;;
  ar2 <- net_get "ar2" ;;
  (if is_set ar2
   then
     cmd ar2 (ip_route_add "10.1.1.0/24" (dev "ar2-eth3") None (Some 1)) ;;
     cmd ar2 (ip_route_add "10.2.0.0/16" (via "172.16.6.1") None None) ;;
     ret tt
   else ret tt) ;;
  ar3 <- net_get "ar3" ;;
  (if is_set ar3
   then
     cmd ar3 (ip_route_add "10.2.2.0/24" (dev "ar3-eth3") None (Some 1)) ;;
     cmd ar3 (ip_route_add "10.1.0.0/16" (via "172.16.3.1") None None) ;;
     ret tt
   else ret tt) ;;
  ar4 <- net_get "ar4" ;;
  (if is_set ar4
   then
     cmd ar4 (ip_route_add "10.2.1.0/24" (dev "ar4-eth3") None (Some 1)) ;;
     cmd ar4 (ip_route_add "10.1.0.0/16" (via "172.16.8.1") None None) ;;
     ret tt
   else ret tt).

Definition _setup_core_routing : M unit :=
  cr1 <- net_get "cr1" ;;
  (if is_set cr1
   then
     cmd cr1 (ip_route_add "10.1.1.0/24" (via "172.16.1.2") None None) ;;
     cmd cr1 (ip_route_add "10.1.2.0/24" (via "172.16.1.2") None None) ;;
     cmd cr1 (ip_route_add "10.2.1.0/24" (via "172.16.3.2") None None) ;;
     cmd cr1 (ip_route_add "10.2.2.0/24" (via "172.16.3.2") None None) ;;
     ret tt
   else ret tt) ;;
  cr2 <- net_get "cr2" ;;
  (if is_set cr2
   then
     cmd cr2 (ip_route_add "10.1.1.0/24" (via "172.16.6.2") None None) ;;
     cmd cr2 (ip_route_add "10.1.2.0/24" (via "172.16.6.2") None None) ;;
     cmd cr2 (ip_route_add "10.2.1.0/24" (via "172.16.8.2") None None) ;;
     cmd cr2 (ip_route_add "10.2.2.0/24" (via "172.16.8.2") None None) ;;
     ret tt
   else ret tt).

Definition setup_basic_routing : M unit :=
  print "🔧 Setting up basic routing..." ;;
  _setup_host_routes ;;
  _setup_switch_forwarding ;;
  _setup_router_routes ;;
  _setup_core_routing ;;
  print "✅ Basic routing setup complete".

(** ** Link state *)

Definition is_up (status : LinkState) : bool :=
  match status with st_up => true | st_down => false end.

Definition set_intf (status : LinkState) (i : Intf) : Intf :=
  {| node := node i; up := Some (is_up status) |}.

(** A link between the nodes named [a] and [b], in either direction. *)
Definition link_between (a b : string) (l : Link) : bool :=
  bool_decide (node (intf1 l) = a /\ node (intf2 l) = b)
  || bool_decide (node (intf1 l) = b /\ node (intf2 l) = a).

Definition set_link (status : LinkState) (l : Link) : Link :=
  {| intf1 := set_intf status (intf1 l); intf2 := set_intf status (intf2 l) |}.

(** The links after [ifconfig <status>] on both ends of every link between
    [src] and [dst]. *)
Definition set_links (src dst : string) (status : LinkState)
    (ls : list Link) : list Link :=
  map (fun l => if link_between src dst l then set_link status l else l) ls.

(** [net.configLinkStatus(src, dst, status)]: sets both ends of every link
    between the two nodes; an unknown name is reported and nothing is
    changed.  The model records the state of the two interfaces only: the
    [ifconfig] that Mininet runs in the two end nodes, and the routes their
    kernels drop with an interface that goes down, are not modelled. *)
Definition configLinkStatus (src dst : string) (status : LinkState) : M unit :=
  fun w =>
    (Ret tt,
     {| net :=
          if is_set_node (nameToNode (net w)) src
             && is_set_node (nameToNode (net w)) dst
          then {| nameToNode := nameToNode (net w);
                  links := set_links src dst status (links (net w)) |}
          else net w;
        output := output w ++ [LinkStatus src dst status] |}).

(** ** fat_tree_autofix.py *)

Definition fix_ar1_complete_failure : M unit :=
  print "🔧 Fixing complete AR1 failure..." ;;
  try_pass (
    configLinkStatus "ar1" "cr1" st_down ;;
    configLinkStatus "ar1" "es1" st_down ;;
    configLinkStatus "ar1" "es2" st_down) ;;
  h1 <- net_get "h1" ;;
  cmd h1 (ip_route_del "default" None) ;;
  cmd h1 (ip_route_add "default" (via "10.1.1.253") None None) ;;
  cmd h1 (ip_route_add "10.1.2.0/24" (via "10.1.1.253") None (Some 1)) ;;
  cmd h1 (ip_route_add "10.2.0.0/16" (via "10.1.1.253") None (Some 1)) ;;
  h2 <- net_get "h2" ;;
  cmd h2 (ip_route_del "default" None) ;;
  cmd h2 (ip_route_add "default" (via "10.1.1.253") None None) ;;
  cmd h2 (ip_route_add "10.1.2.0/24" (via "10.1.1.253") None (Some 1)) ;;
  cmd h2 (ip_route_add "10.2.0.0/16" (via "10.1.1.253") None (Some 1)) ;;
  h3 <- net_get "h3" ;;
  cmd h3 (ip_route_del "default" None) ;;
  cmd h3 (ip_route_add "default" (via "10.1.2.254") None None) ;;
  cmd h3 (ip_route_add "10.1.1.0/24" (via "10.1.2.254") None (Some 1)) ;;
  cmd h3 (ip_route_add "10.2.0.0/16" (via "10.1.2.254") None (Some 1)) ;;
  h4 <- net_get "h4" ;;
  cmd h4 (ip_route_del "default" None) ;;
  cmd h4 (ip_route_add "default" (via "10.1.2.254") None None) ;;
  cmd h4 (ip_route_add "10.1.1.0/24" (via "10.1.2.254") None (Some 1)) ;;
  cmd h4 (ip_route_add "10.2.0.0/16" (via "10.1.2.254") None (Some 1)) ;;
  ar2 <- net_get "ar2" ;;
  cmd ar2 (ip_route_del "10.1.1.0/24" None) ;;
  cmd ar2 (ip_route_add "10.1.1.0/24" (dev "ar2-eth3") None (Some 1)) ;;
  cmd ar2 (ip_route_add "10.2.1.0/24" (via "172.16.6.1") None (Some 1)) ;;
  cmd ar2 (ip_route_add "10.2.2.0/24" (via "172.16.6.1") None (Some 1)) ;;
  cr2 <- net_get "cr2" ;;
  cmd cr2 (ip_route_add "10.1.1.0/24" (via "172.16.6.2") None (Some 1)) ;;
  ar4 <- net_get "ar4" ;;
  cmd ar4 (ip_route_del "10.2.1.0/24" None) ;;
  cmd ar4 (ip_route_add "10.2.1.0/24" (dev "ar4-eth3") (Some "10.2.1.253") (Some 1)) ;;
  ar3 <- net_get "ar3" ;;
  cmd ar3 (ip_route_del "10.1.1.0/24" None) ;;
  cmd ar3 (ip_route_add "10.1.1.0/24" (via "10.2.1.253") None (Some 1)) ;;
  cmd ar3 (ip_route_del "10.1.2.0/24" None) ;;
  cmd ar3 (ip_route_add "10.1.2.0/24" (via "10.2.1.253") None (Some 1)) ;;
  print "✅ AR1 failure recovery complete".

Definition fix_ar2_complete_failure : M unit :=
  print "🔧 Fixing complete AR2 failure..." ;;
  try_pass (
    configLinkStatus "ar2" "cr2" st_down ;;
    configLinkStatus "ar2" "es2" st_down ;;
    configLinkStatus "ar2" "es1" st_down) ;;
  h3 <- net_get "h3" ;;
  cmd h3 (ip_route_del "default" None) ;;
  cmd h3 (ip_route_add "default" (via "10.1.2.253") None None) ;;
  cmd h3 (ip_route_add "10.1.1.0/24" (via "10.1.2.253") None (Some 1)) ;;
  cmd h3 (ip_route_add "10.2.0.0/16" (via "10.1.2.253") None (Some 1)) ;;
  h4 <- net_get "h4" ;;
  cmd h4 (ip_route_del "default" None) ;;
  cmd h4 (ip_route_add "default" (via "10.1.2.253") None None) ;;
  cmd h4 (ip_route_add "10.1.1.0/24" (via "10.1.2.253") None (Some 1)) ;;
  cmd h4 (ip_route_add "10.2.0.0/16" (via "10.1.2.253") None (Some 1)) ;;
  ar1 <- net_get "ar1" ;;
  cmd ar1 (ip_route_del "10.1.2.0/24" None) ;;
  cmd ar1 (ip_route_add "10.1.2.0/24" (dev "ar1-eth3") None (Some 1)) ;;
  cmd ar1 (ip_route_del "10.2.0.0/16" None) ;;
  cmd ar1 (ip_route_add "10.2.0.0/16" (via "172.16.1.1") None (Some 1)) ;;
  cr1 <- net_get "cr1" ;;
  cmd cr1 (ip_route_del "10.2.1.0/24" None) ;;
  cmd cr1 (ip_route_del "10.2.2.0/24" None) ;;
  cmd cr1 (ip_route_add "10.2.1.0/24" (via "172.16.3.2") None (Some 1)) ;;
  cmd cr1 (ip_route_add "10.2.2.0/24" (via "172.16.3.2") None (Some 1)) ;;
  ar3 <- net_get "ar3" ;;
  cmd ar3 (ip_route_del "10.1.1.0/24" None) ;;
  cmd ar3 (ip_route_del "10.1.2.0/24" None) ;;
  cmd ar3 (ip_route_add "10.1.1.0/24" (via "172.16.3.1") None (Some 1)) ;;
  cmd ar3 (ip_route_add "10.1.2.0/24" (via "172.16.3.1") None (Some 1)) ;;
  ar4 <- net_get "ar4" ;;
  cmd ar4 (ip_route_del "10.1.1.0/24" None) ;;
  cmd ar4 (ip_route_del "10.1.2.0/24" None) ;;
  cmd ar4 (ip_route_add "10.1.1.0/24" (via "10.2.1.254") None (Some 1)) ;;
  cmd ar4 (ip_route_add "10.1.2.0/24" (via "10.2.1.254") None (Some 1)) ;;
  print "✅ AR2 failure recovery complete".

Definition fix_ar3_complete_failure : M unit :=
  print "🔧 Fixing complete AR3 failure..." ;;
  try_pass (
    configLinkStatus "ar3" "cr1" st_down ;;
    configLinkStatus "ar3" "es3" st_down ;;
    configLinkStatus "ar3" "es4" st_down) ;;
  h5 <- net_get "h5" ;;
  cmd h5 (ip_route_del "default" None) ;;
  cmd h5 (ip_route_add "default" (via "10.2.1.253") None None) ;;
  cmd h5 (ip_route_add "10.2.2.0/24" (via "10.2.1.253") None (Some 1)) ;;
  cmd h5 (ip_route_add "10.1.0.0/16" (via "10.2.1.253") None (Some 1)) ;;
  h6 <- net_get "h6" ;;
  cmd h6 (ip_route_del "default" None) ;;
  cmd h6 (ip_route_add "default" (via "10.2.1.253") None None) ;;
  cmd h6 (ip_route_add "10.2.2.0/24" (via "10.2.1.253") None (Some 1)) ;;
  cmd h6 (ip_route_add "10.1.0.0/16" (via "10.2.1.253") None (Some 1)) ;;
  h7 <- net_get "h7" ;;
  cmd h7 (ip_route_del "default" None) ;;
  cmd h7 (ip_route_add "default" (via "10.2.2.254") None None) ;;
  cmd h7 (ip_route_add "10.2.1.0/24" (via "10.2.2.254") None (Some 1)) ;;
  cmd h7 (ip_route_add "10.1.0.0/16" (via "10.2.2.254") None (Some 1)) ;;
  h8 <- net_get "h8" ;;
  cmd h8 (ip_route_del "default" None) ;;
  cmd h8 (ip_route_add "default" (via "10.2.2.254") None None) ;;
  cmd h8 (ip_route_add "10.2.1.0/24" (via "10.2.2.254") None (Some 1)) ;;
  cmd h8 (ip_route_add "10.1.0.0/16" (via "10.2.2.254") None (Some 1)) ;;
  ar4 <- net_get "ar4" ;;
  cmd ar4 (ip_route_del "10.2.1.0/24" None) ;;
  cmd ar4 (ip_route_add "10.2.1.0/24" (dev "ar4-eth3") (Some "10.2.1.253") (Some 1)) ;;
  cmd ar4 (ip_route_add "10.1.1.0/24" (via "172.16.8.1") None (Some 1)) ;;
  cmd ar4 (ip_route_add "10.1.2.0/24" (via "172.16.8.1") None (Some 1)) ;;
  cr2 <- net_get "cr2" ;;
  cmd cr2 (ip_route_add "10.2.1.0/24" (via "172.16.8.2") None (Some 1)) ;;
  ar1 <- net_get "ar1" ;;
  cmd ar1 (ip_route_del "10.2.1.0/24" None) ;;
  cmd ar1 (ip_route_add "10.2.1.0/24" (via "10.1.1.253") None (Some 1)) ;;
  cmd ar1 (ip_route_del "10.2.2.0/24" None) ;;
  cmd ar1 (ip_route_add "10.2.2.0/24" (via "10.1.1.253") None (Some 1)) ;;
  ar2 <- net_get "ar2" ;;
  cmd ar2 (ip_route_del "10.2.1.0/24" None) ;;
  cmd ar2 (ip_route_add "10.2.1.0/24" (via "172.16.6.1") None (Some 1)) ;;
  cmd ar2 (ip_route_del "10.2.2.0/24" None) ;;
  cmd ar2 (ip_route_add "10.2.2.0/24" (via "172.16.6.1") None (Some 1)) ;;
  print "✅ AR3 failure recovery complete".

Definition fix_ar4_complete_failure : M unit :=
  print "🔧 Fixing complete AR4 failure..." ;;
  try_pass (
    configLinkStatus "ar4" "cr2" st_down ;;
    configLinkStatus "ar4" "es4" st_down ;;
    configLinkStatus "ar4" "es3" st_down) ;;
  h7 <- net_get "h7" ;;
  cmd h7 (ip_route_del "default" None) ;;
  cmd h7 (ip_route_add "default" (via "10.2.2.253") None None) ;;
  cmd h7 (ip_route_add "10.2.1.0/24" (via "10.2.2.253") None (Some 1)) ;;
  cmd h7 (ip_route_add "10.1.0.0/16" (via "10.2.2.253") None (Some 1)) ;;
  h8 <- net_get "h8" ;;
  cmd h8 (ip_route_del "default" None) ;;
  cmd h8 (ip_route_add "default" (via "10.2.2.253") None None) ;;
  cmd h8 (ip_route_add "10.2.1.0/24" (via "10.2.2.253") None (Some 1)) ;;
  cmd h8 (ip_route_add "10.1.0.0/16" (via "10.2.2.253") None (Some 1)) ;;
  h5 <- net_get "h5" ;;
  cmd h5 (ip_route_del "default" None) ;;
  cmd h5 (ip_route_add "default" (via "10.2.1.254") None None) ;;
  cmd h5 (ip_route_add "10.2.2.0/24" (via "10.2.1.254") None (Some 1)) ;;
  cmd h5 (ip_route_add "10.1.0.0/16" (via "10.2.1.254") None (Some 1)) ;;
  h6 <- net_get "h6" ;;
  cmd h6 (ip_route_del "default" None) ;;
  cmd h6 (ip_route_add "default" (via "10.2.1.254") None None) ;;
  cmd h6 (ip_route_add "10.2.2.0/24" (via "10.2.1.254") None (Some 1)) ;;
  cmd h6 (ip_route_add "10.1.0.0/16" (via "10.2.1.254") None (Some 1)) ;;
  ar3 <- net_get "ar3" ;;
  cmd ar3 (ip_route_del "10.2.2.0/24" None) ;;
  cmd ar3 (ip_route_add "10.2.2.0/24" (dev "ar3-eth3") None (Some 1)) ;;
  cmd ar3 (ip_route_add "10.1.1.0/24" (via "172.16.3.1") None (Some 1)) ;;
  cmd ar3 (ip_route_add "10.1.2.0/24" (via "172.16.3.1") None (Some 1)) ;;
  cr1 <- net_get "cr1" ;;
  cmd cr1 (ip_route_add "10.2.2.0/24" (via "172.16.3.2") None (Some 1)) ;;
  ar1 <- net_get "ar1" ;;
  cmd ar1 (ip_route_del "10.2.2.0/24" None) ;;
  cmd ar1 (ip_route_add "10.2.2.0/24" (via "172.16.1.1") None (Some 1)) ;;
  cmd ar1 (ip_route_del "10.2.1.0/24" None) ;;
  cmd ar1 (ip_route_add "10.2.1.0/24" (via "172.16.1.1") None (Some 1)) ;;
  ar2 <- net_get "ar2" ;;
  cmd ar2 (ip_route_del "10.2.2.0/24" None) ;;
  cmd ar2 (ip_route_add "10.2.2.0/24" (via "10.1.2.253") None (Some 1)) ;;
  cmd ar2 (ip_route_del "10.2.1.0/24" None) ;;
  cmd ar2 (ip_route_add "10.2.1.0/24" (via "10.1.2.253") None (Some 1)) ;;
  print "✅ AR4 failure recovery complete".

Definition fix_cr1_complete_failure : M unit :=
  print "🔧 Fixing complete CR1 failure..." ;;
  try_pass (
    configLinkStatus "cr1" "ar1" st_down ;;
    configLinkStatus "cr1" "ar3" st_down) ;;
  ar1 <- net_get "ar1" ;;
  cmd ar1 (ip_route_del "10.2.0.0/16" None) ;;
  cmd ar1 (ip_route_add "10.2.0.0/16" (via "10.1.1.253") None (Some 1)) ;;
  ar3 <- net_get "ar3" ;;
  cmd ar3 (ip_route_del "10.1.0.0/16" None) ;;
  cmd ar3 (ip_route_add "10.1.0.0/16" (via "10.2.1.253") None (Some 1)) ;;
  ar2 <- net_get "ar2" ;;
  cmd ar2 (ip_route_add "10.2.1.0/24" (via "172.16.6.1") None (Some 1)) ;;
  cmd ar2 (ip_route_add "10.2.2.0/24" (via "172.16.6.1") None (Some 1)) ;;
  ar4 <- net_get "ar4" ;;
  cmd ar4 (ip_route_add "10.1.1.0/24" (via "172.16.8.1") None (Some 1)) ;;
  cmd ar4 (ip_route_add "10.1.2.0/24" (via "172.16.8.1") None (Some 1)) ;;
  cr2 <- net_get "cr2" ;;
  cmd cr2 (ip_route_add "10.1.1.0/24" (via "172.16.6.2") None (Some 1)) ;;
  cmd cr2 (ip_route_add "10.1.2.0/24" (via "172.16.6.2") None (Some 1)) ;;
  cmd cr2 (ip_route_add "10.2.1.0/24" (via "172.16.8.2") None (Some 1)) ;;
  cmd cr2 (ip_route_add "10.2.2.0/24" (via "172.16.8.2") None (Some 1)) ;;
  print "✅ CR1 failure recovery complete".

Definition fix_cr2_complete_failure : M unit :=
  print "🔧 Fixing complete CR2 failure..." ;;
  try_pass (
    configLinkStatus "cr2" "ar2" st_down ;;
    configLinkStatus "cr2" "ar4" st_down) ;;
  ar2 <- net_get "ar2" ;;
  cmd ar2 (ip_route_del "10.2.0.0/16" None) ;;
  cmd ar2 (ip_route_add "10.2.0.0/16" (via "10.1.2.253") None (Some 1)) ;;
  ar4 <- net_get "ar4" ;;
  cmd ar4 (ip_route_del "10.1.0.0/16" None) ;;
  cmd ar4 (ip_route_add "10.1.0.0/16" (via "10.2.2.253") None (Some 1)) ;;
  ar1 <- net_get "ar1" ;;
  cmd ar1 (ip_route_add "10.2.1.0/24" (via "172.16.1.1") None (Some 1)) ;;
  cmd ar1 (ip_route_add "10.2.2.0/24" (via "172.16.1.1") None (Some 1)) ;;
  ar3 <- net_get "ar3" ;;
  cmd ar3 (ip_route_add "10.1.1.0/24" (via "172.16.3.1") None (Some 1)) ;;
  cmd ar3 (ip_route_add "10.1.2.0/24" (via "172.16.3.1") None (Some 1)) ;;
  cr1 <- net_get "cr1" ;;
  cmd cr1 (ip_route_add "10.1.1.0/24" (via "172.16.1.2") None (Some 1)) ;;
  cmd cr1 (ip_route_add "10.1.2.0/24" (via "172.16.1.2") None (Some 1)) ;;
  cmd cr1 (ip_route_add "10.2.1.0/24" (via "172.16.3.2") None (Some 1)) ;;
  cmd cr1 (ip_route_add "10.2.2.0/24" (via "172.16.3.2") None (Some 1)) ;;
  print "✅ CR2 failure recovery complete".

(** [intf.isUp()] *)
Definition isUp (i : Intf) : Res bool :=
  match up i with
  | Some b => Ret b
  | None => Raise OSError
  end.

(** The body of the [try] of [detect_link_failure]: the loop over
    [controller.net.links]. *)
Fixpoint detect_link_failure_loop (ls : list Link) (node1 node2 : string)
    : Res bool :=
  match ls with
  | [] => Ret false
  | link :: rest =>
      let link_nodes := [node (intf1 link); node (intf2 link)] in
      if bool_decide (node1 ∈ link_nodes) && bool_decide (node2 ∈ link_nodes)
      then
        match isUp (intf1 link) with
        | Raise e => Raise e
        | Ret intf1_up =>
            match isUp (intf2 link) with
            | Raise e => Raise e
            | Ret intf2_up => Ret (negb (intf1_up && intf2_up))
            end
        end
      else detect_link_failure_loop rest node1 node2
  end.

Definition detect_link_failure (node1 node2 : string) : M bool :=
  fun w =>
    match detect_link_failure_loop (links (net w)) node1 node2 with
    | Ret b => (Ret b, w)
    | Raise _ => (Ret false, w)
    end.

Definition test_pairs : list (string * string) :=
  [ ("h1", "h3"); ("h1", "h5"); ("h3", "h5");
    ("h5", "h7"); ("h7", "h1"); ("h5", "h3") ].

(** The verification loop of [auto_detect_and_fix_failures]. *)
Fixpoint verify_loop (pairs : list (string * string)) (all_working : bool)
    : M bool :=
  match pairs with
  | [] => ret all_working
  | (src, dst) :: rest =>
      success <- test_connectivity src dst ;;
      print ("   " +:+ (if success then "✅" else "❌") +:+ " " +:+ src
             +:+ " → " +:+ dst) ;;
      verify_loop rest (if negb success then false else all_working)
  end.

Fixpoint join (sep : string) (l : list string) : string :=
  match l with
  | [] => EmptyString
  | [x] => x
  | x :: rest => x +:+ sep +:+ join sep rest
  end.

Fixpoint times (n : nat) (s : string) : string :=
  match n with
  | 0 => EmptyString
  | S k => s +:+ times k s
  end.

(** The [if]/[elif] chain of [auto_detect_and_fix_failures]; its value is
    the list [fixes_applied]. *)
Definition detect_and_fix : M (list string) :=
  d <- detect_link_failure "ar1" "es1" ;;
  if d then
    print "🔍 AR1↔ES1 LINK FAILURE DETECTED - removing AR1..." ;;
    fix_ar1_complete_failure ;;
    ret ["AR1 (ar1↔es1 failed)"]
  else
  d <- detect_link_failure "ar1" "es2" ;;
  if d then
    print "🔍 AR1↔ES2 LINK FAILURE DETECTED - removing AR1..." ;;
    fix_ar1_complete_failure ;;
    ret ["AR1 (ar1↔es2 failed)"]
  else
  d <- detect_link_failure "ar2" "es1" ;;
  if d then
    print "🔍 AR2↔ES1 LINK FAILURE DETECTED - removing AR2..." ;;
    fix_ar2_complete_failure ;;
    ret ["AR2 (ar2↔es1 failed)"]
  else
  d <- detect_link_failure "ar2" "es2" ;;
  if d then
    print "🔍 AR2↔ES2 LINK FAILURE DETECTED - removing AR2..." ;;
    fix_ar2_complete_failure ;;
    ret ["AR2 (ar2↔es2 failed)"]
  else
  d <- detect_link_failure "ar3" "es3" ;;
  if d then
    print "🔍 AR3↔ES3 LINK FAILURE DETECTED - removing AR3..." ;;
    fix_ar3_complete_failure ;;
    ret ["AR3 (ar3↔es3 failed)"]
  else
  d <- detect_link_failure "ar3" "es4" ;;
  if d then
    print "🔍 AR3↔ES4 LINK FAILURE DETECTED - removing AR3..." ;;
    fix_ar3_complete_failure ;;
    ret ["AR3 (ar3↔es4 failed)"]
  else
  d <- detect_link_failure "ar4" "es3" ;;
  if d then
    print "🔍 AR4↔ES3 LINK FAILURE DETECTED - removing AR4..." ;;
    fix_ar4_complete_failure ;;
    ret ["AR4 (ar4↔es3 failed)"]
  else
  d <- detect_link_failure "ar4" "es4" ;;
  if d then
    print "🔍 AR4↔ES4 LINK FAILURE DETECTED - removing AR4..." ;;
    fix_ar4_complete_failure ;;
    ret ["AR4 (ar4↔es4 failed)"]
  else
  d <- detect_link_failure "ar1" "cr1" ;;
  if d then
    print "🔍 AR1↔CR1 LINK FAILURE DETECTED - removing CR1..." ;;
    fix_cr1_complete_failure ;;
    ret ["CR1 (ar1↔cr1 failed)"]
  else
  d <- detect_link_failure "ar2" "cr2" ;;
  if d then
    print "🔍 AR2↔CR2 LINK FAILURE DETECTED - removing CR2..." ;;
    fix_cr2_complete_failure ;;
    ret ["CR2 (ar2↔cr2 failed)"]
  else
  d <- detect_link_failure "ar3" "cr1" ;;
  if d then
    print "🔍 AR3↔CR1 LINK FAILURE DETECTED - removing CR1..." ;;
    fix_cr1_complete_failure ;;
    ret ["CR1 (ar3↔cr1 failed)"]
  else
  d <- detect_link_failure "ar4" "cr2" ;;
  if d then
    print "🔍 AR4↔CR2 LINK FAILURE DETECTED - removing CR2..." ;;
    fix_cr2_complete_failure ;;
    ret ["CR2 (ar4↔cr2 failed)"]
  else ret [].

Definition verify_fixes (fixes_applied : list string) : M bool :=
  print ("⚡ APPLIED AUTO-FIXES: " +:+ join ", " fixes_applied) ;;
  sleep 2 ;;
  print (newline +:+ "🧪 VERIFYING AUTO-FIX RESULTS:") ;;
  all_working <- verify_loop test_pairs true ;;
  (if all_working
   then print "🎉 AUTO-FIX SUCCESSFUL! All connections working!"
   else print "⚠️ Some connections still failing") ;;
  ret all_working.

Definition auto_detect_and_fix_failures : M bool :=
  print "🤖 AUTO-DETECTING SPECIFIC LINK FAILURES..." ;;
  print (times 45 "=") ;;
  fixes_applied <- detect_and_fix ;;
  match fixes_applied with
  | _ :: _ => verify_fixes fixes_applied
  | [] =>
      print "✅ No link failures detected - network is healthy" ;;
      ret true
  end.

(** ** The scan order and the recovery plans as a table *)

Definition plan (e : Element) : M unit :=
  match e with
  | AR1 => fix_ar1_complete_failure
  | AR2 => fix_ar2_complete_failure
  | AR3 => fix_ar3_complete_failure
  | AR4 => fix_ar4_complete_failure
  | CR1 => fix_cr1_complete_failure
  | CR2 => fix_cr2_complete_failure
  end.

(** What one probe answers in a given network. *)
Definition reachable (n : Mininet) (p : string * string) : bool :=
  match (test_connectivity p.1 p.2 {| net := n; output := [] |}).1 with
  | Ret b => b
  | Raise _ => false
  end.

(** What one probe of the verification loop leaves on the console and in
    the command log. *)
Definition transcript (n : Mininet) (p : string * string) : list Event :=
  output (test_connectivity p.1 p.2 {| net := n; output := [] |}).2
  ++ [Print ("   " +:+ (if reachable n p then "✅" else "❌") +:+ " " +:+ p.1
             +:+ " → " +:+ p.2)].

(** What the verification sweep adds to the output in network [n]. *)
Definition verification_events (fixes_applied : list string) (n : Mininet)
    : list Event :=
  [ Print ("⚡ APPLIED AUTO-FIXES: " +:+ join ", " fixes_applied);
    Print (newline +:+ "🧪 VERIFYING AUTO-FIX RESULTS:") ]
  ++ flat_map (transcript n) test_pairs
  ++ [ Print (if forallb (reachable n) test_pairs
              then "🎉 AUTO-FIX SUCCESSFUL! All connections working!"
              else "⚠️ Some connections still failing") ].

End Engine.

(** ** fat_tree_topology.py *)

Definition mk_node (ip : option string) : Node := {| IP := ip; routes := ∅ |}.

Definition mk_link (node1 node2 : string) : Link :=
  {| intf1 := {| node := node1; up := Some true |};
     intf2 := {| node := node2; up := Some true |} |}.

Definition core_aggregation_links : list (string * string) :=
  [ ("cr1", "ar1"); ("cr1", "ar3"); ("cr2", "ar2"); ("cr2", "ar4") ].

Definition aggregation_edge_links : list (string * string) :=
  [ ("ar1", "es1"); ("ar2", "es2"); ("ar3", "es3"); ("ar4", "es4");
    ("ar1", "es2"); ("ar2", "es1"); ("ar3", "es4"); ("ar4", "es3") ].

Definition host_links : list (string * string) :=
  [ ("h1", "es1"); ("h2", "es1"); ("h3", "es2"); ("h4", "es2");
    ("h5", "es3"); ("h6", "es3"); ("h7", "es4"); ("h8", "es4") ].

(** The links the topology creates, in creation order. *)
Definition topology_links : list (string * string) :=
  core_aggregation_links ++ aggregation_edge_links ++ host_links.

(** [create_network()]: the network as built, before any routing setup. *)
Definition create_network : Mininet :=
  {| nameToNode :=
       list_to_map
         [ ("c0", mk_node (Some "127.0.0.1"));
           ("cr1", mk_node None); ("cr2", mk_node None);
           ("ar1", mk_node None); ("ar2", mk_node None);
           ("ar3", mk_node None); ("ar4", mk_node None);
           ("es1", mk_node (Some "127.0.0.1"));
           ("es2", mk_node (Some "127.0.0.1"));
           ("es3", mk_node (Some "127.0.0.1"));
           ("es4", mk_node (Some "127.0.0.1"));
           ("h1", mk_node (Some "10.1.1.1")); ("h2", mk_node (Some "10.1.1.2"));
           ("h3", mk_node (Some "10.1.2.1")); ("h4", mk_node (Some "10.1.2.2"));
           ("h5", mk_node (Some "10.2.1.1")); ("h6", mk_node (Some "10.2.1.2"));
           ("h7", mk_node (Some "10.2.2.1")); ("h8", mk_node (Some "10.2.2.2")) ];
     links := map (fun p => mk_link p.1 p.2) topology_links |}.

(** ** The scan order and the observations *)

Record Candidate := {
  node1 : string;
  node2 : string;
  element : Element;
  message : string;
  label : string
}.

(** The 12 candidate links in scan order, each with the element whose plan
    it triggers, the line announcing the detection and the entry appended to
    [fixes_applied]. *)
Definition candidate_links : list Candidate :=
  [ {| node1 := "ar1"; node2 := "es1"; element := AR1;
       message := "🔍 AR1↔ES1 LINK FAILURE DETECTED - removing AR1...";
       label := "AR1 (ar1↔es1 failed)" |};
    {| node1 := "ar1"; node2 := "es2"; element := AR1;
       message := "🔍 AR1↔ES2 LINK FAILURE DETECTED - removing AR1...";
       label := "AR1 (ar1↔es2 failed)" |};
    {| node1 := "ar2"; node2 := "es1"; element := AR2;
       message := "🔍 AR2↔ES1 LINK FAILURE DETECTED - removing AR2...";
       label := "AR2 (ar2↔es1 failed)" |};
    {| node1 := "ar2"; node2 := "es2"; element := AR2;
       message := "🔍 AR2↔ES2 LINK FAILURE DETECTED - removing AR2...";
       label := "AR2 (ar2↔es2 failed)" |};
    {| node1 := "ar3"; node2 := "es3"; element := AR3;
       message := "🔍 AR3↔ES3 LINK FAILURE DETECTED - removing AR3...";
       label := "AR3 (ar3↔es3 failed)" |};
    {| node1 := "ar3"; node2 := "es4"; element := AR3;
       message := "🔍 AR3↔ES4 LINK FAILURE DETECTED - removing AR3...";
       label := "AR3 (ar3↔es4 failed)" |};
    {| node1 := "ar4"; node2 := "es3"; element := AR4;
       message := "🔍 AR4↔ES3 LINK FAILURE DETECTED - removing AR4...";
       label := "AR4 (ar4↔es3 failed)" |};
    {| node1 := "ar4"; node2 := "es4"; element := AR4;
       message := "🔍 AR4↔ES4 LINK FAILURE DETECTED - removing AR4...";
       label := "AR4 (ar4↔es4 failed)" |};
    {| node1 := "ar1"; node2 := "cr1"; element := CR1;
       message := "🔍 AR1↔CR1 LINK FAILURE DETECTED - removing CR1...";
       label := "CR1 (ar1↔cr1 failed)" |};
    {| node1 := "ar2"; node2 := "cr2"; element := CR2;
       message := "🔍 AR2↔CR2 LINK FAILURE DETECTED - removing CR2...";
       label := "CR2 (ar2↔cr2 failed)" |};
    {| node1 := "ar3"; node2 := "cr1"; element := CR1;
       message := "🔍 AR3↔CR1 LINK FAILURE DETECTED - removing CR1...";
       label := "CR1 (ar3↔cr1 failed)" |};
    {| node1 := "ar4"; node2 := "cr2"; element := CR2;
       message := "🔍 AR4↔CR2 LINK FAILURE DETECTED - removing CR2...";
       label := "CR2 (ar4↔cr2 failed)" |} ].

(** A candidate link is down when [detect_link_failure] says so. *)
Definition is_down (n : Mininet) (a b : string) : bool :=
  match detect_link_failure_loop (links n) a b with
  | Ret r => r
  | Raise _ => false
  end.

(** The first down link in scan order. *)
Definition first_down (n : Mininet) : option Candidate :=
  find (fun c => is_down n (node1 c) (node2 c)) candidate_links.

Definition banner_element (line : string) : option Element :=
  find (fun e => bool_decide (banner e = line)) [AR1; AR2; AR3; AR4; CR1; CR2].

(** The plans a run has entered, read off its console output. *)
Definition plans_invoked (evs : list Event) : list Element :=
  omap (fun ev => match ev with
                  | Print line => banner_element line
                  | _ => None
                  end) evs.

(** What a run from [w] to [w'] has added to the output. *)
Definition emitted (w w' : World) : list Event :=
  drop (List.length (output w)) (output w').

(** The nodes at the other end of the links of a node in the topology. *)
Definition neighbours (name : string) : list string :=
  omap (fun p : string * string =>
          if decide (p.1 = name) then Some p.2
          else if decide (p.2 = name) then Some p.1
          else None)
       topology_links.

Definition is_link_event (ev : Event) : bool :=
  match ev with LinkStatus _ _ _ => true | _ => false end.

Definition is_cmd_event (ev : Event) : bool :=
  match ev with Cmd _ _ => true | _ => false end.

(** The result of [detect_link_failure] read off the first link between the
    two nodes. *)
Definition first_link_down (n : Mininet) (a b : string) : bool :=
  match find (link_between a b) (links n) with
  | None => false
  | Some l =>
      match up (intf1 l), up (intf2 l) with
      | Some u1, Some u2 => negb (u1 && u2)
      | _, _ => false
      end
  end.

(** The lines [auto_detect_and_fix_failures] starts with. *)
Definition header : list Event :=
  [ Print "🤖 AUTO-DETECTING SPECIFIC LINK FAILURES...";
    Print (times 45 "=") ].

Definition healthy : Event :=
  Print "✅ No link failures detected - network is healthy".

(** The world in which the plan for candidate [c] starts. *)
Definition announced (c : Candidate) (w : World) : World :=
  {| net := net w;
     output := output w ++ header ++ [Print (message c)] |}.

(** ** Concrete command sinks and networks *)

Definition accept_all (_ : Mininet) (_ : string) (_ : command) : bool := true.

Definition refuse_all (_ : Mininet) (_ : string) (_ : command) : bool := false.

Definition ping_success (_ : Mininet) (_ _ : string) : string :=
  "64 bytes from host: icmp_seq=1 ttl=62 time=0.1 ms".

Definition ping_silent (_ : Mininet) (_ _ : string) : string := EmptyString.

(** The network once [setup_basic_routing] has run on the fresh topology. *)
Definition basic_world : World :=
  (setup_basic_routing accept_all ping_success
     {| net := create_network; output := [] |}).2.

(** The network with the link [a]-[b] forced down. *)
Definition break_link (a b : string) (w : World) : World :=
  (configLinkStatus a b st_down w).2.


Definition ar1_es1 : Candidate :=
  {| node1 := "ar1"; node2 := "es1"; element := AR1;
     message := "🔍 AR1↔ES1 LINK FAILURE DETECTED - removing AR1...";
     label := "AR1 (ar1↔es1 failed)" |}.



(** The network with link cr1-ar1 down: [detect_link_failure] is asked about
    the pair (ar1, ar1) in it. *)
Definition core_link_down : World := break_link "cr1" "ar1" basic_world.

(** ** Route replacement on one table *)

(** The next hop of the route the code adds, when the dict holds what the
    branch taken reads; [None] when the code adds no route (another type, or
    a missing key, which raises). *)
Definition rc_hop (rc : route_config) : option hop :=
  match cfg_type rc with
  | Some type =>
      if bool_decide (type = "dev") then dev <$> cfg_interface rc
      else if bool_decide (type = "via") then via <$> cfg_gateway rc
      else None
  | None => None
  end.

(** [route_config.get("metric", 1)] *)
Definition rc_metric (rc : route_config) : nat := default 1 (cfg_metric rc).

(** What the commands of [update_router_route] make of a table when the
    kernel accepts them all. *)
Definition replace_route (d : string) (rc : route_config)
    (t : gmap (string * nat) Route) : gmap (string * nat) Route :=
  let cleared :=
    route_del d (Some 2) (route_del d (Some 1) (route_del d None t)) in
  match rc_hop rc with
  | Some h => route_add d h None (Some (rc_metric rc)) cleared
  | None => cleared
  end.

(** The network [n] with the table of node [name] replaced by [t]. *)
Definition with_routes (name : string) (nd : Node)
    (t : gmap (string * nat) Route) (n : Mininet) : Mininet :=
  {| nameToNode := <[name := set_routes t nd]> (nameToNode n);
     links := links n |}.

(** The three deletions of [update_router_route] reach every route to [d]:
    each one is the route with the lowest metric or has metric 1 or 2. *)
Definition clearable (d : string) (t : gmap (string * nat) Route) : Prop :=
  forall m, is_Some (t !! (d, m)) ->
    m = 1 \/ m = 2 \/ (forall m', is_Some (t !! (d, m')) -> m <= m').

(** A run that leaves two routes to one prefix in cr2: [update_router_route]
    with metric 5, then the AR1 plan, which adds a metric 1 route without
    deleting first. *)
Definition residue_world : World :=
  (fix_ar1_complete_failure accept_all ping_success
     (update_router_route accept_all ping_success "cr2" "10.1.1.0/24"
        (rc_via "172.16.6.2" (Some 5)) basic_world).2).2.

Definition set_metric_7 : M bool :=
  update_router_route accept_all ping_success "cr2" "10.1.1.0/24"
    (rc_via "172.16.6.2" (Some 7)).

(** The network with link ar1-es1 down, and the run that repairs it. *)
Definition ar1_es1_down : World := break_link "ar1" "es1" basic_world.

Definition ar1_es1_repaired : Res bool * World :=
  auto_detect_and_fix_failures accept_all ping_success ar1_es1_down.

(** A network of one router with one route. *)
Definition lab_router : Node :=
  {| IP := None;
     routes := {[ ("10.9.0.0/16", 0) :=
                    {| nexthop := via "172.16.0.1"; prefsrc := None |} ]} |}.

Definition lab_world : World :=
  {| net := {| nameToNode := {[ "r1" := lab_router ]}; links := [] |};
     output := [] |}.

Definition set_lab_route : M bool :=
  update_router_route accept_all ping_success "r1" "10.9.0.0/16"
    (rc_via "172.16.0.9" (Some 5)).

(** Both ends of a link report down. *)
Definition both_down (l : Link) : Prop :=
  up (intf1 l) = Some false /\ up (intf2 l) = Some false.

(** ** Relating the worlds before and after a run *)

(** From [w] to [w'] the output has only grown, by events that satisfy [P],
    and the networks are related by [Q]. *)
Definition grows (P : Event -> Prop) (Q : Mininet -> Mininet -> Prop)
    (w w' : World) : Prop :=
  (exists evs, output w' = output w ++ evs /\ Forall P evs)
  /\ Q (net w) (net w').

Definition respects (P : Event -> Prop) (Q : Mininet -> Mininet -> Prop)
    {A} (m : M A) : Prop :=
  forall w, grows P Q w (m w).2.

Definition same_links (n n' : Mininet) : Prop := links n' = links n.

(** Not the first line of a recovery plan. *)
Definition quiet (ev : Event) : Prop :=
  match ev with
  | Print line => banner_element line = None
  | _ => True
  end.

(** What a recovery plan does after it has marked the links. *)
Definition plan_tail_event (ev : Event) : Prop :=
  quiet ev /\ is_link_event ev = false.

Definition link_down_events (e : Element) : list Event :=
  map (fun other => LinkStatus (element_name e) other st_down)
      (neighbours (element_name e)).

Definition in_network (n : Mininet) (name : string) : Prop :=
  is_set_node (nameToNode n) name = true.

(** The links of [n] once every link from [name] to one of [others] has
    been configured down, in that order. *)
Definition marked (name : string) (others : list string) (n : Mininet)
    : list Link :=
  foldl (fun ls other =>
           if is_set_node (nameToNode n) name
              && is_set_node (nameToNode n) other
           then set_links name other st_down ls
           else ls)
        (links n) others.

(** * More of the code *)

(** ** router_config.py: clear_routes and get_node_subnet;
       main_controller.py: reset, basic test, break-and-fix *)

(** [s.rfind(c)]: the index of the last [c] in [s], or -1. *)
Fixpoint rfind_from (c : Ascii.ascii) (s : string) (i : Z) (found : Z) : Z :=
  match s with
  | EmptyString => found
  | String a rest =>
      rfind_from c rest (i + 1) (if decide (a = c) then i else found)
  end.

Definition rfind (c : Ascii.ascii) (s : string) : Z := rfind_from c s 0 (-1).

(** [s[:k]], a negative [k] counting from the end. *)
Definition slice_to (s : string) (k : Z) : string :=
  let n := Z.of_nat (String.length s) in
  let stop := if decide (k < 0)%Z then Z.max 0 (n + k) else Z.min k n in
  String.substring 0 (Z.to_nat stop) s.

Definition dot : Ascii.ascii := Ascii.ascii_of_nat 46.

(** A string is true in a condition when it is not empty. *)
Definition nonempty (s : string) : bool :=
  match s with EmptyString => false | String _ _ => true end.

Section Controller.

Variable cmd_ok : Mininet -> string -> command -> bool.
Variable ping_reply : Mininet -> string -> string -> string.

(** The inner loop of [clear_routes], over the router names. *)
Fixpoint clear_routes_routers (routers : list string)
    (src_subnet dst_subnet : string) : M unit :=
  match routers with
  | [] => ret tt
  | router_name :: rest =>
      router <- net_get router_name ;;
      (if is_set router
       then
         cmd cmd_ok ping_reply router (ip_route_del src_subnet None) ;;
         cmd cmd_ok ping_reply router (ip_route_del dst_subnet None) ;;
         cmd cmd_ok ping_reply router ip_route_flush_cache ;;
         ret tt
       else ret tt) ;;
      clear_routes_routers rest src_subnet dst_subnet
  end.

Fixpoint clear_routes (subnet_pairs : list (string * string)) : M unit :=
  match subnet_pairs with
  | [] => ret tt
  | (src_subnet, dst_subnet) :: rest =>
      clear_routes_routers ["ar1"; "ar2"; "ar3"; "ar4"] src_subnet dst_subnet ;;
      clear_routes rest
  end.

Definition get_node_subnet (node_name : string) : M (option string) :=
  nd <- net_get node_name ;;
  if is_set nd
  then
    ip <- node_IP nd ;;
    match ip with
    | Some ip =>
        if nonempty ip
        then ret (Some (slice_to ip (rfind dot ip) +:+ ".0/24"))
        else ret None
    | None => ret None
    end
  else ret None.

(** [try: body / except Exception as e: handler] *)
Definition try_except {A} (body : M A) (handler : Exn -> M A) : M A :=
  fun w =>
    match body w with
    | (Ret a, w') => (Ret a, w')
    | (Raise e, w') => handler e w'
    end.

(** What [f'{e}'] prints for an exception. *)
Variable exn_text : Exn -> string.

(** The first loop of [graceful_reset_network_only]: every link up, each
    in its own [try]. *)
Fixpoint reset_links_loop (ls : list Link) : M unit :=
  match ls with
  | [] => ret tt
  | link :: rest =>
      try_pass (configLinkStatus (node (intf1 link)) (node (intf2 link)) st_up) ;;
      reset_links_loop rest
  end.

(** The probe loop of [graceful_reset_network_only]. *)
Fixpoint reset_probe_loop (pairs : list (string * string)) (all_working : bool)
    : M bool :=
  match pairs with
  | [] => ret all_working
  | (src, dst) :: rest =>
      success <- test_connectivity cmd_ok ping_reply src dst ;;
      reset_probe_loop rest (if negb success then false else all_working)
  end.

Definition basic_pairs : list (string * string) :=
  [ ("h1", "h3"); ("h1", "h5"); ("h3", "h7") ].

Definition graceful_reset_network_only : M bool :=
  try_except
    ((fun w => reset_links_loop (links (net w)) w) ;;
     sleep 1 ;;
     setup_basic_routing cmd_ok ping_reply ;;
     all_working <- reset_probe_loop basic_pairs true ;;
     print (if all_working then "✅ Network reset completed"
            else "⚠️ Some connections failing") ;;
     ret all_working)
    (fun e => print ("❌ Reset failed: " +:+ exn_text e) ;; ret false).

(** The loop of [test_basic_connectivity]. *)
Fixpoint basic_probe_loop (pairs : list (string * string)) : M unit :=
  match pairs with
  | [] => ret tt
  | (src, dst) :: rest =>
      success <- test_connectivity cmd_ok ping_reply src dst ;;
      print ((if success then "✅" else "❌") +:+ " " +:+ src +:+ " → " +:+ dst) ;;
      basic_probe_loop rest
  end.

Definition test_basic_connectivity : M bool :=
  basic_probe_loop basic_pairs ;;
  ret true.

Definition break_link_and_auto_fix (node1 node2 : string) : M bool :=
  print ("🔨 Breaking " +:+ node1 +:+ "↔" +:+ node2) ;;
  configLinkStatus node1 node2 st_down ;;
  sleep 1 ;;
  auto_detect_and_fix_failures cmd_ok ping_reply.

End Controller.

(** ** What a run may change *)

(** The destination a command changes routes to, if any. *)
Definition cmd_destination (c : command) : option string :=
  match c with
  | ip_route_del d _ => Some d
  | ip_route_add d _ _ _ => Some d
  | _ => None
  end.

(** From [n] to [n'] the links, the set of nodes and their addresses are the
    same, and the routes of node [x] to prefix [d] are the same unless
    [touch x d]. *)
Definition changes_only (touch : string -> string -> Prop)
    (n n' : Mininet) : Prop :=
  links n' = links n
  /\ forall x,
       match nameToNode n !! x, nameToNode n' !! x with
       | Some nd, Some nd' =>
           IP nd' = IP nd
           /\ forall k, ~ touch x k.1 -> routes nd' !! k = routes nd !! k
       | None, None => True
       | _, _ => False
       end.

(** The route of node [x] to prefix [d] is the one a [setRoute] names. *)
Definition the_route (name d : string) (x d' : string) : Prop :=
  x = name /\ d' = d.

(** Any event. *)
Definition any_event (ev : Event) : Prop := True.

(** ** One route per prefix *)

(** No node holds two routes to one prefix. *)
Definition at_most_one_route (n : Mininet) : Prop :=
  forall x nd d m m',
    nameToNode n !! x = Some nd ->
    is_Some (routes nd !! (d, m)) ->
    is_Some (routes nd !! (d, m')) ->
    m = m'.

(** What the commands of [update_host_route] make of a table when the
    kernel accepts them all. *)
Definition replace_host_route (d gateway : string)
    (t : gmap (string * nat) Route) : gmap (string * nat) Route :=
  route_add d (via gateway) None (Some 1) (route_del d None t).

(** A [setRoute] call, on a router or on a host. *)
Inductive SetRoute :=
  | router_route (router_name destination : string) (rc : route_config)
  | host_route (host_name destination gateway : string).

Section Calls.

Variable cmd_ok : Mininet -> string -> command -> bool.
Variable ping_reply : Mininet -> string -> string -> string.

Definition set_route (c : SetRoute) : M bool :=
  match c with
  | router_route r d rc => update_router_route cmd_ok ping_reply r d rc
  | host_route h d g => update_host_route cmd_ok ping_reply h d g
  end.

(** The calls of a list, one after the other. *)
Fixpoint set_routes_seq (cs : list SetRoute) : M (list bool) :=
  match cs with
  | [] => ret []
  | c :: rest =>
      b <- set_route c ;;
      bs <- set_routes_seq rest ;;
      ret (b :: bs)
  end.

End Calls.

Definition set_lab_host_route : M bool :=
  update_host_route accept_all ping_success "r1" "10.9.0.0/16" "172.16.0.9".

(** ** Runs that keep routes *)

(** From [n] to [n'] the links, the set of nodes and their addresses are the
    same, and every route of [n] is still there, unchanged. *)
Definition keeps_routes (n n' : Mininet) : Prop :=
  links n' = links n
  /\ forall x,
       match nameToNode n !! x, nameToNode n' !! x with
       | Some nd, Some nd' =>
           IP nd' = IP nd
           /\ forall k r, routes nd !! k = Some r -> routes nd' !! k = Some r
       | None, None => True
       | _, _ => False
       end.

(** The network is the same. *)
Definition same_net (n n' : Mininet) : Prop := n' = n.

(** The routes [clear_routes] may remove: those of the four aggregation
    routers to a listed subnet. *)
Definition cleared_route (subnet_pairs : list (string * string))
    (x d : string) : Prop :=
  In x ["ar1"; "ar2"; "ar3"; "ar4"]
  /\ exists p, In p subnet_pairs /\ (d = p.1 \/ d = p.2).

(** ** The nodes of a recovery plan *)

(** The nodes a plan looks up with [net.get] and then configures, in the
    order of the source. *)
Definition plan_nodes (e : Element) : list string :=
  match e with
  | AR1 => ["h1"; "h2"; "h3"; "h4"; "ar2"; "cr2"; "ar4"; "ar3"]
  | AR2 => ["h3"; "h4"; "ar1"; "cr1"; "ar3"; "ar4"]
  | AR3 => ["h5"; "h6"; "h7"; "h8"; "ar4"; "cr2"; "ar1"; "ar2"]
  | AR4 => ["h7"; "h8"; "h5"; "h6"; "ar3"; "cr1"; "ar1"; "ar2"]
  | CR1 => ["ar1"; "ar3"; "ar2"; "ar4"; "cr2"]
  | CR2 => ["ar2"; "ar4"; "ar1"; "ar3"; "cr1"]
  end.

(** All the names of [names] are nodes of [n]. *)
Definition all_present (n : Mininet) (names : list string) : bool :=
  forallb (is_set_node (nameToNode n)) names.

(** The names a list of probes looks up, in order. *)
Definition pair_names (pairs : list (string * string)) : list string :=
  flat_map (fun p => [p.1; p.2]) pairs.

(** The two networks have the same node names. *)
Definition same_nodes (n n' : Mininet) : Prop :=
  forall x, is_set_node (nameToNode n') x = is_set_node (nameToNode n) x.

(** A command, if [ev] is one, runs on a node of [names]. *)
Definition commands_within (names : list string) (ev : Event) : Prop :=
  match ev with
  | Cmd x _ => In x names
  | _ => True
  end.

(** [m] raises [KeyError] when a name of [names] is no node of the network,
    returns normally otherwise, and keeps the node names. *)
Definition raises_unless (names : list string) {A} (m : M A) : Prop :=
  forall w,
    same_nodes (net w) (net (m w).2)
    /\ match (m w).1 with
       | Ret _ => all_present (net w) names = true
       | Raise e => e = KeyError /\ all_present (net w) names = false
       end.

(** The names [setup_basic_routing] looks up, in order: the hosts, the edge
    switches, the aggregation routers and the core routers. *)
Definition setup_nodes : list string :=
  map fst host_routes ++ ["es1"; "es2"; "es3"; "es4"]
  ++ ["ar1"; "ar2"; "ar3"; "ar4"] ++ ["cr1"; "cr2"].

(** The names [clear_routes] looks up, in order: the four aggregation
    routers, once for every pair of the list. *)
Definition clear_routes_nodes (subnet_pairs : list (string * string))
    : list string :=
  flat_map (fun _ => ["ar1"; "ar2"; "ar3"; "ar4"]) subnet_pairs.

(** ** The network after a reset *)

(** Both ends of the link are nodes of the network. *)
Definition ends_present (n : Mininet) (l : Link) : bool :=
  is_set_node (nameToNode n) (node (intf1 l))
  && is_set_node (nameToNode n) (node (intf2 l)).

(** Every link of the network joins two of its nodes. *)
Definition links_in_network (n : Mininet) : bool :=
  forallb (ends_present n) (links n).

(** The links with every link between two nodes of the network up. *)
Definition reset_links (n : Mininet) : list Link :=
  map (fun l => if ends_present n l then set_link st_up l else l) (links n).

(** The nodes and their addresses are the same, and every route of [n] is
    still there, unchanged. *)
Definition keeps_node_routes (n n' : Mininet) : Prop :=
  forall x,
    match nameToNode n !! x, nameToNode n' !! x with
    | Some nd, Some nd' =>
        IP nd' = IP nd
        /\ forall k r, routes nd !! k = Some r -> routes nd' !! k = Some r
    | None, None => True
    | _, _ => False
    end.

(** The links that the calls of [configLinkStatus] for the links of [ls]
    have set up. *)
Definition reached (nodes : gmap string Node) (ls : list Link) (l : Link)
    : bool :=
  existsb (fun l0 =>
             is_set_node nodes (node (intf1 l0))
             && is_set_node nodes (node (intf2 l0))
             && link_between (node (intf1 l0)) (node (intf2 l0)) l) ls.

(** The character [c] does not occur in [s]. *)
Definition free_of (c : Ascii.ascii) (s : string) : Prop :=
  ~ In c (String.list_ascii_of_string s).

(** ** A session at the controller *)

(** The calls a user makes at the prompt ([py net.controller....], and
    [link a b up|down], which is [configLinkStatus]). *)
Inductive Operation :=
  | op_setup_basic_routing
  | op_clear_routes (subnet_pairs : list (string * string))
  | op_set_route (c : SetRoute)
  | op_test_connectivity (src dst : string)
  | op_get_node_subnet (node_name : string)
  | op_plan (e : Element)
  | op_detect_link_failure (node1 node2 : string)
  | op_auto_detect_and_fix_failures
  | op_graceful_reset_network_only
  | op_test_basic_connectivity
  | op_break_link_and_auto_fix (node1 node2 : string)
  | op_configLinkStatus (src dst : string) (status : LinkState).

(** A call whose value is dropped. *)
Definition discard {A} (m : M A) : M unit := m ;; ret tt.

Section Session.

Variable cmd_ok : Mininet -> string -> command -> bool.
Variable ping_reply : Mininet -> string -> string -> string.
Variable exn_text : Exn -> string.

Definition run_operation (o : Operation) : M unit :=
  match o with
  | op_setup_basic_routing => setup_basic_routing cmd_ok ping_reply
  | op_clear_routes subnet_pairs => clear_routes cmd_ok ping_reply subnet_pairs
  | op_set_route c => discard (set_route cmd_ok ping_reply c)
  | op_test_connectivity src dst =>
      discard (test_connectivity cmd_ok ping_reply src dst)
  | op_get_node_subnet node_name => discard (get_node_subnet node_name)
  | op_plan e => plan cmd_ok ping_reply e
  | op_detect_link_failure node1 node2 =>
      discard (detect_link_failure node1 node2)
  | op_auto_detect_and_fix_failures =>
      discard (auto_detect_and_fix_failures cmd_ok ping_reply)
  | op_graceful_reset_network_only =>
      discard (graceful_reset_network_only cmd_ok ping_reply exn_text)
  | op_test_basic_connectivity =>
      discard (test_basic_connectivity cmd_ok ping_reply)
  | op_break_link_and_auto_fix node1 node2 =>
      discard (break_link_and_auto_fix cmd_ok ping_reply node1 node2)
  | op_configLinkStatus src dst status => configLinkStatus src dst status
  end.

(** The calls of a session, one after the other; an exception ends it. *)
Fixpoint run_operations (os : list Operation) : M unit :=
  match os with
  | [] => ret tt
  | o :: rest => run_operation o ;; run_operations rest
  end.

End Session.

(** Every node that some recovery plan configures is in the network. *)
Definition plans_can_run (n : Mininet) : bool :=
  forallb (fun e => all_present n (plan_nodes e)) [AR1; AR2; AR3; AR4; CR1; CR2].

(** The dict has the keys that [update_router_route] reads: ['type'], and
    ['interface'] or ['gateway'] as the type asks. *)
Definition well_formed (rc : route_config) : bool :=
  match cfg_type rc with
  | Some type =>
      if bool_decide (type = "dev")
      then match cfg_interface rc with Some _ => true | None => false end
      else if bool_decide (type = "via")
           then match cfg_gateway rc with Some _ => true | None => false end
           else true
  | None => false
  end.

(** The node of a [setRoute] call is in the network and its dict has the
    keys that are read. *)
Definition set_route_ok (n : Mininet) (c : SetRoute) : bool :=
  match c with
  | router_route router_name _ rc =>
      is_set_node (nameToNode n) router_name && well_formed rc
  | host_route host_name _ _ => is_set_node (nameToNode n) host_name
  end.

(** Every name the call may look up with [net.get] is a node of [n], and
    the dict it is given has the keys that are read.  For the orchestrator
    this asks for the nodes of every plan, whichever link is down. *)
Definition op_ok (n : Mininet) (o : Operation) : bool :=
  match o with
  | op_setup_basic_routing => all_present n setup_nodes
  | op_clear_routes subnet_pairs =>
      all_present n (clear_routes_nodes subnet_pairs)
  | op_set_route c => set_route_ok n c
  | op_test_connectivity src dst => all_present n [src; dst]
  | op_get_node_subnet node_name => all_present n [node_name]
  | op_plan e => all_present n (plan_nodes e)
  | op_detect_link_failure _ _ => true
  | op_auto_detect_and_fix_failures | op_break_link_and_auto_fix _ _ =>
      plans_can_run n && all_present n (pair_names test_pairs)
  | op_graceful_reset_network_only => true
  | op_test_basic_connectivity => all_present n (pair_names basic_pairs)
  | op_configLinkStatus _ _ _ => true
  end.

(** [m] returns normally from every world in which [ok] holds, and keeps
    the node names. *)
Definition safe (ok : Mininet -> bool) {A} (m : M A) : Prop :=
  forall w,
    ok (net w) = true ->
    (exists a, (m w).1 = Ret a) /\ same_nodes (net w) (net (m w).2).

Definition a_session : list Operation :=
  [ op_setup_basic_routing;
    op_configLinkStatus "ar3" "es3" st_down;
    op_auto_detect_and_fix_failures;
    op_set_route (host_route "h1" "default" "10.1.1.254");
    op_set_route (router_route "ar1" "10.2.1.0/24"
                    (rc_via "10.0.1.1" (Some 5)));
    op_test_connectivity "h1" "h5";
    op_get_node_subnet "h3";
    op_break_link_and_auto_fix "cr1" "ar1";
    op_graceful_reset_network_only;
    op_plan CR2;
    op_clear_routes [("10.1.1.0/24", "10.2.1.0/24")];
    op_test_basic_connectivity ].

(** ** The configured fat-tree *)


(** * Properties *)

Section Properties.

Variable cmd_ok : Mininet -> string -> command -> bool.
Variable ping_reply : Mininet -> string -> string -> string.


(** ** Basic facts about the monad and the primitives *)

Lemma bind_ret_l {A B} (a : A) (k : A -> M B) w : bind (ret a) k w = k a w.
Proof. reflexivity. Qed.

Lemma bind_assoc {A B C} (m : M A) (k : A -> M B) (h : B -> M C) w :
  bind (bind m k) h w = bind m (fun a => bind (k a) h) w.
Proof. unfold bind. destruct (m w) as [[a|e] w']; reflexivity. Qed.

Lemma net_get_eq name w :
  net_get name w = (if is_set_node (nameToNode (net w)) name
                    then (Ret (Some name), w) else (Raise KeyError, w)).
Proof.
  unfold net_get, is_set_node.
  destruct (nameToNode (net w) !! name); reflexivity.
Qed.

Lemma bind_net_get {B} name (k : option string -> M B) w :
  bind (net_get name) k w
  = (if is_set_node (nameToNode (net w)) name
     then k (Some name) w else (Raise KeyError, w)).
Proof.
  unfold bind. rewrite net_get_eq.
  destruct (is_set_node (nameToNode (net w)) name); reflexivity.
Qed.

Lemma run_in_ping name c t u n : run_in name (ping c t u) n = n.
Proof. reflexivity. Qed.

Lemma world_eta w : {| net := net w; output := output w |} = w.
Proof. destruct w; reflexivity. Qed.

(** What [test_connectivity] does, in full. *)
Lemma test_connectivity_eq (src dst : string) (w : World) :
  test_connectivity cmd_ok ping_reply src dst w =
    match nameToNode (net w) !! src, nameToNode (net w) !! dst with
    | Some _, Some d =>
        (Ret (contains "bytes from" (ping_reply (net w) src (fmt (IP d)))),
         {| net := net w;
            output := output w ++ [Cmd src (ping 1 2 (fmt (IP d)))] |})
    | _, _ => (Raise KeyError, w)
    end.
Proof.
  unfold test_connectivity.
  rewrite bind_net_get. unfold is_set_node.
  destruct (nameToNode (net w) !! src) as [s|] eqn:Hs; [|reflexivity].
  rewrite bind_net_get. unfold is_set_node.
  destruct (nameToNode (net w) !! dst) as [d|] eqn:Hd; [|reflexivity].
  cbn. unfold bind, node_IP. cbn. rewrite Hd. cbn.
  destruct (cmd_ok (net w) src (ping 1 2 (fmt (IP d)))); reflexivity.
Qed.


(** ** Runs only add to the output *)

Section Respects.

Variable P : Event -> Prop.
Variable Q : Mininet -> Mininet -> Prop.
Hypothesis Q_refl : forall n, Q n n.
Hypothesis Q_trans : forall a b c, Q a b -> Q b c -> Q a c.

Lemma grows_refl w : grows P Q w w.
Proof.
  split; [|apply Q_refl].
  exists []. rewrite app_nil_r. split; [reflexivity|constructor].
Qed.

Lemma grows_trans w1 w2 w3 :
  grows P Q w1 w2 -> grows P Q w2 w3 -> grows P Q w1 w3.
Proof.
  intros [(e1 & H1 & F1) Q1] [(e2 & H2 & F2) Q2].
  split; [|eauto].
  exists (e1 ++ e2). rewrite H2, H1, app_assoc.
  split; [reflexivity|]. apply Forall_app; split; assumption.
Qed.

Lemma respects_ret {A} (a : A) : respects P Q (ret a).
Proof. intros w. apply grows_refl. Qed.

Lemma respects_bind {A B} (m : M A) (k : A -> M B) :
  respects P Q m -> (forall a, respects P Q (k a)) -> respects P Q (bind m k).
Proof.
  intros Hm Hk w. unfold bind. specialize (Hm w).
  destruct (m w) as [[a|e] w']; cbn in *.
  - eapply grows_trans; [exact Hm|apply Hk].
  - exact Hm.
Qed.

Lemma respects_print line : P (Print line) -> respects P Q (print line).
Proof.
  intros HP w. split; [|apply Q_refl].
  exists [Print line]. split; [reflexivity|]. repeat constructor. exact HP.
Qed.

Lemma respects_net_get name : respects P Q (net_get name).
Proof.
  intros w. rewrite net_get_eq.
  destruct (is_set_node (nameToNode (net w)) name); apply grows_refl.
Qed.

Lemma respects_cmd nd c :
  (forall name, P (Cmd name c)) ->
  (forall n name, Q n (run_in name c n)) ->
  respects P Q (cmd cmd_ok ping_reply nd c).
Proof.
  intros HP HQ w. unfold cmd. destruct nd as [name|].
  - split; cbn.
    + exists [Cmd name c]. split; [reflexivity|]. repeat constructor. apply HP.
    + destruct (cmd_ok (net w) name c); [apply HQ|apply Q_refl].
  - apply grows_refl.
Qed.

End Respects.

Lemma same_links_refl n : same_links n n.
Proof. reflexivity. Qed.

Lemma same_links_trans a b c : same_links a b -> same_links b c -> same_links a c.
Proof. unfold same_links. congruence. Qed.

Lemma same_links_run_in n name c : same_links n (run_in name c n).
Proof. destruct c; reflexivity. Qed.

Lemma tail_bind {A B} (m : M A) (k : A -> M B) :
  respects plan_tail_event same_links m ->
  (forall a, respects plan_tail_event same_links (k a)) ->
  respects plan_tail_event same_links (bind m k).
Proof.
  intros Hm Hk.
  eapply respects_bind;
    first [exact Hm|exact Hk|apply same_links_refl|apply same_links_trans].
Qed.

Lemma tail_net_get name : respects plan_tail_event same_links (net_get name).
Proof. apply respects_net_get; apply same_links_refl. Qed.

Lemma tail_cmd nd c : respects plan_tail_event same_links (cmd cmd_ok ping_reply nd c).
Proof.
  apply respects_cmd;
    first [apply same_links_refl
          |intros n name; apply same_links_run_in
          |intros name; split; reflexivity].
Qed.

Lemma tail_print line :
  banner_element line = None ->
  respects plan_tail_event same_links (print line).
Proof.
  intros H.
  apply respects_print;
    first [apply same_links_refl|split; [exact H|reflexivity]].
Qed.

Ltac tail_steps :=
  repeat first
    [ apply tail_bind; [|intros ?]
    | apply tail_net_get
    | apply tail_cmd
    | apply tail_print; vm_compute; reflexivity ].

Lemma banner_element_banner e : banner_element (banner e) = Some e.
Proof. destruct e; vm_compute; reflexivity. Qed.

Lemma configLinkStatus_eq a b st w :
  configLinkStatus a b st w =
    (Ret tt,
     {| net :=
          {| nameToNode := nameToNode (net w);
             links := if is_set_node (nameToNode (net w)) a
                         && is_set_node (nameToNode (net w)) b
                      then set_links a b st (links (net w))
                      else links (net w) |};
        output := output w ++ [LinkStatus a b st] |}).
Proof.
  unfold configLinkStatus.
  destruct (is_set_node (nameToNode (net w)) a
            && is_set_node (nameToNode (net w)) b); [reflexivity|].
  destruct w as [[nodes ls] out]; reflexivity.
Qed.

Lemma bind_configLinkStatus {B} a b st (k : unit -> M B) w :
  bind (configLinkStatus a b st) k w =
    k tt {| net :=
              {| nameToNode := nameToNode (net w);
                 links := if is_set_node (nameToNode (net w)) a
                             && is_set_node (nameToNode (net w)) b
                          then set_links a b st (links (net w))
                          else links (net w) |};
            output := output w ++ [LinkStatus a b st] |}.
Proof. unfold bind. rewrite configLinkStatus_eq. reflexivity. Qed.

(** A plan is its banner, then the link marking, then the rest; the rest
    runs from the world the marking leaves. *)
Lemma plan_shape (b : string) (marks rest : M unit) (w w1 : World) :
  respects plan_tail_event same_links rest ->
  (marks {| net := net w; output := output w ++ [Print b] |}).2 = w1 ->
  exists evs,
    output ((print b ;; try_pass marks ;; rest) w).2 = output w1 ++ evs
    /\ Forall plan_tail_event evs
    /\ links (net ((print b ;; try_pass marks ;; rest) w).2) = links (net w1).
Proof.
  intros Hrest Hmarks.
  assert (Heq : (print b ;; try_pass marks ;; rest) w = rest w1).
  { unfold bind, print, try_pass. cbn. rewrite <- Hmarks.
    destruct (marks _) as [[[]|e] w']; reflexivity. }
  rewrite Heq.
  destruct (Hrest w1) as [(evs & Hout & Hall) Hlinks].
  exists evs. repeat split; assumption.
Qed.

Ltac plan_run_case :=
  match goal with
  | |- context [output ((bind (print ?b)
                   (fun _ => bind (try_pass ?marks) (fun _ => ?rest))) ?w).2] =>
      let H := fresh "H" in
      let evs := fresh "evs" in
      let Hout := fresh "Hout" in
      let Hall := fresh "Hall" in
      let Hlinks := fresh "Hlinks" in
      assert (H : respects plan_tail_event same_links rest) by tail_steps;
      destruct (plan_shape b marks rest w _ H eq_refl)
        as (evs & Hout & Hall & Hlinks);
      clear H;
      exists evs; split; [|split; [exact Hall|]];
      [ etransitivity; [exact Hout|];
        rewrite !bind_configLinkStatus, configLinkStatus_eq;
        cbn [output snd]; rewrite <- !app_assoc; reflexivity
      | etransitivity; [exact Hlinks|];
        rewrite !bind_configLinkStatus, configLinkStatus_eq;
        cbn [net links snd nameToNode]; reflexivity ]
  end.

(** What every recovery plan does, from any world. *)
Lemma plan_run (e : Element) (w : World) :
  exists evs,
    output (plan cmd_ok ping_reply e w).2
      = output w ++ Print (banner e) :: link_down_events e ++ evs
    /\ Forall plan_tail_event evs
    /\ links (net (plan cmd_ok ping_reply e w).2)
       = marked (element_name e) (neighbours (element_name e)) (net w).
Proof.
  destruct e; cbn [plan].
  - unfold fix_ar1_complete_failure. plan_run_case.
  - unfold fix_ar2_complete_failure. plan_run_case.
  - unfold fix_ar3_complete_failure. plan_run_case.
  - unfold fix_ar4_complete_failure. plan_run_case.
  - unfold fix_cr1_complete_failure. plan_run_case.
  - unfold fix_cr2_complete_failure. plan_run_case.
Qed.

(** ** Detection and the scan *)

Lemma detect_link_failure_eq a b w :
  detect_link_failure a b w = (Ret (is_down (net w) a b), w).
Proof.
  unfold detect_link_failure, is_down.
  destruct (detect_link_failure_loop (links (net w)) a b); reflexivity.
Qed.

Lemma bind_detect {B} a b (k : bool -> M B) w :
  bind (detect_link_failure a b) k w = k (is_down (net w) a b) w.
Proof. unfold bind. rewrite detect_link_failure_eq. reflexivity. Qed.

(** The [if]/[elif] chain runs the plan of the first down candidate of the
    table, and only that. *)
Lemma detect_and_fix_eq (w : World) :
  detect_and_fix cmd_ok ping_reply w =
    match first_down (net w) with
    | None => (Ret [], w)
    | Some c =>
        (print (message c) ;;
         plan cmd_ok ping_reply (element c) ;;
         ret [label c]) w
    end.
Proof.
  unfold detect_and_fix, first_down, candidate_links.
  cbn [find node1 node2].
  repeat (rewrite bind_detect;
          destruct (is_down (net w) _ _); [reflexivity|]).
  reflexivity.
Qed.

Lemma find_all_false {A} (f : A -> bool) (l : list A) :
  (forall x, In x l -> f x = false) -> find f l = None.
Proof.
  induction l as [|x l IH]; intros H; [reflexivity|].
  cbn. rewrite (H x (or_introl eq_refl)). apply IH.
  intros y Hy. apply H. right. exact Hy.
Qed.

(** ** The verification sweep *)

Lemma not_banner (line : string) :
  (forall e, banner e <> line) -> banner_element line = None.
Proof.
  intros H. unfold banner_element. apply find_all_false.
  intros e _. apply bool_decide_eq_false. apply H.
Qed.

Lemma not_banner_probe_line (b : bool) (src dst : string) :
  banner_element ("   " +:+ (if b then "✅" else "❌") +:+ " "
                  +:+ src +:+ " → " +:+ dst) = None.
Proof. apply not_banner. intros e H. destruct e; discriminate H. Qed.

Lemma same_net_refl n : same_net n n.
Proof. reflexivity. Qed.

Lemma same_net_trans a b c : same_net a b -> same_net b c -> same_net a c.
Proof. unfold same_net. congruence. Qed.

Lemma quiet_bind {A B} (m : M A) (k : A -> M B) :
  respects quiet same_net m ->
  (forall a, respects quiet same_net (k a)) ->
  respects quiet same_net (bind m k).
Proof.
  intros Hm Hk.
  eapply respects_bind;
    first [exact Hm|exact Hk|apply same_net_refl|apply same_net_trans].
Qed.

Lemma quiet_print line :
  banner_element line = None -> respects quiet same_net (print line).
Proof.
  intros H. apply respects_print; [apply same_net_refl|exact H].
Qed.

Lemma quiet_ret {A} (a : A) : respects quiet same_net (ret a).
Proof. apply respects_ret. apply same_net_refl. Qed.

Lemma test_connectivity_frame (src dst : string) (w : World) :
  is_set_node (nameToNode (net w)) src = true ->
  is_set_node (nameToNode (net w)) dst = true ->
  test_connectivity cmd_ok ping_reply src dst w =
    (Ret (reachable cmd_ok ping_reply (net w) (src, dst)),
     {| net := net w;
        output :=
          output w
          ++ output (test_connectivity cmd_ok ping_reply src dst
                       {| net := net w; output := [] |}).2 |}).
Proof.
  unfold reachable, is_set_node. rewrite !test_connectivity_eq. cbn.
  destruct (nameToNode (net w) !! src); [|discriminate].
  destruct (nameToNode (net w) !! dst); [|discriminate].
  reflexivity.
Qed.

Lemma test_connectivity_missing (src dst : string) (w : World) :
  is_set_node (nameToNode (net w)) src
  && is_set_node (nameToNode (net w)) dst = false ->
  test_connectivity cmd_ok ping_reply src dst w = (Raise KeyError, w).
Proof.
  unfold is_set_node. rewrite test_connectivity_eq.
  destruct (nameToNode (net w) !! src);
    [destruct (nameToNode (net w) !! dst)|]; [discriminate|reflexivity..].
Qed.

(** A probe changes nothing but the output, and what it adds is no banner. *)
Lemma test_connectivity_quiet (src dst : string) :
  respects quiet same_net (test_connectivity cmd_ok ping_reply src dst).
Proof.
  intros w. rewrite test_connectivity_eq.
  destruct (nameToNode (net w) !! src);
    [destruct (nameToNode (net w) !! dst)|]; cbn [snd];
    first [ apply grows_refl; apply same_net_refl
          | split; [|reflexivity]; eexists; split; [reflexivity|];
            apply Forall_cons_2; [exact I|apply Forall_nil_2] ].
Qed.

Lemma verify_loop_eq (pairs : list (string * string)) (acc : bool) (w : World) :
  all_present (net w) (pair_names pairs) = true ->
  verify_loop cmd_ok ping_reply pairs acc w =
    (Ret (acc && forallb (reachable cmd_ok ping_reply (net w)) pairs),
     {| net := net w;
        output := output w
                  ++ flat_map (transcript cmd_ok ping_reply (net w)) pairs |}).
Proof.
  revert acc w. induction pairs as [|[src dst] ps IH]; intros acc w Hall.
  - cbn. rewrite andb_true_r, app_nil_r, world_eta. reflexivity.
  - unfold all_present, pair_names in Hall. cbn [flat_map fst snd app forallb] in Hall.
    apply andb_true_iff in Hall. destruct Hall as [Hs Hall].
    apply andb_true_iff in Hall. destruct Hall as [Hd Hall].
    cbn [verify_loop]. unfold bind at 1.
    rewrite (test_connectivity_frame src dst w Hs Hd).
    unfold bind at 1, print at 1. rewrite IH by exact Hall. cbn [net output].
    f_equal.
    + f_equal. cbn [forallb].
      destruct (reachable cmd_ok ping_reply (net w) (src, dst)), acc;
        reflexivity.
    + f_equal. cbn [flat_map]. unfold transcript at 2. cbn [fst snd].
      rewrite <- !app_assoc. reflexivity.
Qed.

(** The sweep changes nothing but the output and adds no banner. *)
Lemma verify_loop_quiet (pairs : list (string * string)) (acc : bool) :
  respects quiet same_net (verify_loop cmd_ok ping_reply pairs acc).
Proof.
  revert acc. induction pairs as [|[src dst] ps IH]; intros acc;
    cbn [verify_loop].
  - apply quiet_ret.
  - apply quiet_bind; [apply test_connectivity_quiet|intros success].
    apply quiet_bind; [apply quiet_print, not_banner_probe_line|intros _].
    apply IH.
Qed.

(** It raises [KeyError] exactly when a probed host is missing. *)
Lemma verify_loop_result (pairs : list (string * string)) (acc : bool)
    (w : World) :
  (verify_loop cmd_ok ping_reply pairs acc w).1
  = (if all_present (net w) (pair_names pairs)
     then Ret (acc && forallb (reachable cmd_ok ping_reply (net w)) pairs)
     else Raise KeyError).
Proof.
  revert acc w. induction pairs as [|[src dst] ps IH]; intros acc w.
  - cbn. rewrite andb_true_r. reflexivity.
  - unfold all_present, pair_names. cbn [flat_map fst snd app forallb].
    fold (pair_names ps). fold (all_present (net w) (pair_names ps)).
    cbn [verify_loop]. unfold bind at 1.
    destruct (is_set_node (nameToNode (net w)) src
              && is_set_node (nameToNode (net w)) dst) eqn:Hp.
    + apply andb_true_iff in Hp. destruct Hp as [Hs Hd].
      rewrite (test_connectivity_frame src dst w Hs Hd), Hs, Hd. cbn [andb].
      unfold bind at 1, print at 1. rewrite IH. cbn [net].
      destruct (all_present (net w) (pair_names ps)); [|reflexivity].
      f_equal. cbn [forallb].
      destruct (reachable cmd_ok ping_reply (net w) (src, dst)), acc;
        reflexivity.
    + rewrite (test_connectivity_missing src dst w Hp). cbn [fst].
      rewrite andb_assoc, Hp. reflexivity.
Qed.

Lemma verify_fixes_eq (fixes : list string) (w : World) :
  all_present (net w) (pair_names test_pairs) = true ->
  verify_fixes cmd_ok ping_reply fixes w =
    (Ret (forallb (reachable cmd_ok ping_reply (net w)) test_pairs),
     {| net := net w;
        output := output w
                  ++ verification_events cmd_ok ping_reply fixes (net w) |}).
Proof.
  intros Hall. unfold verify_fixes, verification_events.
  unfold bind at 1, print at 1. unfold bind at 1, sleep, ret at 1.
  unfold bind at 1, print at 1. unfold bind at 1.
  rewrite verify_loop_eq by exact Hall. cbn [net output andb].
  destruct (forallb (reachable cmd_ok ping_reply (net w)) test_pairs);
    unfold bind, print, ret; cbn [net output];
    rewrite <- !app_assoc; reflexivity.
Qed.

(** The verification changes nothing but the output and adds no banner. *)
Lemma verify_fixes_quiet (fixes : list string) :
  respects quiet same_net (verify_fixes cmd_ok ping_reply fixes).
Proof.
  unfold verify_fixes.
  apply quiet_bind; [|intros _].
  { apply quiet_print, not_banner. intros e H. destruct e; discriminate H. }
  apply quiet_bind; [apply quiet_ret|intros _].
  apply quiet_bind; [|intros _].
  { apply quiet_print, not_banner. intros e H. destruct e; discriminate H. }
  apply quiet_bind; [apply verify_loop_quiet|intros all_working].
  apply quiet_bind; [|intros _; apply quiet_ret].
  destruct all_working; apply quiet_print, not_banner; intros e H;
    destruct e; discriminate H.
Qed.

(** It raises [KeyError] exactly when a probed host is missing, and
    otherwise answers whether all probes succeed. *)
Lemma verify_fixes_result (fixes : list string) (w : World) :
  (verify_fixes cmd_ok ping_reply fixes w).1
  = (if all_present (net w) (pair_names test_pairs)
     then Ret (forallb (reachable cmd_ok ping_reply (net w)) test_pairs)
     else Raise KeyError).
Proof.
  unfold verify_fixes.
  unfold bind at 1, print at 1. unfold bind at 1, sleep, ret at 1.
  unfold bind at 1, print at 1. unfold bind at 1.
  match goal with
  | |- context [verify_loop _ _ test_pairs true ?w1] =>
      pose proof (verify_loop_result test_pairs true w1) as Hr;
      destruct (verify_loop cmd_ok ping_reply test_pairs true w1)
        as [[a|e] w2]
  end; cbn [fst net andb] in Hr.
  - destruct (all_present (net w) (pair_names test_pairs)); [|discriminate Hr].
    rewrite <- Hr. unfold bind, print, ret. destruct a; reflexivity.
  - destruct (all_present (net w) (pair_names test_pairs)); [discriminate Hr|].
    rewrite <- Hr. reflexivity.
Qed.

(** [auto_detect_and_fix_failures], in full. *)
Lemma auto_detect_eq (w : World) :
  auto_detect_and_fix_failures cmd_ok ping_reply w =
    match first_down (net w) with
    | None =>
        (Ret true,
         {| net := net w; output := output w ++ header ++ [healthy] |})
    | Some c =>
        match plan cmd_ok ping_reply (element c) (announced c w) with
        | (Ret _, wp) => verify_fixes cmd_ok ping_reply [label c] wp
        | (Raise e, wp) => (Raise e, wp)
        end
    end.
Proof.
  unfold auto_detect_and_fix_failures.
  unfold bind at 1, print at 1. unfold bind at 1, print at 1.
  unfold bind at 1. rewrite detect_and_fix_eq. cbn [net output].
  destruct (first_down (net w)) as [c|].
  - unfold bind at 1, print at 1. cbn [net output]. unfold bind at 1.
    unfold announced, header. rewrite <- !app_assoc. cbn [app].
    destruct (plan cmd_ok ping_reply (element c) _) as [[[]|e] wp];
      reflexivity.
  - unfold bind, print, ret, header, healthy; cbn [net output].
    rewrite <- !app_assoc. reflexivity.
Qed.

(** ** Reading the output *)

Lemma emitted_app (w w' : World) (evs : list Event) :
  output w' = output w ++ evs -> emitted w w' = evs.
Proof. intros H. unfold emitted. rewrite H. apply drop_app_length. Qed.

Lemma plans_invoked_app (l1 l2 : list Event) :
  plans_invoked (l1 ++ l2) = plans_invoked l1 ++ plans_invoked l2.
Proof. apply omap_app. Qed.






Lemma plans_invoked_print (line : string) :
  banner_element line = None -> plans_invoked [Print line] = [].
Proof.
  intros H. unfold plans_invoked. cbv [omap list_omap]. rewrite H.
  reflexivity.
Qed.


Lemma plans_invoked_transcript (n : Mininet) (pairs : list (string * string)) :
  plans_invoked (flat_map (transcript cmd_ok ping_reply n) pairs) = [].
Proof.
  induction pairs as [|[src dst] ps IH]; [reflexivity|].
  cbn [flat_map]. rewrite plans_invoked_app, IH, app_nil_r.
  unfold transcript. rewrite plans_invoked_app, test_connectivity_eq.
  cbn [net output fst snd].
  assert (Hline : forall b : bool,
            banner_element ("   " +:+ (if b then "✅" else "❌") +:+ " "
                            +:+ src +:+ " → " +:+ dst) = None).
  { intros b. apply not_banner. intros e H. destruct e; discriminate H. }
  rewrite (plans_invoked_print _ (Hline _)).
  destruct (nameToNode n !! src); [destruct (nameToNode n !! dst)|];
    reflexivity.
Qed.

Lemma plans_invoked_verification (fixes : list string) (n : Mininet) :
  plans_invoked (verification_events cmd_ok ping_reply fixes n) = [].
Proof.
  unfold verification_events.
  rewrite !plans_invoked_app, plans_invoked_transcript.
  change [Print ("⚡ APPLIED AUTO-FIXES: " +:+ join ", " fixes);
          Print (newline +:+ "🧪 VERIFYING AUTO-FIX RESULTS:")]
    with ([Print ("⚡ APPLIED AUTO-FIXES: " +:+ join ", " fixes)]
          ++ [Print (newline +:+ "🧪 VERIFYING AUTO-FIX RESULTS:")]).
  rewrite plans_invoked_app.
  rewrite !plans_invoked_print; [reflexivity|..];
    apply not_banner; intros e H;
    try destruct (forallb _ test_pairs); destruct e; discriminate H.
Qed.



(** ** The orchestrator *)


(** C3: when no candidate link is down, the run answers [True], enters no
    recovery plan, runs no command, changes no link state and leaves the
    network (routing tables and links) exactly as it was: all it does is
    print three lines. *)
Theorem healthy_network_is_left_alone (w : World) :
  (forall c, In c candidate_links ->
             is_down (net w) (node1 c) (node2 c) = false) ->
  auto_detect_and_fix_failures cmd_ok ping_reply w
    = (Ret true, {| net := net w; output := output w ++ header ++ [healthy] |})
  /\ plans_invoked
       (emitted w (auto_detect_and_fix_failures cmd_ok ping_reply w).2) = []
  /\ Forall (fun ev => is_cmd_event ev = false /\ is_link_event ev = false)
       (emitted w (auto_detect_and_fix_failures cmd_ok ping_reply w).2).
Proof.
  intros Hnone.
  assert (Hc : first_down (net w) = None).
  { unfold first_down. apply find_all_false. exact Hnone. }
  assert (Hrun : auto_detect_and_fix_failures cmd_ok ping_reply w
                 = (Ret true,
                    {| net := net w;
                       output := output w ++ header ++ [healthy] |})).
  { rewrite auto_detect_eq, Hc. reflexivity. }
  rewrite Hrun. cbn [snd].
  erewrite emitted_app by (cbn [output]; reflexivity).
  repeat split; repeat constructor.
Qed.

(** ** Link marking *)

Lemma link_between_set_link a b st l :
  link_between a b (set_link st l) = link_between a b l.
Proof. reflexivity. Qed.

Lemma set_links_keeps a b (ls : list Link) (l : Link) :
  In l (set_links a b st_down ls) ->
  exists l0, In l0 ls
             /\ (forall x y, link_between x y l = link_between x y l0)
             /\ (both_down l0 -> both_down l).
Proof.
  unfold set_links. rewrite in_map_iff. intros (l0 & Hl & Hin).
  exists l0. split; [exact Hin|].
  destruct (link_between a b l0); subst l.
  - split; [intros; apply link_between_set_link|].
    intros _. unfold both_down. cbn. split; reflexivity.
  - split; [reflexivity|]. intros H. exact H.
Qed.

Lemma marking_keeps (nodes : gmap string Node) (name : string)
    (others : list string) (ls : list Link) (l : Link) :
  In l (foldl (fun ls other =>
                 if is_set_node nodes name && is_set_node nodes other
                 then set_links name other st_down ls
                 else ls) ls others) ->
  exists l0, In l0 ls
             /\ (forall x y, link_between x y l = link_between x y l0)
             /\ (both_down l0 -> both_down l).
Proof.
  revert ls. induction others as [|o os IH]; intros ls Hin.
  - exists l. split; [exact Hin|]. split; [reflexivity|]. intros H. exact H.
  - cbn [foldl] in Hin. destruct (IH _ Hin) as (l1 & Hin1 & Hn1 & Hd1).
    destruct (is_set_node nodes name && is_set_node nodes o).
    + destruct (set_links_keeps _ _ _ _ Hin1) as (l0 & Hin0 & Hn0 & Hd0).
      exists l0. split; [exact Hin0|]. split.
      * intros x y. rewrite Hn1. apply Hn0.
      * intros H. apply Hd1, Hd0, H.
    + exists l1. split; [exact Hin1|]. split; [exact Hn1|exact Hd1].
Qed.

Lemma marked_down (n : Mininet) (name other : string) (others : list string)
    (l : Link) :
  In other others ->
  in_network n name ->
  in_network n other ->
  In l (marked name others n) ->
  link_between name other l = true ->
  both_down l.
Proof.
  unfold marked, in_network. intros Hother Hname Hoth.
  generalize (links n) as ls.
  induction others as [|o os IH]; intros ls Hin Hbetween; [destruct Hother|].
  cbn [foldl] in Hin.
  destruct Hother as [->|Hother]; [|eapply IH; eassumption].
  assert (Hc : is_set_node (nameToNode n) name
               && is_set_node (nameToNode n) other = true)
    by (rewrite Hname, Hoth; reflexivity).
  rewrite Hc in Hin.
  destruct (marking_keeps _ _ _ _ _ Hin) as (l1 & Hin1 & Hn1 & Hd1).
  apply Hd1. unfold set_links in Hin1. apply in_map_iff in Hin1.
  destruct Hin1 as (l0 & Hl & _). rewrite Hn1 in Hbetween.
  destruct (link_between name other l0) eqn:Hb0; subst l1.
  - split; reflexivity.
  - rewrite Hb0 in Hbetween. discriminate Hbetween.
Qed.

(** C9: every recovery plan starts by configuring down every link the
    topology gives the failed element (three for an aggregation router, two
    for a core router), whatever link led to it: the output of the plan is
    its banner, then one link-down event per neighbour of the element, then
    the rest [evs], which holds every command of the plan and no further
    link event.  Every link between the element and a neighbour, both being
    in the network, has both ends down when the plan is over. *)
Theorem plans_mark_links_first (e : Element) (w : World) :
  exists evs : list Event,
    output (plan cmd_ok ping_reply e w).2
      = output w ++ Print (banner e) :: link_down_events e ++ evs
    /\ Forall (fun ev => is_link_event ev = false) evs
    /\ Forall (fun ev => is_cmd_event ev = false)
         (Print (banner e) :: link_down_events e)
    /\ List.length (neighbours (element_name e))
       = match e with CR1 | CR2 => 2 | _ => 3 end
    /\ (forall (other : string) (l : Link),
          In other (neighbours (element_name e)) ->
          in_network (net w) (element_name e) ->
          in_network (net w) other ->
          In l (links (net (plan cmd_ok ping_reply e w).2)) ->
          link_between (element_name e) other l = true ->
          both_down l).
Proof.
  destruct (plan_run e w) as (evs & Hout & Hall & Hlinks).
  exists evs. split; [exact Hout|]. split; [|split; [|split]].
  - eapply Forall_impl; [exact Hall|]. intros ev [_ H]. exact H.
  - destruct e; repeat constructor.
  - destruct e; reflexivity.
  - intros other l Hother Hname Hoth Hin Hbetween.
    rewrite Hlinks in Hin.
    apply (marked_down (net w) (element_name e) other
             (neighbours (element_name e)) l); assumption.
Qed.

(** ** The failure detector *)

(** For two different names, the membership test of the loop is the
    undirected match of the two end points. *)
Lemma membership_is_link_between (a b : string) (l : Link) :
  a <> b ->
  bool_decide (a ∈ [node (intf1 l); node (intf2 l)])
  && bool_decide (b ∈ [node (intf1 l); node (intf2 l)])
  = link_between a b l.
Proof.
  intros Hab. unfold link_between.
  apply eq_true_iff_eq.
  rewrite andb_true_iff, orb_true_iff, !bool_decide_eq_true.
  rewrite !elem_of_cons, !elem_of_nil.
  split.
  - intros [[Ha|[Ha|[]]] [Hb|[Hb|[]]]]; subst; try contradiction; auto.
  - intros [[Ha Hb]|[Hb Ha]]; subst; auto.
Qed.

Lemma detect_link_failure_loop_eq (ls : list Link) (a b : string) :
  a <> b ->
  detect_link_failure_loop ls a b =
    match find (link_between a b) ls with
    | None => Ret false
    | Some l =>
        match up (intf1 l), up (intf2 l) with
        | Some u1, Some u2 => Ret (negb (u1 && u2))
        | _, _ => Raise OSError
        end
    end.
Proof.
  intros Hab. induction ls as [|l ls IH]; [reflexivity|].
  cbn [detect_link_failure_loop find].
  rewrite (membership_is_link_between a b l Hab).
  destruct (link_between a b l); [|exact IH].
  unfold isUp. destruct (up (intf1 l)), (up (intf2 l)); reflexivity.
Qed.

(** X20: For two different node names, [detect_link_failure] never
    raises, leaves the world as it is, and answers from the first link
    between the two nodes in [net.links]: [True] when one of its ends is
    down, [False] when both are up, [False] when reading an end's state
    fails, and [False] when there is no link between them. *)
Theorem detect_reads_first_link (w : World) (a b : string) :
  a <> b ->
  detect_link_failure a b w = (Ret (first_link_down (net w) a b), w)
  /\ ((forall l, In l (links (net w)) -> link_between a b l = false) ->
      first_link_down (net w) a b = false)
  /\ (forall l u1 u2,
        find (link_between a b) (links (net w)) = Some l ->
        up (intf1 l) = Some u1 -> up (intf2 l) = Some u2 ->
        first_link_down (net w) a b = negb (u1 && u2)).
Proof.
  intros Hab. split; [|split].
  - unfold detect_link_failure, first_link_down.
    rewrite (detect_link_failure_loop_eq _ a b Hab).
    destruct (find (link_between a b) (links (net w))) as [l|];
      [|reflexivity].
    destruct (up (intf1 l)), (up (intf2 l)); reflexivity.
  - intros Hnone. unfold first_link_down.
    rewrite (find_all_false _ _ Hnone). reflexivity.
  - intros l u1 u2 Hfind H1 H2. unfold first_link_down.
    rewrite Hfind, H1, H2. reflexivity.
Qed.

(** ** Route replacement *)

Lemma metrics_to_spec (t : gmap (string * nat) Route) (d : string) (m : nat) :
  m ∈ metrics_to t d <-> is_Some (t !! (d, m)).
Proof.
  unfold metrics_to. rewrite list_elem_of_omap. split.
  - intros ([[d' m'] r] & Hin & Hf). cbn in Hf.
    destruct (decide (d' = d)) as [->|]; [|discriminate].
    injection Hf as ->. apply elem_of_map_to_list in Hin.
    exists r. exact Hin.
  - intros [r Hr]. exists ((d, m), r). split.
    + apply elem_of_map_to_list. exact Hr.
    + cbn. rewrite decide_True by reflexivity. reflexivity.
Qed.

Lemma foldr_min_spec (x : nat) (xs : list nat) :
  foldr Nat.min x xs ∈ x :: xs
  /\ (forall y, y ∈ x :: xs -> foldr Nat.min x xs <= y).
Proof.
  induction xs as [|z zs [IHin IHle]]; cbn [foldr].
  - split; [left|]. intros y Hy. apply list_elem_of_singleton in Hy. lia.
  - split.
    + destruct (Nat.min_dec z (foldr Nat.min x zs)) as [->| ->].
      * right. left.
      * apply elem_of_cons in IHin. destruct IHin as [->|Hin];
          [left|right; right; exact Hin].
    + intros y Hy. apply elem_of_cons in Hy. destruct Hy as [->|Hy].
      * specialize (IHle x (list_elem_of_here _ _)). lia.
      * apply elem_of_cons in Hy. destruct Hy as [->|Hy]; [lia|].
        specialize (IHle y (list_elem_of_further _ _ _ Hy)). lia.
Qed.

Lemma lowest_spec (l : list nat) (m : nat) :
  lowest l = Some m -> m ∈ l /\ (forall y, y ∈ l -> m <= y).
Proof.
  destruct l as [|x xs]; [discriminate|]. intros [= <-].
  apply foldr_min_spec.
Qed.

Lemma lowest_none (l : list nat) : lowest l = None -> l = [].
Proof. destruct l; [reflexivity|discriminate]. Qed.

Lemma route_del_keeps_none (d : string) (mo : option nat)
    (t : gmap (string * nat) Route) (k : string * nat) :
  t !! k = None -> route_del d mo t !! k = None.
Proof.
  intros H. unfold route_del.
  destruct mo as [[|m]|]; try destruct (lowest (metrics_to t d));
    try exact H; apply lookup_delete_None; right; exact H.
Qed.

Lemma route_del_lowest (d : string) (t : gmap (string * nat) Route) (m : nat) :
  is_Some (t !! (d, m)) ->
  (forall m', is_Some (t !! (d, m')) -> m <= m') ->
  route_del d None t = delete (d, m) t.
Proof.
  intros Hm Hmin. unfold route_del.
  destruct (lowest (metrics_to t d)) as [m0|] eqn:Hl.
  - apply lowest_spec in Hl. destruct Hl as [Hin Hle].
    apply metrics_to_spec in Hin.
    specialize (Hmin m0 Hin).
    specialize (Hle m (proj2 (metrics_to_spec t d m) Hm)).
    replace m0 with m by lia. reflexivity.
  - apply lowest_none in Hl.
    apply metrics_to_spec in Hm. rewrite Hl in Hm.
    apply elem_of_nil in Hm. destruct Hm.
Qed.

(** After the three deletions no route to [d] is left. *)
Lemma three_deletes_clear (d : string) (t : gmap (string * nat) Route) :
  clearable d t ->
  forall m,
    route_del d (Some 2) (route_del d (Some 1) (route_del d None t))
      !! (d, m) = None.
Proof.
  intros Hc m. unfold route_del at 1 2.
  apply lookup_delete_None.
  destruct (decide (m = 2)) as [->|H2]; [left; reflexivity|right].
  apply lookup_delete_None.
  destruct (decide (m = 1)) as [->|H1]; [left; reflexivity|right].
  destruct (t !! (d, m)) as [r|] eqn:Hr;
    [|apply route_del_keeps_none; exact Hr].
  destruct (Hc m) as [->|[->|Hmin]]; [eauto|contradiction..|].
  rewrite (route_del_lowest d t m); [apply lookup_delete_eq|eauto|exact Hmin].
Qed.

Lemma route_add_fresh (d : string) (h : hop) (src : option string) (m : nat)
    (t : gmap (string * nat) Route) :
  t !! (d, m) = None ->
  route_add d h src (Some m) t
  = <[(d, m) := {| nexthop := h; prefsrc := src |}]> t.
Proof. intros H. unfold route_add. cbn. rewrite H. reflexivity. Qed.

Lemma route_del_only (d : string) (m : nat) (r : Route)
    (t : gmap (string * nat) Route) :
  (forall m', t !! (d, m') = None) ->
  route_del d None (<[(d, m) := r]> t) = t.
Proof.
  intros Hclear.
  rewrite (route_del_lowest d _ m).
  - apply delete_insert_id, Hclear.
  - rewrite lookup_insert_eq. eauto.
  - intros m' Hm'. destruct (decide (m' = m)) as [->|Hne]; [lia|].
    rewrite lookup_insert_ne in Hm' by congruence.
    rewrite Hclear in Hm'. destruct Hm' as [? [=]].
Qed.

Lemma replace_route_lookup (d : string) (rc : route_config) (h : hop)
    (t : gmap (string * nat) Route) (m : nat) :
  clearable d t ->
  rc_hop rc = Some h ->
  replace_route d rc t !! (d, m)
  = if decide (m = rc_metric rc)
    then Some {| nexthop := h; prefsrc := None |}
    else None.
Proof.
  intros Hc Hh. unfold replace_route. rewrite Hh.
  pose proof (three_deletes_clear d t Hc) as Hclear.
  rewrite route_add_fresh by apply Hclear.
  destruct (decide (m = rc_metric rc)) as [->|Hne].
  - apply lookup_insert_eq.
  - rewrite lookup_insert_ne by congruence. apply Hclear.
Qed.

Lemma replace_route_idempotent (d : string) (rc : route_config) (h : hop)
    (t : gmap (string * nat) Route) :
  clearable d t ->
  rc_hop rc = Some h ->
  replace_route d rc (replace_route d rc t) = replace_route d rc t.
Proof.
  intros Hc Hh. unfold replace_route. rewrite Hh.
  pose proof (three_deletes_clear d t Hc) as Hclear.
  set (t3 := route_del d (Some 2) (route_del d (Some 1) (route_del d None t)))
    in *.
  rewrite (route_add_fresh d h None (rc_metric rc) t3) by apply Hclear.
  rewrite route_del_only by exact Hclear.
  unfold route_del at 1 2.
  rewrite (delete_id t3 (d, 1)) by apply Hclear.
  rewrite (delete_id t3 (d, 2)) by apply Hclear.
  rewrite route_add_fresh by apply Hclear. reflexivity.
Qed.

Lemma run_in_node (name : string) (c : command) (n : Mininet) (nd : Node) :
  nameToNode n !! name = Some nd ->
  run_in name c n = with_routes name nd (kernel c (routes nd)) n.
Proof.
  intros H. unfold with_routes.
  assert (Hsame : {| nameToNode := <[name := set_routes (routes nd) nd]>
                                     (nameToNode n);
                     links := links n |} = n).
  { destruct n as [nodes ls]. cbn in *. f_equal.
    apply insert_id. rewrite H. destruct nd; reflexivity. }
  destruct c; cbn [run_in kernel]; try (symmetry; exact Hsame);
    rewrite (alter_alt_Some _ _ _ _ H); reflexivity.
Qed.

Lemma with_routes_lookup (name : string) (nd : Node)
    (t : gmap (string * nat) Route) (n : Mininet) :
  nameToNode (with_routes name nd t n) !! name = Some (set_routes t nd).
Proof. apply lookup_insert_eq. Qed.

Lemma with_routes_again (name : string) (nd : Node)
    (t t' : gmap (string * nat) Route) (n : Mininet) :
  with_routes name (set_routes t nd) t' (with_routes name nd t n)
  = with_routes name nd t' n.
Proof.
  unfold with_routes. cbn. f_equal. apply insert_insert_eq.
Qed.

Lemma bind_cmd_accepted {B} (name : string) (c : command)
    (k : string -> M B) (w : World) :
  cmd_ok (net w) name c = true ->
  bind (cmd cmd_ok ping_reply (Some name) c) k w
  = k (match c with
       | ping _ _ target => ping_reply (net w) name target
       | _ => EmptyString
       end)
      {| net := run_in name c (net w); output := output w ++ [Cmd name c] |}.
Proof. intros H. unfold bind, cmd. rewrite H. reflexivity. Qed.

(** The network [update_router_route] leaves when the node exists and the
    kernel accepts every command. *)
Lemma bind_dict_get {A B} (v : option A) (k : A -> M B) (w : World) :
  bind (dict_get v) k w
  = match v with Some a => k a w | None => (Raise KeyError, w) end.
Proof. destruct v; reflexivity. Qed.

Lemma update_router_route_net (w : World) (name d : string)
    (rc : route_config) (nd : Node) :
  (forall n c, cmd_ok n name c = true) ->
  nameToNode (net w) !! name = Some nd ->
  net (update_router_route cmd_ok ping_reply name d rc w).2
  = with_routes name nd (replace_route d rc (routes nd)) (net w).
Proof.
  intros Hacc Hnode.
  unfold update_router_route. rewrite bind_net_get.
  unfold is_set_node. rewrite Hnode. cbn [is_set negb].
  rewrite !bind_cmd_accepted by apply Hacc. cbn [net output].
  rewrite (run_in_node name _ (net w) nd Hnode).
  rewrite (run_in_node name _ _ _ (with_routes_lookup _ _ _ _)),
    with_routes_again.
  rewrite (run_in_node name _ _ _ (with_routes_lookup _ _ _ _)),
    with_routes_again.
  cbn [routes set_routes].
  destruct rc as [ty i g m]. unfold replace_route, rc_hop, rc_metric.
  cbn [cfg_type cfg_interface cfg_gateway cfg_metric].
  rewrite bind_dict_get. destruct ty as [ty|]; [|reflexivity].
  destruct (bool_decide (ty = "dev")).
  - rewrite !bind_assoc, bind_dict_get.
    destruct i as [i|]; cbn [fmap option_fmap option_map]; [|reflexivity].
    rewrite !bind_assoc, bind_cmd_accepted by apply Hacc.
    rewrite bind_ret_l, bind_cmd_accepted by apply Hacc.
    unfold ret; cbn [snd net output].
    repeat (rewrite (run_in_node name _ _ _ (with_routes_lookup _ _ _ _)),
              with_routes_again).
    reflexivity.
  - rewrite !bind_assoc, bind_dict_get.
    destruct (bool_decide (ty = "via")).
    + rewrite !bind_assoc, bind_dict_get.
      destruct g as [g|]; cbn [fmap option_fmap option_map]; [|reflexivity].
      rewrite !bind_assoc, bind_cmd_accepted by apply Hacc.
      rewrite bind_ret_l, bind_cmd_accepted by apply Hacc.
      unfold ret; cbn [snd net output].
      repeat (rewrite (run_in_node name _ _ _ (with_routes_lookup _ _ _ _)),
                with_routes_again).
      reflexivity.
    + rewrite bind_ret_l, bind_cmd_accepted by apply Hacc.
      unfold ret; cbn [snd net output].
      repeat (rewrite (run_in_node name _ _ _ (with_routes_lookup _ _ _ _)),
                with_routes_again).
      reflexivity.
Qed.

(** X21: On an existing node whose routes to the destination are
    all within reach of the three deletions ([clearable]), for a [dev] or
    [via] configuration and a kernel that accepts the commands, calling
    [update_router_route] twice with the same arguments leaves the network
    as calling it once does, and the table then holds exactly one route to
    the destination: the requested next hop at the requested metric. *)
Theorem update_router_route_idempotent_when_clearable
    (w : World) (name d : string) (rc : route_config) (h : hop) (nd : Node) :
  (forall n c, cmd_ok n name c = true) ->
  nameToNode (net w) !! name = Some nd ->
  clearable d (routes nd) ->
  rc_hop rc = Some h ->
  let once := (update_router_route cmd_ok ping_reply name d rc w).2 in
  let twice := (update_router_route cmd_ok ping_reply name d rc once).2 in
  net twice = net once
  /\ exists nd1,
       nameToNode (net once) !! name = Some nd1
       /\ forall m,
            routes nd1 !! (d, m)
            = if decide (m = rc_metric rc)
              then Some {| nexthop := h; prefsrc := None |}
              else None.
Proof.
  intros Hacc Hnode Hc Hh once twice.
  assert (Honce : net once
                  = with_routes name nd (replace_route d rc (routes nd))
                      (net w))
    by (apply update_router_route_net; assumption).
  split.
  - unfold twice.
    rewrite (update_router_route_net once name d rc
               (set_routes (replace_route d rc (routes nd)) nd) Hacc)
      by (rewrite Honce; apply with_routes_lookup).
    rewrite Honce, with_routes_again. cbn [routes set_routes].
    rewrite (replace_route_idempotent d rc h _ Hc Hh). reflexivity.
  - exists (set_routes (replace_route d rc (routes nd)) nd). split.
    + rewrite Honce. apply with_routes_lookup.
    + intros m. cbn [routes set_routes].
      apply replace_route_lookup; assumption.
Qed.

End Properties.

(** * Concrete runs *)

(** C4 on the code: the match is a membership test of both names in the
    two end names of a link, so it does not ask for a link between the two
    nodes.  In the topology with link cr1-ar1 down there is no link between
    ar1 and ar1, yet [detect_link_failure "ar1" "ar1"] answers [True], where
    the docstring promises the state of the "link between two nodes" and
    the claim [False]. *)
Lemma detect_same_name_answers_true :
  (forall l, In l (links (net core_link_down)) ->
             link_between "ar1" "ar1" l = false)
  /\ detect_link_failure "ar1" "ar1" core_link_down
     = (Ret true, core_link_down).
Proof.
  split.
  - assert (H : forallb (fun l => negb (link_between "ar1" "ar1" l))
                  (links (net core_link_down)) = true)
      by (vm_compute; reflexivity).
    intros l Hl. rewrite forallb_forall in H.
    apply negb_true_iff, H, Hl.
  - rewrite detect_link_failure_eq.
    assert (H : is_down (net core_link_down) "ar1" "ar1" = true)
      by (vm_compute; reflexivity).
    rewrite H. reflexivity.
Qed.

Lemma detect_reads_first_link_witness :
  detect_link_failure "ar1" "es1" (break_link "ar1" "es1" basic_world)
  = (Ret true, break_link "ar1" "es1" basic_world).
Proof.
  destruct (detect_reads_first_link
              (break_link "ar1" "es1" basic_world) "ar1" "es1")
    as (H & _ & _).
  - discriminate.
  - rewrite H. reflexivity.
Defined.

(** C6 on the code: the three deletions do not "clear ALL existing routes
    to this destination", as the comment above them says.  In cr2 of
    [residue_world], which holds routes to 10.1.1.0/24 at metrics 1 and 5,
    one call with metric 7 leaves two routes (metrics 5 and 7), and a second
    identical call leaves another table (metric 7 only). *)
Lemma update_router_route_leaves_residue :
  routes_to (net residue_world) "cr2" "10.1.1.0/24" = [5; 1]
  /\ routes_to (net (set_metric_7 residue_world).2) "cr2" "10.1.1.0/24"
     = [5; 7]
  /\ routes_to (net (set_metric_7 (set_metric_7 residue_world).2).2)
       "cr2" "10.1.1.0/24" = [7]
  /\ net (set_metric_7 (set_metric_7 residue_world).2).2
     <> net (set_metric_7 residue_world).2.
Proof.
  assert (H1 : routes_to (net (set_metric_7 residue_world).2)
                 "cr2" "10.1.1.0/24" = [5; 7])
    by (vm_compute; reflexivity).
  assert (H2 : routes_to (net (set_metric_7 (set_metric_7 residue_world).2).2)
                 "cr2" "10.1.1.0/24" = [7])
    by (vm_compute; reflexivity).
  split; [vm_compute; reflexivity|].
  split; [exact H1|]. split; [exact H2|].
  intros Heq. rewrite Heq, H1 in H2. discriminate H2.
Qed.

(** C5 on the code: with link ar1-es1 down in the freshly routed topology,
    [auto_detect_and_fix_failures] reports success, and cr2, which had one
    route to 10.1.1.0/24 (metric 0), now has two (metrics 0 and 1): the AR1
    plan adds the second without deleting the first. *)
Lemma recovery_leaves_two_routes_in_cr2 :
  routes_to (net basic_world) "cr2" "10.1.1.0/24" = [0]
  /\ ar1_es1_repaired.1 = Ret true
  /\ routes_to (net ar1_es1_repaired.2) "cr2" "10.1.1.0/24" = [0; 1].
Proof. repeat split; vm_compute; reflexivity. Qed.


Lemma healthy_network_is_left_alone_witness :
  auto_detect_and_fix_failures accept_all ping_success basic_world
  = (Ret true,
     {| net := net basic_world;
        output := output basic_world ++ header ++ [healthy] |}).
Proof.
  apply (healthy_network_is_left_alone accept_all ping_success basic_world).
  intros c H. unfold candidate_links in H. cbn [In] in H.
  repeat (destruct H as [<-|H]; [vm_compute; reflexivity|]).
  destruct H.
Defined.

Lemma update_router_route_idempotent_witness :
  net (set_lab_route (set_lab_route lab_world).2).2
  = net (set_lab_route lab_world).2.
Proof.
  apply (update_router_route_idempotent_when_clearable
           accept_all ping_success lab_world "r1" "10.9.0.0/16"
           (rc_via "172.16.0.9" (Some 5)) (via "172.16.0.9") lab_router).
  - intros n c. reflexivity.
  - apply lookup_singleton_eq.
  - intros m [r Hr]. unfold lab_router in Hr. cbn [routes] in Hr.
    apply lookup_singleton_Some in Hr. destruct Hr as [Hk _].
    injection Hk as <-. right. right. intros m' _. lia.
  - reflexivity.
Defined.

Lemma h9_is_missing : is_set_node (nameToNode (net basic_world)) "h9" = false.
Proof. vm_compute. reflexivity. Qed.

(** C7 on the code: the guards [if not router: return False] and
    [if not host: return False] are never reached.  [net.get] raises
    [KeyError] for the name h9, which is not in the network: every table is
    left as it was, but the failure is an exception, not a result, and what
    the caller would do next is not run. *)
Lemma missing_node_aborts_the_caller :
  update_router_route accept_all ping_success "h9" "10.1.1.0/24"
    (rc_via "10.1.1.254" None) basic_world
  = (Raise KeyError, basic_world)
  /\ update_host_route accept_all ping_success "h9" "10.1.1.0/24"
       "10.1.1.254" basic_world
     = (Raise KeyError, basic_world)
  /\ forall (B : Type) (rest : bool -> M B),
       bind (update_router_route accept_all ping_success "h9" "10.1.1.0/24"
               (rc_via "10.1.1.254" None)) rest basic_world
       = (Raise KeyError, basic_world)
       /\ bind (update_host_route accept_all ping_success "h9" "10.1.1.0/24"
                  "10.1.1.254") rest basic_world
          = (Raise KeyError, basic_world).
Proof.
  assert (Hr : update_router_route accept_all ping_success "h9" "10.1.1.0/24"
                 (rc_via "10.1.1.254" None) basic_world
               = (Raise KeyError, basic_world)).
  { unfold update_router_route. rewrite bind_net_get, h9_is_missing.
    reflexivity. }
  assert (Hh : update_host_route accept_all ping_success "h9" "10.1.1.0/24"
                 "10.1.1.254" basic_world
               = (Raise KeyError, basic_world)).
  { unfold update_host_route. rewrite bind_net_get, h9_is_missing.
    reflexivity. }
  split; [exact Hr|]. split; [exact Hh|].
  intros B rest. split.
  - unfold bind at 1. rewrite Hr. reflexivity.
  - unfold bind at 1. rewrite Hh. reflexivity.
Qed.

(** C10 on the code: for the name h9, which is not in the network, neither
    function has a boolean result, whether the kernel accepts every command
    or refuses them all: [net.get] raises [KeyError] before the guard that
    would answer [False]. *)
Lemma missing_node_gives_no_result :
  (update_router_route refuse_all ping_silent "h9" "10.1.1.0/24"
     (rc_via "10.1.1.254" None) basic_world).1 = Raise KeyError
  /\ (update_host_route refuse_all ping_silent "h9" "10.1.1.0/24"
        "10.1.1.254" basic_world).1 = Raise KeyError
  /\ (update_router_route accept_all ping_success "h9" "10.1.1.0/24"
        (rc_via "10.1.1.254" None) basic_world).1 = Raise KeyError
  /\ (update_host_route accept_all ping_success "h9" "10.1.1.0/24"
        "10.1.1.254" basic_world).1 = Raise KeyError.
Proof.
  repeat split;
    unfold update_router_route, update_host_route;
    rewrite bind_net_get, h9_is_missing; reflexivity.
Qed.

(** A kernel that refuses every command: [update_router_route] still
    answers [True] for an existing node, and the tables stay as they were. *)
Lemma refused_commands_still_report_success :
  (update_router_route refuse_all ping_silent "cr2" "10.1.1.0/24"
     (rc_via "172.16.6.2" None) basic_world).1 = Ret true
  /\ net (update_router_route refuse_all ping_silent "cr2" "10.1.1.0/24"
            (rc_via "172.16.6.2" None) basic_world).2
     = net basic_world.
Proof. split; reflexivity. Qed.

(** A probe whose ping prints nothing fails. *)
Lemma silent_probe_fails :
  (test_connectivity accept_all ping_silent "h1" "h3" basic_world).1
  = Ret false.
Proof. rewrite test_connectivity_eq. vm_compute. reflexivity. Qed.

(** C8 on the code: a probe that names the unknown host h9, as source or as
    destination, does not answer [False]: [net.get] raises [KeyError] before
    the guard [if not src or not dst: return False] is reached. *)
Lemma probe_of_missing_host_raises :
  test_connectivity accept_all ping_success "h1" "h9" basic_world
  = (Raise KeyError, basic_world)
  /\ test_connectivity accept_all ping_success "h9" "h1" basic_world
     = (Raise KeyError, basic_world).
Proof.
  split; apply test_connectivity_missing.
  - rewrite h9_is_missing. apply andb_false_r.
  - rewrite h9_is_missing. reflexivity.
Qed.

(** * More properties *)

Section Extras.

Variable cmd_ok : Mininet -> string -> command -> bool.
Variable ping_reply : Mininet -> string -> string -> string.

(** ** Composing what runs may change *)

Section RespectsAt.

Variable P : Event -> Prop.
Variable Q : Mininet -> Mininet -> Prop.
Context `{!PreOrder Q}.

Lemma r_ret {A} (a : A) : respects P Q (ret a).
Proof. apply respects_ret. intros n. reflexivity. Qed.

Lemma r_bind {A B} (m : M A) (k : A -> M B) :
  respects P Q m -> (forall a, respects P Q (k a)) -> respects P Q (bind m k).
Proof.
  intros Hm Hk. eapply respects_bind;
    first [exact Hm|exact Hk|intros n; reflexivity
          |intros a b c; apply transitivity].
Qed.

Lemma r_print line : P (Print line) -> respects P Q (print line).
Proof.
  intros H. apply respects_print; first [exact H|intros n; reflexivity].
Qed.

Lemma r_cmd_at name c :
  P (Cmd name c) ->
  (forall n, Q n (run_in name c n)) ->
  respects P Q (cmd cmd_ok ping_reply (Some name) c).
Proof.
  intros HP HQ w. unfold cmd. split; cbn.
  - exists [Cmd name c]. split; [reflexivity|]. repeat constructor. exact HP.
  - destruct (cmd_ok (net w) name c); [apply HQ|reflexivity].
Qed.

(** After [x = net.get(name)], [x] is the node [name]; when the lookup
    raises, nothing has changed. *)
Lemma r_get_bind {B} name (k : option string -> M B) :
  respects P Q (k (Some name)) ->
  respects P Q (bind (net_get name) k).
Proof.
  intros HS w. rewrite bind_net_get.
  destruct (is_set_node (nameToNode (net w)) name); [apply HS|].
  split; [|reflexivity].
  exists []. rewrite app_nil_r. split; [reflexivity|constructor].
Qed.

Lemma r_dict_get {A} (v : option A) : respects P Q (dict_get v).
Proof.
  intros w. destruct v; (split; [|reflexivity]);
    exists []; rewrite app_nil_r; (split; [reflexivity|constructor]).
Qed.

Lemma r_try_pass body : respects P Q body -> respects P Q (try_pass body).
Proof.
  intros H w. specialize (H w). unfold try_pass.
  destruct (body w) as [[a|e] w']; exact H.
Qed.

Lemma r_detect a b : respects P Q (detect_link_failure a b).
Proof.
  intros w. rewrite detect_link_failure_eq. cbn. split; [|reflexivity].
  exists []. rewrite app_nil_r. split; [reflexivity|constructor].
Qed.

Lemma r_test_connectivity src dst :
  (forall t, P (Cmd src (ping 1 2 t))) ->
  respects P Q (test_connectivity cmd_ok ping_reply src dst).
Proof.
  intros HP w. rewrite test_connectivity_eq.
  destruct (nameToNode (net w) !! src);
    [destruct (nameToNode (net w) !! dst)|]; cbn.
  - split; [|reflexivity].
    eexists. split; [reflexivity|]. repeat constructor. apply HP.
  - split; [|reflexivity].
    exists []. rewrite app_nil_r. split; [reflexivity|constructor].
  - split; [|reflexivity].
    exists []. rewrite app_nil_r. split; [reflexivity|constructor].
Qed.

End RespectsAt.

(** One step through a run, for a goal [respects P Q m]; [on_cmd] settles
    the commands. *)
Ltac r_step on_cmd :=
  match goal with
  | |- respects _ _ (bind (net_get _) _) =>
      apply r_get_bind; try typeclasses eauto; cbn [is_set negb orb]
  | |- respects _ _ (bind _ _) =>
      apply r_bind; try typeclasses eauto; [|intros ?]
  | |- respects _ _ (dict_get _) => apply r_dict_get; typeclasses eauto
  | |- respects _ _ (ret _) => apply r_ret; typeclasses eauto
  | |- respects _ _ (if ?b then _ else _) => destruct b
  | |- respects _ _ (cmd _ _ (Some _) _) => on_cmd
  end.

(** ** The detector does not care about the order of the two names *)

Lemma detect_link_failure_loop_sym (ls : list Link) (a b : string) :
  detect_link_failure_loop ls a b = detect_link_failure_loop ls b a.
Proof.
  induction ls as [|l ls IH]; [reflexivity|].
  cbn [detect_link_failure_loop]. rewrite IH.
  rewrite (andb_comm (bool_decide (a ∈ _))). reflexivity.
Qed.

(** X1: [detect_link_failure] answers the same for (a, b) and for (b, a), in
    every network: the plans name the core links as (cr1, ar1), the scan as
    (ar1, cr1). *)
Theorem detect_link_failure_symmetric (w : World) (a b : string) :
  detect_link_failure a b w = detect_link_failure b a w.
Proof.
  unfold detect_link_failure. rewrite detect_link_failure_loop_sym.
  reflexivity.
Qed.

(** ** What [setRoute] leaves alone *)

#[global] Instance changes_only_preorder (touch : string -> string -> Prop) :
  PreOrder (changes_only touch).
Proof.
  split.
  - intros n. split; [reflexivity|]. intros x.
    destruct (nameToNode n !! x); [|exact I]. split; reflexivity.
  - intros n1 n2 n3 [L12 H12] [L23 H23]. split; [congruence|]. intros x.
    specialize (H12 x). specialize (H23 x).
    destruct (nameToNode n1 !! x), (nameToNode n2 !! x),
      (nameToNode n3 !! x); try contradiction; try exact I.
    destruct H12 as [I12 R12], H23 as [I23 R23]. split; [congruence|].
    intros k Hk. rewrite R23, R12 by exact Hk. reflexivity.
Qed.

Lemma kernel_other_keys (c : command) (t : gmap (string * nat) Route)
    (k : string * nat) :
  (forall d, cmd_destination c = Some d -> k.1 <> d) ->
  kernel c t !! k = t !! k.
Proof.
  intros H. destruct c as [d mo|d h s mo| | |]; cbn [kernel]; try reflexivity.
  - specialize (H d eq_refl). unfold route_del.
    destruct mo as [[|m]|]; try destruct (lowest (metrics_to t d));
      try reflexivity; apply lookup_delete_ne; intros <-; apply H; reflexivity.
  - specialize (H d eq_refl). unfold route_add.
    destruct (t !! (d, default 0 mo)); [reflexivity|].
    apply lookup_insert_ne. intros <-. apply H. reflexivity.
Qed.

Lemma run_in_changes_only (touch : string -> string -> Prop)
    (name : string) (c : command) (n : Mininet) :
  (forall d, cmd_destination c = Some d -> touch name d) ->
  changes_only touch n (run_in name c n).
Proof.
  intros Ht. split; [apply same_links_run_in|]. intros x.
  assert (Hx : nameToNode (run_in name c n) !! x
               = (if decide (name = x)
                  then (fun nd => set_routes (kernel c (routes nd)) nd)
                         <$> nameToNode n !! name
                  else nameToNode n !! x)).
  { destruct c; cbn [run_in nameToNode]; try apply lookup_alter;
      destruct (decide (name = x)) as [<-|]; try reflexivity;
      destruct (nameToNode n !! name) as [[]|]; reflexivity. }
  rewrite Hx. destruct (decide (name = x)) as [<-|Hne].
  - destruct (nameToNode n !! name) as [nd|]; cbn; [|exact I].
    split; [reflexivity|]. intros k Hk. apply kernel_other_keys.
    intros d Hd Hkd. apply Hk. rewrite Hkd. apply Ht, Hd.
  - destruct (nameToNode n !! x); [|exact I]. split; reflexivity.
Qed.

Lemma r_route_cmd (touch : string -> string -> Prop) (name : string)
    (c : command) :
  (forall d, cmd_destination c = Some d -> touch name d) ->
  respects any_event (changes_only touch)
    (cmd cmd_ok ping_reply (Some name) c).
Proof.
  intros H. apply r_cmd_at; try typeclasses eauto; [exact I|].
  intros n. apply run_in_changes_only, H.
Qed.

(** X2: Whatever the kernel accepts or refuses, [update_router_route] and
    [update_host_route] change nothing but the routes of the named node to
    the named destination: the links, the set of nodes, every other node's
    table and the node's routes to other prefixes stay as they were. *)
Theorem set_route_changes_only_its_route
    (name d gateway : string) (rc : route_config) (w : World) :
  changes_only (the_route name d) (net w)
    (net (update_router_route cmd_ok ping_reply name d rc w).2)
  /\ changes_only (the_route name d) (net w)
       (net (update_host_route cmd_ok ping_reply name d gateway w).2).
Proof.
  assert (Hcmd : forall c, (forall d', cmd_destination c = Some d' -> d' = d) ->
            respects any_event (changes_only (the_route name d))
              (cmd cmd_ok ping_reply (Some name) c)).
  { intros c Hc. apply r_route_cmd. intros d' Hd'. split; [reflexivity|].
    apply Hc, Hd'. }
  split.
  - assert (H : respects any_event (changes_only (the_route name d))
                  (update_router_route cmd_ok ping_reply name d rc)).
    { unfold update_router_route.
      repeat r_step ltac:(apply Hcmd; cbn; congruence). }
    apply (H w).
  - assert (H : respects any_event (changes_only (the_route name d))
                  (update_host_route cmd_ok ping_reply name d gateway)).
    { unfold update_host_route.
      repeat r_step ltac:(apply Hcmd; cbn; congruence). }
    apply (H w).
Qed.

(** ** One route per prefix *)

Lemma route_del_other (d : string) (mo : option nat)
    (t : gmap (string * nat) Route) (k : string * nat) :
  k.1 <> d -> route_del d mo t !! k = t !! k.
Proof.
  intros H. apply (kernel_other_keys (ip_route_del d mo)).
  intros d' [= <-]. exact H.
Qed.

Lemma route_add_other (d : string) (h : hop) (s : option string)
    (mo : option nat) (t : gmap (string * nat) Route) (k : string * nat) :
  k.1 <> d -> route_add d h s mo t !! k = t !! k.
Proof.
  intros H. apply (kernel_other_keys (ip_route_add d h s mo)).
  intros d' [= <-]. exact H.
Qed.

Lemma replace_route_other (d : string) (rc : route_config)
    (t : gmap (string * nat) Route) (k : string * nat) :
  k.1 <> d -> replace_route d rc t !! k = t !! k.
Proof.
  intros H. unfold replace_route.
  destruct (rc_hop rc); rewrite ?route_add_other, !route_del_other by exact H;
    reflexivity.
Qed.

(** A table with at most one route to [d] is within reach of one delete. *)
Lemma single_route_cleared (d : string) (t : gmap (string * nat) Route) :
  (forall m m', is_Some (t !! (d, m)) -> is_Some (t !! (d, m')) -> m = m') ->
  forall m, route_del d None t !! (d, m) = None.
Proof.
  intros Hone m.
  destruct (t !! (d, m)) as [r|] eqn:Hr;
    [|apply route_del_keeps_none; exact Hr].
  rewrite (route_del_lowest d t m); [apply lookup_delete_eq|eauto|].
  intros m' Hm'. rewrite (Hone m m'); eauto.
Qed.

Lemma single_route_clearable (d : string) (t : gmap (string * nat) Route) :
  (forall m m', is_Some (t !! (d, m)) -> is_Some (t !! (d, m')) -> m = m') ->
  clearable d t.
Proof.
  intros Hone m Hm. right. right. intros m' Hm'.
  rewrite (Hone m m'); eauto.
Qed.

Lemma replace_host_route_lookup (d g : string)
    (t : gmap (string * nat) Route) (m : nat) :
  (forall m m', is_Some (t !! (d, m)) -> is_Some (t !! (d, m')) -> m = m') ->
  replace_host_route d g t !! (d, m)
  = if decide (m = 1)
    then Some {| nexthop := via g; prefsrc := None |}
    else None.
Proof.
  intros Hone. unfold replace_host_route.
  pose proof (single_route_cleared d t Hone) as Hclear.
  rewrite route_add_fresh by apply Hclear.
  destruct (decide (m = 1)) as [->|Hne].
  - apply lookup_insert_eq.
  - rewrite lookup_insert_ne by congruence. apply Hclear.
Qed.

Lemma replace_host_route_idempotent (d g : string)
    (t : gmap (string * nat) Route) :
  (forall m m', is_Some (t !! (d, m)) -> is_Some (t !! (d, m')) -> m = m') ->
  replace_host_route d g (replace_host_route d g t) = replace_host_route d g t.
Proof.
  intros Hone. unfold replace_host_route.
  pose proof (single_route_cleared d t Hone) as Hclear.
  rewrite (route_add_fresh d (via g) None 1 (route_del d None t))
    by apply Hclear.
  rewrite route_del_only by exact Hclear.
  apply route_add_fresh, Hclear.
Qed.

Lemma update_host_route_net (w : World) (name d g : string) (nd : Node) :
  (forall n c, cmd_ok n name c = true) ->
  nameToNode (net w) !! name = Some nd ->
  net (update_host_route cmd_ok ping_reply name d g w).2
  = with_routes name nd (replace_host_route d g (routes nd)) (net w).
Proof.
  intros Hacc Hnode.
  unfold update_host_route. unfold bind at 1. rewrite net_get_eq.
  unfold is_set_node. rewrite Hnode. cbn [is_set negb].
  rewrite !bind_cmd_accepted by apply Hacc. cbn [net output].
  rewrite (run_in_node name _ (net w) nd Hnode).
  unfold ret; cbn [snd net output routes set_routes].
  repeat (rewrite (run_in_node name _ _ _ (with_routes_lookup _ _ _ _)),
            with_routes_again).
  reflexivity.
Qed.

(** X3: On a host that holds at most one route to the destination, and with a
    kernel that accepts the commands, [update_host_route] leaves exactly one
    route to the destination, via the given gateway at metric 1, and a
    second identical call changes nothing. *)
Theorem update_host_route_replaces_single_route
    (w : World) (name d g : string) (nd : Node) :
  (forall n c, cmd_ok n name c = true) ->
  nameToNode (net w) !! name = Some nd ->
  (forall m m', is_Some (routes nd !! (d, m)) ->
                is_Some (routes nd !! (d, m')) -> m = m') ->
  let once := (update_host_route cmd_ok ping_reply name d g w).2 in
  let twice := (update_host_route cmd_ok ping_reply name d g once).2 in
  net twice = net once
  /\ exists nd1,
       nameToNode (net once) !! name = Some nd1
       /\ forall m,
            routes nd1 !! (d, m)
            = if decide (m = 1)
              then Some {| nexthop := via g; prefsrc := None |}
              else None.
Proof.
  intros Hacc Hnode Hone once twice.
  assert (Honce : net once
                  = with_routes name nd (replace_host_route d g (routes nd))
                      (net w))
    by (apply update_host_route_net; assumption).
  split.
  - unfold twice.
    rewrite (update_host_route_net once name d g
               (set_routes (replace_host_route d g (routes nd)) nd) Hacc)
      by (rewrite Honce; apply with_routes_lookup).
    rewrite Honce, with_routes_again. cbn [routes set_routes].
    rewrite (replace_host_route_idempotent d g _ Hone). reflexivity.
  - exists (set_routes (replace_host_route d g (routes nd)) nd). split.
    + rewrite Honce. apply with_routes_lookup.
    + intros m. cbn [routes set_routes].
      apply replace_host_route_lookup; assumption.
Qed.

Lemma with_routes_at_most_one (name : string) (nd : Node)
    (t : gmap (string * nat) Route) (n : Mininet) :
  at_most_one_route n ->
  (forall d m m', is_Some (t !! (d, m)) -> is_Some (t !! (d, m')) -> m = m') ->
  at_most_one_route (with_routes name nd t n).
Proof.
  intros Hn Ht x nd' d m m' Hx Hm Hm'. unfold with_routes in Hx. cbn in Hx.
  destruct (decide (name = x)) as [<-|Hne].
  - rewrite lookup_insert_eq in Hx. injection Hx as <-.
    cbn [routes set_routes] in *. eapply Ht; eassumption.
  - rewrite lookup_insert_ne in Hx by exact Hne.
    eapply Hn; eassumption.
Qed.

Lemma set_route_missing (c : SetRoute) (w : World) :
  match c with
  | router_route name _ _ | host_route name _ _ =>
      nameToNode (net w) !! name = None
  end ->
  set_route cmd_ok ping_reply c w = (Raise KeyError, w).
Proof.
  destruct c as [name d rc|name d g]; intros Hnode; cbn [set_route].
  - unfold update_router_route. rewrite bind_net_get.
    unfold is_set_node. rewrite Hnode. reflexivity.
  - unfold update_host_route. rewrite bind_net_get.
    unfold is_set_node. rewrite Hnode. reflexivity.
Qed.

Lemma set_route_at_most_one (c : SetRoute) (w : World) :
  (forall n x c', cmd_ok n x c' = true) ->
  at_most_one_route (net w) ->
  at_most_one_route (net (set_route cmd_ok ping_reply c w).2).
Proof.
  intros Hacc Hone. destruct c as [name d rc|name d g]; cbn [set_route].
  - destruct (nameToNode (net w) !! name) as [nd|] eqn:Hnode.
    + rewrite (update_router_route_net cmd_ok ping_reply w name d rc nd
                 (fun n c => Hacc n name c) Hnode).
      apply with_routes_at_most_one; [exact Hone|].
      assert (Hd : forall m m', is_Some (routes nd !! (d, m)) ->
                     is_Some (routes nd !! (d, m')) -> m = m')
        by (intros m m'; apply (Hone name nd d m m' Hnode)).
      intros d' m m' Hm Hm'.
      destruct (decide (d' = d)) as [->|Hne].
      * destruct (rc_hop rc) as [h|] eqn:Hh.
        -- rewrite (replace_route_lookup d rc h _ m
                      (single_route_clearable d _ Hd) Hh) in Hm.
           rewrite (replace_route_lookup d rc h _ m'
                      (single_route_clearable d _ Hd) Hh) in Hm'.
           destruct (decide (m = rc_metric rc)) as [->|];
             [|destruct Hm as [? [=]]].
           destruct (decide (m' = rc_metric rc)) as [->|];
             [reflexivity|destruct Hm' as [? [=]]].
        -- unfold replace_route in Hm. rewrite Hh in Hm.
           rewrite (three_deletes_clear d _ (single_route_clearable d _ Hd))
             in Hm.
           destruct Hm as [? [=]].
      * rewrite replace_route_other in Hm, Hm' by exact Hne.
        apply (Hone name nd d' m m' Hnode Hm Hm').
    + pose proof (set_route_missing (router_route name d rc) w Hnode) as Hr.
      cbn [set_route] in Hr. rewrite Hr. exact Hone.
  - destruct (nameToNode (net w) !! name) as [nd|] eqn:Hnode.
    + rewrite (update_host_route_net w name d g nd
                 (fun n c => Hacc n name c) Hnode).
      apply with_routes_at_most_one; [exact Hone|].
      assert (Hd : forall m m', is_Some (routes nd !! (d, m)) ->
                     is_Some (routes nd !! (d, m')) -> m = m')
        by (intros m m'; apply (Hone name nd d m m' Hnode)).
      intros d' m m' Hm Hm'.
      destruct (decide (d' = d)) as [->|Hne].
      * rewrite (replace_host_route_lookup d g _ m Hd) in Hm.
        rewrite (replace_host_route_lookup d g _ m' Hd) in Hm'.
        destruct (decide (m = 1)) as [->|]; [|destruct Hm as [? [=]]].
        destruct (decide (m' = 1)) as [->|];
          [reflexivity|destruct Hm' as [? [=]]].
      * unfold replace_host_route in Hm, Hm'.
        rewrite route_add_other, route_del_other in Hm, Hm' by exact Hne.
        apply (Hone name nd d' m m' Hnode Hm Hm').
    + pose proof (set_route_missing (host_route name d g) w Hnode) as Hr.
      cbn [set_route] in Hr. rewrite Hr. exact Hone.
Qed.

Lemma set_routes_seq_at_most_one (cs : list SetRoute) (w : World) :
  (forall n x c, cmd_ok n x c = true) ->
  at_most_one_route (net w) ->
  at_most_one_route (net (set_routes_seq cmd_ok ping_reply cs w).2).
Proof.
  intros Hacc. revert w. induction cs as [|c cs IH]; intros w Hone.
  - exact Hone.
  - pose proof (set_route_at_most_one c w Hacc Hone) as Hstep.
    cbn [set_routes_seq]. unfold bind at 1.
    destruct (set_route cmd_ok ping_reply c w) as [[b|e] w1];
      cbn [snd] in Hstep; [|exact Hstep].
    specialize (IH w1 Hstep). unfold bind at 1.
    destruct (set_routes_seq cmd_ok ping_reply cs w1) as [[bs|e] w2];
      exact IH.
Qed.

(** X4: With a kernel that accepts the commands, any sequence of [setRoute]
    calls ([update_router_route] and [update_host_route], in any order),
    whether it runs to its end or stops at a call that raises (a name that
    is not in the network, a dictionary without the key its type needs),
    leaves a network in which no node holds two routes to one prefix, when
    it starts from such a network. *)
Theorem set_routes_keep_one_route_per_prefix
    (cs : list SetRoute) (w : World) :
  (forall n x c, cmd_ok n x c = true) ->
  at_most_one_route (net w) ->
  at_most_one_route (net (set_routes_seq cmd_ok ping_reply cs w).2).
Proof. apply set_routes_seq_at_most_one. Qed.

(** ** Node names are kept; a missing name raises *)

#[global] Instance same_nodes_preorder : PreOrder same_nodes.
Proof.
  split; [intros n x; reflexivity|].
  intros a b c Hab Hbc x. rewrite Hbc. apply Hab.
Qed.

#[global] Instance same_net_preorder : PreOrder same_net.
Proof.
  split; [intros n; reflexivity|].
  intros a b c Hab Hbc. unfold same_net in *. congruence.
Qed.

Lemma run_in_lookup (name : string) (c : command) (n : Mininet) (x : string) :
  nameToNode (run_in name c n) !! x
  = (if decide (name = x)
     then (fun nd => set_routes (kernel c (routes nd)) nd)
            <$> nameToNode n !! name
     else nameToNode n !! x).
Proof.
  destruct c; cbn [run_in nameToNode]; try apply lookup_alter;
    destruct (decide (name = x)) as [<-|]; try reflexivity;
    destruct (nameToNode n !! name) as [[]|]; reflexivity.
Qed.

Lemma run_in_same_nodes (name : string) (c : command) (n : Mininet) :
  same_nodes n (run_in name c n).
Proof.
  intros x. unfold is_set_node. rewrite run_in_lookup.
  destruct (decide (name = x)) as [<-|]; [|reflexivity].
  destruct (nameToNode n !! name); reflexivity.
Qed.

Lemma cmd_same_nodes (name : string) (c : command) (w : World) :
  same_nodes (net w) (net (cmd cmd_ok ping_reply (Some name) c w).2).
Proof.
  cbn. destruct (cmd_ok (net w) name c);
    [apply run_in_same_nodes|reflexivity].
Qed.

Lemma configLinkStatus_same_nodes (a b : string) (st : LinkState) :
  respects any_event same_nodes (configLinkStatus a b st).
Proof.
  intros w. rewrite configLinkStatus_eq. split; cbn.
  - eexists. split; [reflexivity|]. repeat constructor.
  - intros x. reflexivity.
Qed.

Lemma all_present_same_nodes (n n' : Mininet) (names : list string) :
  same_nodes n n' -> all_present n' names = all_present n names.
Proof.
  intros H. unfold all_present.
  induction names as [|x rest IH]; [reflexivity|].
  cbn [forallb]. rewrite IH, (H x). reflexivity.
Qed.

Lemma all_present_app (n : Mininet) (l1 l2 : list string) :
  all_present n (l1 ++ l2) = all_present n l1 && all_present n l2.
Proof. apply forallb_app. Qed.

Lemma all_present_incl (n : Mininet) (l1 l2 : list string) :
  (forall x, In x l1 -> In x l2) ->
  all_present n l2 = true -> all_present n l1 = true.
Proof.
  unfold all_present. rewrite !forallb_forall. intros Hincl H x Hx.
  apply H, Hincl, Hx.
Qed.

Lemma raises_unless_ret {A} (a : A) : raises_unless [] (ret a).
Proof. intros w. split; [reflexivity|reflexivity]. Qed.

Lemma raises_unless_print line : raises_unless [] (print line).
Proof. intros w. split; [reflexivity|reflexivity]. Qed.

Lemma raises_unless_try_pass body :
  respects any_event same_nodes body -> raises_unless [] (try_pass body).
Proof.
  intros H w. specialize (H w). unfold try_pass.
  destruct (body w) as [[a|e] w']; (split; [apply H|reflexivity]).
Qed.

(** One statement after the other: the lookups of both. *)
Lemma raises_unless_bind {A B} (names1 names2 : list string) (m : M A)
    (k : A -> M B) :
  raises_unless names1 m -> (forall a, raises_unless names2 (k a)) ->
  raises_unless (names1 ++ names2) (bind m k).
Proof.
  intros Hm Hk w. unfold bind. destruct (Hm w) as [Hn Hr].
  rewrite all_present_app.
  destruct (m w) as [[a|e] w1]; cbn [fst snd] in Hn, Hr.
  - destruct (Hk a w1) as [Hn1 Hr1]. split.
    + etransitivity; eassumption.
    + rewrite (all_present_same_nodes _ _ _ Hn) in Hr1. rewrite Hr.
      exact Hr1.
  - destruct Hr as [-> Hr]. split; [exact Hn|].
    cbn [fst]. rewrite Hr. split; reflexivity.
Qed.

Lemma raises_unless_step {A B} (names : list string) (m : M A)
    (k : A -> M B) :
  raises_unless [] m -> (forall a, raises_unless names (k a)) ->
  raises_unless names (bind m k).
Proof. apply (raises_unless_bind [] names). Qed.

Lemma raises_unless_last {A B} (names : list string) (m : M A)
    (k : A -> M B) :
  raises_unless names m -> (forall a, raises_unless [] (k a)) ->
  raises_unless names (bind m k).
Proof.
  intros Hm Hk. rewrite <- (app_nil_r names).
  apply raises_unless_bind; assumption.
Qed.

Lemma raises_unless_assoc {A B C} (names : list string) (m : M A)
    (k : A -> M B) (h : B -> M C) :
  raises_unless names (bind m (fun a => bind (k a) h)) ->
  raises_unless names (bind (bind m k) h).
Proof. intros H w. rewrite bind_assoc. apply H. Qed.

Lemma raises_unless_cmd {B} (names : list string) (name : string)
    (c : command) (k : string -> M B) :
  (forall a, raises_unless names (k a)) ->
  raises_unless names (bind (cmd cmd_ok ping_reply (Some name) c) k).
Proof.
  intros Hk. apply raises_unless_step; [|exact Hk].
  intros w. split; [apply cmd_same_nodes|reflexivity].
Qed.

(** [x = net.get(name)], then the rest with the node found. *)
Lemma raises_unless_get {B} (names : list string) (name : string)
    (k : option string -> M B) :
  raises_unless names (k (Some name)) ->
  raises_unless (name :: names) (bind (net_get name) k).
Proof.
  intros H w. rewrite bind_net_get.
  unfold all_present. cbn [forallb].
  destruct (is_set_node (nameToNode (net w)) name); cbn [andb].
  - apply H.
  - split; [reflexivity|]. split; reflexivity.
Qed.

Lemma raises_unless_test_connectivity (src dst : string) :
  raises_unless [src; dst] (test_connectivity cmd_ok ping_reply src dst).
Proof.
  intros w. rewrite test_connectivity_eq.
  unfold all_present, is_set_node. cbn [forallb].
  destruct (nameToNode (net w) !! src);
    [destruct (nameToNode (net w) !! dst)|];
    (split; [intros x; reflexivity|]); cbn; auto.
Qed.

(** The result of a run that returns nothing. *)
Lemma raises_unless_result (names : list string) (m : M unit) (w : World) :
  raises_unless names m ->
  (m w).1 = (if all_present (net w) names then Ret tt else Raise KeyError).
Proof.
  intros H. destruct (H w) as [_ Hr].
  destruct (m w).1 as [[]|ex].
  - rewrite Hr. reflexivity.
  - destruct Hr as [-> ->]. reflexivity.
Qed.

Ltac raise_step :=
  match goal with
  | |- raises_unless _ (bind (net_get _) _) =>
      apply raises_unless_get; cbn [is_set negb orb]
  | |- raises_unless _ (bind (cmd _ _ (Some _) _) _) =>
      apply raises_unless_cmd; intros ?
  | |- raises_unless _ (bind (print _) _) =>
      apply raises_unless_step; [apply raises_unless_print|intros ?]
  | |- raises_unless _ (bind (ret _) _) =>
      apply raises_unless_step; [apply raises_unless_ret|intros ?]
  | |- raises_unless _ (bind (try_pass _) _) =>
      apply raises_unless_step;
        [ apply raises_unless_try_pass;
          repeat first
            [ apply r_bind; try typeclasses eauto; [|intros ?]
            | apply configLinkStatus_same_nodes ]
        | intros ? ]
  | |- raises_unless _ (bind (bind _ _) _) => apply raises_unless_assoc
  | |- raises_unless _ (print _) => apply raises_unless_print
  | |- raises_unless _ (ret _) => apply raises_unless_ret
  end.

Ltac raise_steps := repeat raise_step.

(** ** setup_basic_routing *)

#[global] Instance keeps_routes_preorder : PreOrder keeps_routes.
Proof.
  split.
  - intros n. split; [reflexivity|]. intros x.
    destruct (nameToNode n !! x); [|exact I]. split; [reflexivity|auto].
  - intros n1 n2 n3 [L12 H12] [L23 H23]. split; [congruence|]. intros x.
    specialize (H12 x). specialize (H23 x).
    destruct (nameToNode n1 !! x), (nameToNode n2 !! x),
      (nameToNode n3 !! x); try contradiction; try exact I.
    destruct H12 as [I12 R12], H23 as [I23 R23]. split; [congruence|].
    intros k r Hk. apply R23, R12, Hk.
Qed.

Lemma route_add_keeps (d : string) (h : hop) (s : option string)
    (mo : option nat) (t : gmap (string * nat) Route) (k : string * nat)
    (r : Route) :
  t !! k = Some r -> route_add d h s mo t !! k = Some r.
Proof.
  intros H. unfold route_add.
  destruct (t !! (d, default 0 mo)) eqn:Hd; [exact H|].
  rewrite lookup_insert_ne; [exact H|]. intros <-. congruence.
Qed.

Lemma run_in_keeps_routes (name : string) (c : command) (n : Mininet) :
  (forall d mo, c <> ip_route_del d mo) ->
  keeps_routes n (run_in name c n).
Proof.
  intros Hc. split; [apply same_links_run_in|]. intros x.
  rewrite run_in_lookup. destruct (decide (name = x)) as [<-|Hne].
  - destruct (nameToNode n !! name) as [nd|]; cbn; [|exact I].
    split; [reflexivity|]. intros k r Hk.
    destruct c; cbn [kernel]; try exact Hk.
    + exfalso. eapply Hc. reflexivity.
    + apply route_add_keeps, Hk.
  - destruct (nameToNode n !! x); [|exact I]. split; [reflexivity|auto].
Qed.

Lemma keep_cmd (name : string) (c : command) :
  (forall d mo, c <> ip_route_del d mo) ->
  respects any_event keeps_routes (cmd cmd_ok ping_reply (Some name) c).
Proof.
  intros H. apply r_cmd_at; try typeclasses eauto; [exact I|].
  intros n. apply run_in_keeps_routes, H.
Qed.

Ltac keep_steps :=
  repeat r_step ltac:(apply keep_cmd; intros ? ?; discriminate).

Lemma setup_host_routes_loop_ok (items : list (string * string)) :
  raises_unless (map fst items)
    (_setup_host_routes_loop cmd_ok ping_reply items)
  /\ respects any_event keeps_routes
       (_setup_host_routes_loop cmd_ok ping_reply items).
Proof.
  induction items as [|[host_name gateway] rest [IHr IHk]];
    cbn [_setup_host_routes_loop map fst].
  - split; [apply raises_unless_ret|apply r_ret; typeclasses eauto].
  - split.
    + raise_steps. exact IHr.
    + keep_steps. exact IHk.
Qed.

Lemma setup_switch_forwarding_loop_ok (switches : list string) :
  raises_unless switches
    (_setup_switch_forwarding_loop cmd_ok ping_reply switches)
  /\ respects any_event keeps_routes
       (_setup_switch_forwarding_loop cmd_ok ping_reply switches).
Proof.
  induction switches as [|switch_name rest [IHr IHk]];
    cbn [_setup_switch_forwarding_loop].
  - split; [apply raises_unless_ret|apply r_ret; typeclasses eauto].
  - split.
    + raise_steps. exact IHr.
    + keep_steps. exact IHk.
Qed.

Lemma setup_router_routes_ok :
  raises_unless ["ar1"; "ar2"; "ar3"; "ar4"]
    (_setup_router_routes cmd_ok ping_reply)
  /\ respects any_event keeps_routes (_setup_router_routes cmd_ok ping_reply).
Proof.
  unfold _setup_router_routes. split; [raise_steps|keep_steps].
Qed.

Lemma setup_core_routing_ok :
  raises_unless ["cr1"; "cr2"] (_setup_core_routing cmd_ok ping_reply)
  /\ respects any_event keeps_routes (_setup_core_routing cmd_ok ping_reply).
Proof.
  unfold _setup_core_routing. split; [raise_steps|keep_steps].
Qed.

Lemma setup_basic_routing_ok :
  raises_unless setup_nodes (setup_basic_routing cmd_ok ping_reply)
  /\ respects any_event keeps_routes (setup_basic_routing cmd_ok ping_reply).
Proof.
  unfold setup_basic_routing, setup_nodes. split.
  - apply raises_unless_step; [apply raises_unless_print|intros _].
    apply raises_unless_bind; [apply setup_host_routes_loop_ok|intros _].
    apply raises_unless_bind; [apply setup_switch_forwarding_loop_ok|intros _].
    apply raises_unless_bind; [apply setup_router_routes_ok|intros _].
    apply raises_unless_last; [apply setup_core_routing_ok|intros _].
    apply raises_unless_print.
  - apply r_bind; try typeclasses eauto;
      [apply r_print; try typeclasses eauto; exact I|intros _].
    apply r_bind; try typeclasses eauto;
      [apply setup_host_routes_loop_ok|intros _].
    apply r_bind; try typeclasses eauto;
      [apply setup_switch_forwarding_loop_ok|intros _].
    apply r_bind; try typeclasses eauto;
      [apply setup_router_routes_ok|intros _].
    apply r_bind; try typeclasses eauto;
      [apply setup_core_routing_ok|intros _].
    apply r_print; try typeclasses eauto; exact I.
Qed.

(** X5: Whatever the kernel accepts, [setup_basic_routing] returns normally
    exactly when the eighteen nodes it looks up (the hosts, the edge
    switches, the aggregation and the core routers) are all in the network,
    and raises [KeyError] at the lookup of a missing one otherwise.  In
    either case it leaves links, nodes and addresses alone, and every route
    that was installed before is still installed, unchanged: it only ever
    adds routes. *)
Theorem setup_basic_routing_only_adds (w : World) :
  (setup_basic_routing cmd_ok ping_reply w).1
  = (if all_present (net w) setup_nodes then Ret tt else Raise KeyError)
  /\ keeps_routes (net w) (net (setup_basic_routing cmd_ok ping_reply w).2).
Proof.
  destruct setup_basic_routing_ok as [Hr Hk]. split.
  - apply raises_unless_result, Hr.
  - apply (Hk w).
Qed.

(** ** clear_routes *)

Lemma route_del_only_removes (d : string) (mo : option nat)
    (t : gmap (string * nat) Route) (k : string * nat) (r : Route) :
  route_del d mo t !! k = Some r -> t !! k = Some r.
Proof.
  unfold route_del. destruct mo as [[|m]|];
    try destruct (lowest (metrics_to t d)); try (intros H; exact H);
    intros H; apply lookup_delete_Some in H; apply H.
Qed.

Lemma run_in_only_removes (name : string) (c : command) (n : Mininet) :
  (forall d h s mo, c <> ip_route_add d h s mo) ->
  keeps_routes (run_in name c n) n.
Proof.
  intros Hc. split; [symmetry; apply same_links_run_in|]. intros x.
  rewrite run_in_lookup. destruct (decide (name = x)) as [<-|Hne].
  - destruct (nameToNode n !! name) as [nd|]; cbn; [|exact I].
    split; [reflexivity|]. intros k r Hk.
    destruct c; cbn [kernel] in Hk; try exact Hk.
    + eapply route_del_only_removes, Hk.
    + exfalso. eapply Hc. reflexivity.
  - destruct (nameToNode n !! x); [|exact I]. split; [reflexivity|auto].
Qed.

Lemma remove_cmd (name : string) (c : command) :
  (forall d h s mo, c <> ip_route_add d h s mo) ->
  respects any_event (flip keeps_routes)
    (cmd cmd_ok ping_reply (Some name) c).
Proof.
  intros H. apply r_cmd_at; try typeclasses eauto; [exact I|].
  intros n. apply run_in_only_removes, H.
Qed.

Lemma clear_routes_routers_ok (pairs : list (string * string))
    (routers : list string) (src_subnet dst_subnet : string) :
  (forall x, In x routers -> In x ["ar1"; "ar2"; "ar3"; "ar4"]) ->
  In (src_subnet, dst_subnet) pairs ->
  raises_unless routers
    (clear_routes_routers cmd_ok ping_reply routers src_subnet dst_subnet)
  /\ respects any_event (changes_only (cleared_route pairs))
       (clear_routes_routers cmd_ok ping_reply routers src_subnet dst_subnet)
  /\ respects any_event (flip keeps_routes)
       (clear_routes_routers cmd_ok ping_reply routers src_subnet dst_subnet).
Proof.
  intros Hrs Hp.
  induction routers as [|router_name rest IH]; cbn [clear_routes_routers].
  - split; [apply raises_unless_ret|split; apply r_ret; typeclasses eauto].
  - destruct IH as (IHr & IHc & IHk).
    { intros x Hx. apply Hrs. right. exact Hx. }
    assert (Hin : In router_name ["ar1"; "ar2"; "ar3"; "ar4"])
      by (apply Hrs; left; reflexivity).
    split; [|split].
    + raise_steps. exact IHr.
    + repeat r_step ltac:(
        first
          [ apply r_route_cmd; cbn [cmd_destination]; intros ? [= <-];
            (split; [exact Hin|]); eexists; (split; [exact Hp|]); cbn; auto
          | apply r_route_cmd; cbn [cmd_destination]; intros ?;
            discriminate ]).
      exact IHc.
    + repeat r_step ltac:(apply remove_cmd; intros ? ? ? ?; discriminate).
      exact IHk.
Qed.

Lemma clear_routes_ok (pairs subnet_pairs : list (string * string)) :
  (forall p, In p subnet_pairs -> In p pairs) ->
  raises_unless (clear_routes_nodes subnet_pairs)
    (clear_routes cmd_ok ping_reply subnet_pairs)
  /\ respects any_event (changes_only (cleared_route pairs))
       (clear_routes cmd_ok ping_reply subnet_pairs)
  /\ respects any_event (flip keeps_routes)
       (clear_routes cmd_ok ping_reply subnet_pairs).
Proof.
  induction subnet_pairs as [|[src_subnet dst_subnet] rest IH];
    intros Hsub; cbn [clear_routes clear_routes_nodes flat_map].
  - split; [apply raises_unless_ret|split; apply r_ret; typeclasses eauto].
  - destruct IH as (IHr & IHc & IHk).
    { intros p Hp. apply Hsub. right. exact Hp. }
    destruct (clear_routes_routers_ok pairs ["ar1"; "ar2"; "ar3"; "ar4"]
                src_subnet dst_subnet) as (Hr & Hc & Hk).
    { auto. }
    { apply Hsub. left. reflexivity. }
    split; [|split].
    + apply raises_unless_bind; [exact Hr|intros _; exact IHr].
    + apply r_bind; try typeclasses eauto; [exact Hc|intros _; exact IHc].
    + apply r_bind; try typeclasses eauto; [exact Hk|intros _; exact IHk].
Qed.

(** X6: Whatever the kernel accepts, [clear_routes] returns normally exactly
    when ar1..ar4 are in the network (or the list is empty), and raises
    [KeyError] at the lookup of a missing one otherwise.  In either case it
    leaves links, nodes and addresses alone; the only routes that can differ
    afterwards are those of ar1..ar4 to a subnet of the list; and it
    installs nothing: every route of the resulting network was already
    there, unchanged. *)
Theorem clear_routes_only_removes_listed_routes
    (subnet_pairs : list (string * string)) (w : World) :
  (clear_routes cmd_ok ping_reply subnet_pairs w).1
  = (if all_present (net w) (clear_routes_nodes subnet_pairs)
     then Ret tt else Raise KeyError)
  /\ changes_only (cleared_route subnet_pairs) (net w)
       (net (clear_routes cmd_ok ping_reply subnet_pairs w).2)
  /\ keeps_routes (net (clear_routes cmd_ok ping_reply subnet_pairs w).2)
       (net w).
Proof.
  destruct (clear_routes_ok subnet_pairs subnet_pairs) as (Hr & Hc & Hk);
    [auto|].
  split; [|split].
  - apply raises_unless_result, Hr.
  - apply (Hc w).
  - apply (Hk w).
Qed.

(** ** test_basic_connectivity *)

Lemma test_connectivity_same_net (src dst : string) :
  respects any_event same_net (test_connectivity cmd_ok ping_reply src dst).
Proof.
  intros w. rewrite test_connectivity_eq.
  destruct (nameToNode (net w) !! src);
    [destruct (nameToNode (net w) !! dst)|]; cbn;
    (split; [|reflexivity]);
    first [ exists []; rewrite app_nil_r; split; [reflexivity|constructor]
          | eexists; split; [reflexivity|]; repeat constructor ].
Qed.

(** X23: Between two hosts of the network, [test_connectivity] runs one
    command, [ping -c 1 -W 2] to the address of the destination in the
    source, leaves the network as it is, and answers [True] exactly when
    the text [bytes from] occurs somewhere in what the command printed. *)
Theorem probe_answers_by_the_marker (src dst : string) (w : World)
    (ns nd : Node) :
  nameToNode (net w) !! src = Some ns ->
  nameToNode (net w) !! dst = Some nd ->
  exists b : bool,
    test_connectivity cmd_ok ping_reply src dst w
    = (Ret b,
       {| net := net w;
          output := output w ++ [Cmd src (ping 1 2 (fmt (IP nd)))] |})
    /\ (b = true <->
        exists m, String.substring m 10
                    (ping_reply (net w) src (fmt (IP nd)))
                  = "bytes from").
Proof.
  intros Hs Hd. rewrite test_connectivity_eq, Hs, Hd.
  eexists. split; [reflexivity|].
  unfold contains.
  destruct (String.index 0 "bytes from"
              (ping_reply (net w) src (fmt (IP nd)))) as [m|] eqn:Hi.
  - split; [intros _|reflexivity]. exists m.
    apply (String.index_correct1 _ _ _ _ Hi).
  - split; [discriminate|]. intros [m Hm]. exfalso.
    apply (String.index_correct3 0 m _ _ Hi); [discriminate|lia|exact Hm].
Qed.

Lemma basic_probe_loop_ok (pairs : list (string * string)) :
  raises_unless (pair_names pairs) (basic_probe_loop cmd_ok ping_reply pairs)
  /\ respects any_event same_net (basic_probe_loop cmd_ok ping_reply pairs).
Proof.
  induction pairs as [|[src dst] rest [IHr IHk]];
    cbn [basic_probe_loop pair_names flat_map fst snd].
  - split; [apply raises_unless_ret|apply r_ret; typeclasses eauto].
  - split.
    + apply (raises_unless_bind [src; dst]);
        [apply raises_unless_test_connectivity|intros success].
      apply raises_unless_step; [apply raises_unless_print|intros _].
      exact IHr.
    + apply r_bind; try typeclasses eauto;
        [apply test_connectivity_same_net|intros success].
      apply r_bind; try typeclasses eauto;
        [apply r_print; try typeclasses eauto; exact I|intros _; exact IHk].
Qed.

(** X7: When the four probed hosts are in the network,
    [test_basic_connectivity]
    answers [True] whatever the probes answer, also when none succeeds: its
    result says nothing about connectivity.  With a probed host missing it
    raises [KeyError].  It leaves the network as it was. *)
Theorem test_basic_connectivity_ignores_the_probes (w : World) :
  (test_basic_connectivity cmd_ok ping_reply w).1
  = (if all_present (net w) (pair_names basic_pairs)
     then Ret true else Raise KeyError)
  /\ net (test_basic_connectivity cmd_ok ping_reply w).2 = net w.
Proof.
  destruct (basic_probe_loop_ok basic_pairs) as [Hr Hk].
  pose proof (raises_unless_result _ _ w Hr) as Hres.
  specialize (Hk w). destruct Hk as [_ Hk].
  unfold test_basic_connectivity, bind.
  destruct (basic_probe_loop cmd_ok ping_reply basic_pairs w) as [r w'].
  cbn [fst snd] in *. subst r.
  destruct (all_present (net w) (pair_names basic_pairs));
    (split; [reflexivity|exact Hk]).
Qed.

(** ** Recovery plans and missing nodes *)

Lemma plan_raises_unless (e : Element) :
  raises_unless (plan_nodes e) (plan cmd_ok ping_reply e).
Proof.
  destruct e; cbn [plan plan_nodes].
  - unfold fix_ar1_complete_failure. raise_steps.
  - unfold fix_ar2_complete_failure. raise_steps.
  - unfold fix_ar3_complete_failure. raise_steps.
  - unfold fix_ar4_complete_failure. raise_steps.
  - unfold fix_cr1_complete_failure. raise_steps.
  - unfold fix_cr2_complete_failure. raise_steps.
Qed.

(** X8: A recovery plan returns normally exactly when every node it configures
    is in the network; when one is missing, the plan raises [KeyError], the
    exception of the [net.get] that does not find it. *)
Theorem plan_raises_exactly_when_node_missing (e : Element) (w : World) :
  (plan cmd_ok ping_reply e w).1
  = (if all_present (net w) (plan_nodes e)
     then Ret tt else Raise KeyError).
Proof. apply raises_unless_result, plan_raises_unless. Qed.

(** C2: when the scan finds a down candidate, its recovery plan runs to
    completion, leaving the world [wp], and the probed hosts h1, h3, h5 and
    h7 are in the network, the run goes on to probe the six host pairs
    h1-h3, h1-h5, h3-h5, h5-h7, h7-h1, h5-h3 in that order (the output gains
    the transcript of each probe) and answers [True] exactly when all six
    probes succeed. *)
Theorem verification_decides_result (w wp : World) (c : Candidate) :
  first_down (net w) = Some c ->
  plan cmd_ok ping_reply (element c) (announced c w) = (Ret tt, wp) ->
  all_present (net w) (pair_names test_pairs) = true ->
  exists b : bool,
    auto_detect_and_fix_failures cmd_ok ping_reply w
      = (Ret b,
         {| net := net wp;
            output := output wp
                      ++ verification_events cmd_ok ping_reply
                           [label c] (net wp) |})
    /\ (b = true <->
        forall p, In p test_pairs ->
                  reachable cmd_ok ping_reply (net wp) p = true)
    /\ test_pairs = [ ("h1", "h3"); ("h1", "h5"); ("h3", "h5");
                      ("h5", "h7"); ("h7", "h1"); ("h5", "h3") ].
Proof.
  intros Hc Hplan Hall.
  assert (Hwp : all_present (net wp) (pair_names test_pairs) = true).
  { destruct (plan_raises_unless (element c) (announced c w)) as [Hn _].
    rewrite Hplan in Hn. cbn [snd] in Hn.
    rewrite (all_present_same_nodes _ _ _ Hn). exact Hall. }
  exists (forallb (reachable cmd_ok ping_reply (net wp)) test_pairs).
  split; [|split].
  - rewrite (auto_detect_eq cmd_ok ping_reply), Hc, Hplan.
    apply (verify_fixes_eq cmd_ok ping_reply), Hwp.
  - apply forallb_forall.
  - reflexivity.
Qed.

(** X9: [auto_detect_and_fix_failures] has no handler around the plan and the
    probes it calls.  It raises exactly when a candidate link is down and a
    node that the plan of the first such link configures, or one of the
    probed hosts, is missing; what it raises is the [KeyError] of
    [net.get]. *)
Theorem auto_detect_raises_exactly_when_node_missing (w : World) :
  ((auto_detect_and_fix_failures cmd_ok ping_reply w).1 = Raise KeyError
   <-> exists c, first_down (net w) = Some c
                 /\ all_present (net w)
                      (plan_nodes (element c) ++ pair_names test_pairs)
                    = false)
  /\ forall ex, (auto_detect_and_fix_failures cmd_ok ping_reply w).1 = Raise ex
                -> ex = KeyError.
Proof.
  rewrite (auto_detect_eq cmd_ok ping_reply).
  destruct (first_down (net w)) as [c|]; cbn [fst].
  - assert (Hx : (exists c0, Some c = Some c0
                    /\ all_present (net w)
                         (plan_nodes (element c0) ++ pair_names test_pairs)
                       = false)
                 <-> all_present (net w) (plan_nodes (element c))
                     && all_present (net w) (pair_names test_pairs) = false).
    { rewrite <- all_present_app. split.
      - intros (c0 & [= <-] & H). exact H.
      - intros H. exists c. split; [reflexivity|exact H]. }
    rewrite Hx. clear Hx.
    destruct (plan_raises_unless (element c) (announced c w)) as [Hn H].
    change (net (announced c w)) with (net w) in H, Hn.
    destruct (plan cmd_ok ping_reply (element c) (announced c w))
      as [[[]|ex] wp]; cbn [fst snd] in *.
    + rewrite (verify_fixes_result cmd_ok ping_reply).
      rewrite (all_present_same_nodes _ _ _ Hn), H. cbn [andb].
      destruct (all_present (net w) (pair_names test_pairs)); cbn [fst].
      * split; [split|]; discriminate.
      * split; [split; reflexivity|]. intros ex [= <-]. reflexivity.
    + destruct H as [-> H]. rewrite H. cbn [andb].
      split; [split; reflexivity|]. intros ex [= <-]. reflexivity.
  - split; [split|].
    + discriminate.
    + intros (c & Hc & _). discriminate Hc.
    + discriminate.
Qed.

(** ** Where a recovery plan runs its commands *)

Lemma within_cmd (names : list string) (name : string) (c : command) :
  In name names ->
  respects (commands_within names) same_nodes
    (cmd cmd_ok ping_reply (Some name) c).
Proof.
  intros Hin. apply r_cmd_at; try typeclasses eauto; [exact Hin|].
  intros n. apply run_in_same_nodes.
Qed.

Lemma within_configLinkStatus (names : list string) (a b : string)
    (st : LinkState) :
  respects (commands_within names) same_nodes (configLinkStatus a b st).
Proof.
  intros w. rewrite configLinkStatus_eq. split; cbn.
  - eexists. split; [reflexivity|]. repeat constructor.
  - intros x. reflexivity.
Qed.

Ltac in_list := cbn [In]; repeat first [left; reflexivity|right].

Ltac within_step :=
  match goal with
  | |- respects _ _ (bind (net_get _) _) =>
      apply r_get_bind; try typeclasses eauto
  | |- respects _ _ (bind _ _) =>
      apply r_bind; try typeclasses eauto; [|intros ?]
  | |- respects _ _ (cmd _ _ (Some _) _) => apply within_cmd; in_list
  | |- respects _ _ (print _) =>
      apply r_print; try typeclasses eauto; exact I
  | |- respects _ _ (try_pass _) => apply r_try_pass; try typeclasses eauto
  | |- respects _ _ (configLinkStatus _ _ _) => apply within_configLinkStatus
  end.

Lemma plan_within (e : Element) :
  respects (commands_within (plan_nodes e)) same_nodes
    (plan cmd_ok ping_reply e).
Proof.
  destruct e; cbn [plan plan_nodes].
  - unfold fix_ar1_complete_failure. repeat within_step.
  - unfold fix_ar2_complete_failure. repeat within_step.
  - unfold fix_ar3_complete_failure. repeat within_step.
  - unfold fix_ar4_complete_failure. repeat within_step.
  - unfold fix_cr1_complete_failure. repeat within_step.
  - unfold fix_cr2_complete_failure. repeat within_step.
Qed.

(** X10: The link marking, [configLinkStatus], acts on the interfaces of the
    failed element.  Apart from it, every command a recovery plan runs (its
    [node.cmd] calls, which change routes) is run on one of the nodes the
    plan looks up, and the element it removes is not one of them: a plan
    sends no route command to the failed element.  This holds for a plan
    that raises half way as well. *)
Theorem plan_commands_run_on_plan_nodes (e : Element) (w : World) :
  Forall (commands_within (plan_nodes e))
         (emitted w (plan cmd_ok ping_reply e w).2)
  /\ ~ In (element_name e) (plan_nodes e).
Proof.
  destruct (plan_within e w) as [(evs & Hout & Hall) _].
  split.
  - rewrite (emitted_app _ _ _ Hout). exact Hall.
  - destruct e; cbn [plan_nodes element_name In]; intros H;
      repeat (destruct H as [H|H]; [discriminate H|]); exact H.
Qed.

(** ** graceful_reset_network_only *)

Lemma bind_run {A B} (m : M A) (k : A -> M B) (w w1 : World) (a : A) :
  m w = (Ret a, w1) -> bind m k w = k a w1.
Proof. intros H. unfold bind. rewrite H. reflexivity. Qed.

Lemma set_link_up_again (l : Link) :
  set_link st_up (set_link st_up l) = set_link st_up l.
Proof. reflexivity. Qed.

Lemma reached_set_link nodes ls l :
  reached nodes ls (set_link st_up l) = reached nodes ls l.
Proof. reflexivity. Qed.

Lemma reset_links_loop_run (ls : list Link) (w : World) :
  exists w1,
    reset_links_loop ls w = (Ret tt, w1)
    /\ nameToNode (net w1) = nameToNode (net w)
    /\ links (net w1)
       = map (fun l => if reached (nameToNode (net w)) ls l
                       then set_link st_up l else l)
             (links (net w)).
Proof.
  revert w. induction ls as [|l0 rest IH]; intros w.
  - exists w. split; [reflexivity|]. split; [reflexivity|].
    cbn [reached existsb]. rewrite map_id. reflexivity.
  - cbn [reset_links_loop].
    set (a := node (intf1 l0)). set (b := node (intf2 l0)).
    assert (Hstep : try_pass (configLinkStatus a b st_up) w
                    = (Ret tt, (configLinkStatus a b st_up w).2)).
    { unfold try_pass. rewrite configLinkStatus_eq. reflexivity. }
    rewrite (bind_run _ _ _ _ _ Hstep).
    destruct (IH (configLinkStatus a b st_up w).2) as (w1 & E1 & Hn1 & Hl1).
    exists w1. split; [exact E1|].
    rewrite configLinkStatus_eq in Hn1, Hl1. cbn [snd net nameToNode links] in *.
    split; [exact Hn1|]. rewrite Hl1.
    unfold set_links.
    destruct (is_set_node (nameToNode (net w)) a
              && is_set_node (nameToNode (net w)) b) eqn:Hp.
    + rewrite map_map. apply map_ext. intros l.
      cbn [reached existsb]. fold a b. rewrite Hp. cbn [andb].
      destruct (link_between a b l) eqn:Hl; cbn [orb].
      * rewrite reached_set_link.
        destruct (reached (nameToNode (net w)) rest l); reflexivity.
      * reflexivity.
    + apply map_ext. intros l. cbn [reached existsb]. fold a b.
      rewrite Hp. reflexivity.
Qed.

Lemma link_between_ends (l0 l : Link) :
  link_between (node (intf1 l0)) (node (intf2 l0)) l = true ->
  forall nodes,
    is_set_node nodes (node (intf1 l0)) && is_set_node nodes (node (intf2 l0))
    = is_set_node nodes (node (intf1 l)) && is_set_node nodes (node (intf2 l)).
Proof.
  unfold link_between. rewrite orb_true_iff, !bool_decide_eq_true.
  intros [[-> ->]|[-> ->]] nodes; [reflexivity|apply andb_comm].
Qed.

Lemma link_between_self (l : Link) :
  link_between (node (intf1 l)) (node (intf2 l)) l = true.
Proof.
  unfold link_between. apply orb_true_iff. left.
  apply bool_decide_eq_true. split; reflexivity.
Qed.

Lemma reached_own_links (n : Mininet) (l : Link) :
  In l (links n) -> reached (nameToNode n) (links n) l = ends_present n l.
Proof.
  intros Hin. unfold reached, ends_present.
  destruct (is_set_node (nameToNode n) (node (intf1 l))
            && is_set_node (nameToNode n) (node (intf2 l))) eqn:Hp.
  - apply existsb_exists. exists l. split; [exact Hin|].
    rewrite Hp, link_between_self. reflexivity.
  - apply not_true_is_false. intros H. apply existsb_exists in H.
    destruct H as (l0 & _ & H). apply andb_true_iff in H. destruct H as [H1 H2].
    rewrite (link_between_ends l0 l H2) in H1. congruence.
Qed.

Lemma reset_probe_loop_run (pairs : list (string * string)) (acc : bool)
    (w : World) :
  all_present (net w) (pair_names pairs) = true ->
  exists w1,
    reset_probe_loop cmd_ok ping_reply pairs acc w
    = (Ret (acc && forallb (reachable cmd_ok ping_reply (net w)) pairs), w1)
    /\ net w1 = net w.
Proof.
  revert acc w. induction pairs as [|[src dst] rest IH]; intros acc w Hall.
  - exists w. cbn. rewrite andb_true_r. split; reflexivity.
  - cbn [reset_probe_loop].
    unfold all_present in Hall.
    cbn [pair_names flat_map app forallb fst snd] in Hall.
    apply andb_true_iff in Hall. destruct Hall as [Hsrc Hall].
    apply andb_true_iff in Hall. destruct Hall as [Hdst Hall].
    rewrite (bind_run _ _ _ _ _
               (test_connectivity_frame cmd_ok ping_reply src dst w Hsrc Hdst)).
    match goal with
    | |- context [reset_probe_loop _ _ rest ?acc' ?w'] =>
        destruct (IH acc' w' Hall) as (w1 & E1 & Hn1)
    end.
    exists w1. rewrite E1. cbn [net] in *. split; [|exact Hn1].
    f_equal. f_equal. cbn [forallb].
    destruct (reachable cmd_ok ping_reply (net w) (src, dst)), acc; reflexivity.
Qed.

Lemma basic_pairs_in_setup_nodes (n : Mininet) :
  all_present n setup_nodes = true ->
  all_present n (pair_names basic_pairs) = true.
Proof.
  apply all_present_incl. intros x Hx. cbn in Hx.
  repeat (destruct Hx as [<-|Hx]; [cbn; tauto|]). destruct Hx.
Qed.

Lemma graceful_reset_run (exn_text : Exn -> string) (w : World) :
  let run := graceful_reset_network_only cmd_ok ping_reply exn_text w in
  run.1 = Ret (if all_present (net w) setup_nodes
               then forallb (reachable cmd_ok ping_reply (net run.2))
                      basic_pairs
               else false)
  /\ links (net run.2) = reset_links (net w)
  /\ keeps_node_routes (net w) (net run.2).
Proof.
  cbv zeta. unfold graceful_reset_network_only, try_except.
  destruct (reset_links_loop_run (links (net w)) w) as (w1 & E1 & Hn1 & Hl1).
  rewrite (bind_run (fun w0 => reset_links_loop (links (net w0)) w0)
             _ w w1 tt E1).
  rewrite (bind_run (sleep 1) _ w1 w1 tt eq_refl).
  destruct setup_basic_routing_ok as [Hr Hk].
  destruct (Hr w1) as [Hsame E2]. specialize (Hk w1). destruct Hk as [_ Hk].
  assert (Hw1 : all_present (net w1) setup_nodes
                = all_present (net w) setup_nodes)
    by (unfold all_present; rewrite Hn1; reflexivity).
  rewrite Hw1 in E2.
  assert (Hlinks' : forall n2, keeps_routes (net w1) n2 ->
            links n2 = reset_links (net w) /\ keeps_node_routes (net w) n2).
  { intros n2 [Hlinks Hnodes]. split.
    - rewrite Hlinks, Hl1. unfold reset_links. apply map_ext_in.
      intros l Hl. rewrite (reached_own_links (net w) l Hl). reflexivity.
    - intros x. specialize (Hnodes x). rewrite Hn1 in Hnodes. exact Hnodes. }
  destruct (setup_basic_routing cmd_ok ping_reply w1) as [[[]|ex] w2] eqn:E2';
    cbn [fst snd] in E2, Hk, Hsame.
  - rewrite (bind_run _ _ _ _ _ E2'). rewrite E2.
    assert (Hw2 : all_present (net w2) (pair_names basic_pairs) = true).
    { apply basic_pairs_in_setup_nodes.
      rewrite (all_present_same_nodes _ _ _ Hsame), Hw1. exact E2. }
    destruct (reset_probe_loop_run basic_pairs true w2 Hw2)
      as (w3 & E3 & Hn3).
    rewrite (bind_run _ _ _ _ _ E3). cbn [andb].
    unfold bind, print, ret. cbn [fst snd net]. rewrite Hn3.
    split; [reflexivity|]. apply Hlinks', Hk.
  - destruct E2 as [_ E2]. rewrite E2.
    unfold bind. rewrite E2'. unfold print, ret. cbn [fst snd net].
    split; [reflexivity|]. apply Hlinks', Hk.
Qed.

(** X11: [graceful_reset_network_only] never raises, in any network and whatever
    the kernel accepts: its handler catches what the body raises.  It leaves
    every link between two nodes of the network up and the other links as
    they were; every node keeps its address and the routes it had.  When the
    eighteen nodes that [setup_basic_routing] looks up are all in the
    network, the result is [True] exactly when the three probes succeed in
    the network it leaves; when one of them is missing, the [KeyError] of
    the lookup is caught and the result is [False]. *)
Theorem graceful_reset_brings_links_up_and_keeps_routes
    (exn_text : Exn -> string) (w : World) :
  let run := graceful_reset_network_only cmd_ok ping_reply exn_text w in
  run.1 = Ret (if all_present (net w) setup_nodes
               then forallb (reachable cmd_ok ping_reply (net run.2))
                      basic_pairs
               else false)
  /\ links (net run.2) = reset_links (net w)
  /\ keeps_node_routes (net w) (net run.2).
Proof. apply graceful_reset_run. Qed.

Lemma all_up_none_down (ls : list Link) (a b : string) :
  (forall l, In l ls -> up (intf1 l) = Some true /\ up (intf2 l) = Some true) ->
  detect_link_failure_loop ls a b = Ret false.
Proof.
  induction ls as [|l rest IH]; intros H; [reflexivity|].
  cbn [detect_link_failure_loop].
  destruct (H l (or_introl eq_refl)) as [H1 H2].
  unfold isUp. rewrite H1, H2. cbn [andb negb].
  rewrite IH; [|intros l' Hl'; apply H; right; exact Hl'].
  destruct (_ && _); reflexivity.
Qed.

(** X12: When every link joins two nodes of the network, nothing is left for
    the detector after [graceful_reset_network_only]: [detect_link_failure]
    answers [False] for every pair of names, and a following
    [auto_detect_and_fix_failures] returns [True] and leaves the network as
    the reset left it. *)
Theorem reset_then_auto_detect_finds_nothing
    (exn_text : Exn -> string) (w : World) :
  links_in_network (net w) = true ->
  let w' := (graceful_reset_network_only cmd_ok ping_reply exn_text w).2 in
  (forall a b, (detect_link_failure a b w').1 = Ret false)
  /\ (auto_detect_and_fix_failures cmd_ok ping_reply w').1 = Ret true
  /\ net (auto_detect_and_fix_failures cmd_ok ping_reply w').2 = net w'.
Proof.
  intros Hin. cbv zeta.
  destruct (graceful_reset_run exn_text w) as (_ & Hl & _).
  set (w' := (graceful_reset_network_only cmd_ok ping_reply exn_text w).2)
    in *.
  assert (Hdown : forall a b, is_down (net w') a b = false).
  { intros a b. unfold is_down. rewrite Hl, all_up_none_down; [reflexivity|].
    intros l Hlin. unfold reset_links in Hlin. apply in_map_iff in Hlin.
    destruct Hlin as (l0 & <- & Hl0).
    unfold links_in_network in Hin.
    rewrite (proj1 (forallb_forall _ _) Hin l0 Hl0).
    split; reflexivity. }
  split; [|split].
  - intros a b. rewrite detect_link_failure_eq. cbn [fst]. rewrite Hdown.
    reflexivity.
  - rewrite auto_detect_eq.
    assert (Hnone : first_down (net w') = None).
    { apply find_all_false. intros c _. apply Hdown. }
    rewrite Hnone. reflexivity.
  - rewrite auto_detect_eq.
    assert (Hnone : first_down (net w') = None).
    { apply find_all_false. intros c _. apply Hdown. }
    rewrite Hnone. reflexivity.
Qed.

(** ** get_node_subnet *)

Lemma append_nil (s : string) : EmptyString +:+ s = s.
Proof. reflexivity. Qed.

Lemma append_cons (a : Ascii.ascii) (s1 s2 : string) :
  String a s1 +:+ s2 = String a (s1 +:+ s2).
Proof. reflexivity. Qed.

Lemma length_append (s1 s2 : string) :
  String.length (s1 +:+ s2) = String.length s1 + String.length s2.
Proof.
  induction s1 as [|a s1 IH]; [reflexivity|].
  rewrite append_cons. cbn [String.length Nat.add]. f_equal. exact IH.
Qed.

Lemma substring_prefix (s1 s2 : string) :
  String.substring 0 (String.length s1) (s1 +:+ s2) = s1.
Proof.
  induction s1 as [|a s1 IH].
  - rewrite append_nil. destruct s2; reflexivity.
  - rewrite append_cons. cbn [String.length String.substring].
    f_equal. exact IH.
Qed.

Lemma rfind_from_app (c : Ascii.ascii) (s1 s2 : string) (i found : Z) :
  rfind_from c (s1 +:+ s2) i found
  = rfind_from c s2 (i + Z.of_nat (String.length s1))
      (rfind_from c s1 i found).
Proof.
  revert i found. induction s1 as [|a s1 IH]; intros i found.
  - rewrite append_nil. cbn [rfind_from String.length].
    rewrite Z.add_0_r. reflexivity.
  - rewrite append_cons. cbn [rfind_from String.length].
    rewrite IH. f_equal. lia.
Qed.

Lemma rfind_from_free (c : Ascii.ascii) (s : string) (i found : Z) :
  free_of c s -> rfind_from c s i found = found.
Proof.
  unfold free_of. revert i found.
  induction s as [|a s IH]; intros i found H; cbn [rfind_from]; [reflexivity|].
  cbn in H. rewrite IH; [|tauto].
  destruct (decide (a = c)) as [->|]; [|reflexivity]. tauto.
Qed.

Lemma slice_to_prefix (s1 s2 : string) :
  slice_to (s1 +:+ s2) (Z.of_nat (String.length s1)) = s1.
Proof.
  unfold slice_to. rewrite length_append.
  destruct (decide (Z.of_nat (String.length s1) < 0)%Z); [lia|].
  replace (Z.to_nat _) with (String.length s1) by lia.
  apply substring_prefix.
Qed.

Lemma slice_to_but_last (s : string) (a : Ascii.ascii) :
  slice_to (s +:+ String a EmptyString) (-1) = s.
Proof.
  unfold slice_to. rewrite length_append. cbn [String.length].
  destruct (decide (-1 < 0)%Z); [|lia].
  replace (Z.to_nat _) with (String.length s) by lia.
  apply substring_prefix.
Qed.

Lemma nonempty_append (s1 s2 : string) :
  nonempty s2 = true -> nonempty (s1 +:+ s2) = true.
Proof. destruct s1; [intros H; exact H|reflexivity]. Qed.

Lemma get_node_subnet_run (node_name ip : string) (nd : Node) (w : World) :
  nameToNode (net w) !! node_name = Some nd ->
  IP nd = Some ip ->
  nonempty ip = true ->
  get_node_subnet node_name w
  = (Ret (Some (slice_to ip (rfind dot ip) +:+ ".0/24")), w).
Proof.
  intros Hx Hip Hne. unfold get_node_subnet, bind.
  rewrite net_get_eq. unfold is_set_node. rewrite Hx. cbn [is_set].
  unfold node_IP. rewrite Hx, Hip, Hne. reflexivity.
Qed.

(** X13: For a node whose address is [p.s], [s] without a dot, the subnet is
    [p.0/24]: the text after the last dot is replaced, whatever the prefix
    [p] holds; the world is not changed. *)
Theorem get_node_subnet_replaces_last_field
    (node_name p s : string) (nd : Node) (w : World) :
  nameToNode (net w) !! node_name = Some nd ->
  IP nd = Some (p +:+ "." +:+ s) ->
  free_of dot s ->
  get_node_subnet node_name w = (Ret (Some (p +:+ ".0/24")), w).
Proof.
  intros Hx Hip Hs.
  rewrite (get_node_subnet_run node_name _ nd w Hx Hip);
    [|apply nonempty_append; reflexivity].
  assert (Hr : rfind dot (p +:+ "." +:+ s) = Z.of_nat (String.length p)).
  { unfold rfind. rewrite rfind_from_app.
    change ("." +:+ s) with (String dot s). cbn [rfind_from].
    rewrite decide_True by reflexivity.
    rewrite rfind_from_free by exact Hs. lia. }
  rewrite Hr, slice_to_prefix. reflexivity.
Qed.

(** X14: An address without any dot is not rejected: [rfind] answers -1, the
    slice drops the last character, and the result is the rest followed by
    [.0/24]. *)
Theorem get_node_subnet_of_undotted_address
    (node_name s : string) (a : Ascii.ascii) (nd : Node) (w : World) :
  nameToNode (net w) !! node_name = Some nd ->
  IP nd = Some (s +:+ String a EmptyString) ->
  free_of dot (s +:+ String a EmptyString) ->
  get_node_subnet node_name w = (Ret (Some (s +:+ ".0/24")), w).
Proof.
  intros Hx Hip Hs.
  rewrite (get_node_subnet_run node_name _ nd w Hx Hip);
    [|apply nonempty_append; reflexivity].
  unfold rfind. rewrite rfind_from_free by exact Hs.
  rewrite slice_to_but_last. reflexivity.
Qed.

(** ** break_link_and_auto_fix *)


(** Two pairs of names that differ as unordered pairs. *)
Lemma other_pair_not_between (a b a' b' : string) (l : Link) :
  (a <> a' \/ b <> b') -> (a <> b' \/ b <> a') ->
  link_between a b l = true -> link_between a' b' l = false.
Proof.
  intros H1 H2. unfold link_between.
  rewrite orb_true_iff, orb_false_iff, !bool_decide_eq_true,
    !bool_decide_eq_false.
  intros [[<- <-]|[<- <-]]; split; intros [E1 E2]; tauto.
Qed.

Lemma find_set_links_other (a b a' b' : string) (st : LinkState)
    (ls : list Link) :
  (a <> a' \/ b <> b') -> (a <> b' \/ b <> a') ->
  find (link_between a' b') (set_links a b st ls)
  = find (link_between a' b') ls.
Proof.
  intros H1 H2. unfold set_links.
  induction ls as [|l ls IH]; [reflexivity|].
  cbn [map find]. rewrite IH.
  destruct (link_between a b l) eqn:Hl; [|reflexivity].
  rewrite link_between_set_link.
  rewrite (other_pair_not_between a b a' b' l H1 H2 Hl). reflexivity.
Qed.










(** ** A session never raises on the fat-tree *)

Lemma plans_can_run_same_nodes (n n' : Mininet) :
  same_nodes n n' -> plans_can_run n' = plans_can_run n.
Proof.
  intros H. unfold plans_can_run. cbn [forallb].
  rewrite !(all_present_same_nodes n n' _ H). reflexivity.
Qed.

Lemma set_route_same_nodes (c : SetRoute) :
  respects any_event same_nodes (set_route cmd_ok ping_reply c).
Proof.
  destruct c as [name d rc|name d g]; cbn [set_route].
  - unfold update_router_route.
    repeat r_step ltac:(
      apply r_cmd_at; try typeclasses eauto;
        [exact I|intros ?; apply run_in_same_nodes]).
  - unfold update_host_route.
    repeat r_step ltac:(
      apply r_cmd_at; try typeclasses eauto;
        [exact I|intros ?; apply run_in_same_nodes]).
Qed.

(** The result of a [setRoute] call. *)
Lemma set_route_run (c : SetRoute) (w : World) :
  (set_route cmd_ok ping_reply c w).1
  = (if set_route_ok (net w) c then Ret true else Raise KeyError).
Proof.
  destruct c as [name d rc|name d g]; cbn [set_route set_route_ok].
  - unfold update_router_route. rewrite bind_net_get.
    destruct (is_set_node (nameToNode (net w)) name);
      cbn [andb is_set negb]; [|reflexivity].
    destruct rc as [[type|] [interface|] [gateway|] metric];
      unfold well_formed, bind, cmd, dict_get, ret;
      cbn [cfg_type cfg_interface cfg_gateway cfg_metric fst snd];
      repeat case_bool_decide; reflexivity.
  - unfold update_host_route. rewrite bind_net_get.
    destruct (is_set_node (nameToNode (net w)) name);
      cbn [is_set negb]; reflexivity.
Qed.

(** X22: [update_router_route] and [update_host_route] have two outcomes
    only.  On a node of the network, and with the keys of the dict that are
    read present, the answer is [True], whatever the kernel did with the
    commands, also when it refused them all; otherwise [net.get] or the
    dict lookup raises [KeyError].  The answer is never [False]: the guards
    [if not router: return False] and [if not host: return False] are not
    reached. *)
Theorem set_route_answers_true_or_raises (c : SetRoute) (w : World) :
  (set_route cmd_ok ping_reply c w).1
  = (if set_route_ok (net w) c then Ret true else Raise KeyError)
  /\ (set_route cmd_ok ping_reply c w).1 <> Ret false.
Proof.
  rewrite set_route_run. split; [reflexivity|].
  destruct (set_route_ok (net w) c); discriminate.
Qed.

Lemma safe_of_raises_unless {A} (names : list string) (m : M A) :
  raises_unless names m -> safe (fun n => all_present n names) m.
Proof.
  intros H w Hw. destruct (H w) as [Hn Hr]. split; [|exact Hn].
  destruct (m w).1 as [a|ex]; [eexists; reflexivity|].
  destruct Hr as [_ Hr]. congruence.
Qed.

Lemma safe_weaken (ok ok' : Mininet -> bool) {A} (m : M A) :
  (forall n, ok' n = true -> ok n = true) -> safe ok m -> safe ok' m.
Proof. intros Hok H w Hw. apply H, Hok, Hw. Qed.

Lemma safe_discard (ok : Mininet -> bool) {A} (m : M A) :
  safe ok m -> safe ok (discard m).
Proof.
  intros H w Hw. destruct (H w Hw) as [[a Ha] Hn].
  unfold discard, bind, ret. destruct (m w) as [r w1].
  cbn [fst snd] in *. subst r. split; [eexists; reflexivity|exact Hn].
Qed.

Lemma safe_set_route (c : SetRoute) :
  safe (fun n => set_route_ok n c) (set_route cmd_ok ping_reply c).
Proof.
  intros w Hw. split; [|apply (set_route_same_nodes c w)].
  rewrite set_route_run, Hw. eexists. reflexivity.
Qed.

Lemma get_node_subnet_returns (node_name : string) (w : World) :
  is_set_node (nameToNode (net w)) node_name = true ->
  exists a, get_node_subnet node_name w = (Ret a, w).
Proof.
  intros Hx. unfold get_node_subnet. rewrite bind_net_get, Hx.
  cbn [is_set]. unfold bind, node_IP.
  destruct (nameToNode (net w) !! node_name) as [nd|];
    [destruct (IP nd) as [ip|]; [destruct (nonempty ip)|]|];
    eexists; reflexivity.
Qed.

Lemma safe_get_node_subnet (node_name : string) :
  safe (fun n => all_present n [node_name]) (get_node_subnet node_name).
Proof.
  intros w Hw. unfold all_present in Hw. cbn [forallb] in Hw.
  apply andb_true_iff in Hw. destruct Hw as [Hx _].
  destruct (get_node_subnet_returns node_name w Hx) as [a Ha].
  rewrite Ha. split; [eexists|]; reflexivity.
Qed.

Lemma plans_can_run_plan (n : Mininet) (e : Element) :
  plans_can_run n = true -> all_present n (plan_nodes e) = true.
Proof.
  intros Hw. unfold plans_can_run in Hw. cbn [forallb] in Hw.
  destruct e; repeat (apply andb_true_iff in Hw; destruct Hw as [? Hw]);
    assumption.
Qed.

Lemma safe_auto_detect :
  safe (fun n => plans_can_run n && all_present n (pair_names test_pairs))
    (auto_detect_and_fix_failures cmd_ok ping_reply).
Proof.
  intros w Hw. apply andb_true_iff in Hw. destruct Hw as [Hplans Hhosts].
  rewrite auto_detect_eq.
  destruct (first_down (net w)) as [c|]; [|split; [eexists|]; reflexivity].
  destruct (safe_of_raises_unless _ _ (plan_raises_unless (element c))
              (announced c w) (plans_can_run_plan _ _ Hplans))
    as [[a Ha] Hn].
  destruct (plan cmd_ok ping_reply (element c) (announced c w)) as [r wp].
  cbn [fst snd] in *. subst r.
  change (net (announced c w)) with (net w) in Hn.
  destruct (verify_fixes_quiet cmd_ok ping_reply [label c] wp) as [_ Hsame].
  rewrite verify_fixes_result.
  rewrite (all_present_same_nodes _ _ _ Hn), Hhosts.
  split; [eexists; reflexivity|].
  unfold same_net in Hsame. rewrite Hsame. exact Hn.
Qed.

Lemma break_link_and_auto_fix_eq (node1 node2 : string) (w : World) :
  break_link_and_auto_fix cmd_ok ping_reply node1 node2 w
  = auto_detect_and_fix_failures cmd_ok ping_reply
      (configLinkStatus node1 node2 st_down
         (print ("🔨 Breaking " +:+ node1 +:+ "↔" +:+ node2) w).2).2.
Proof. reflexivity. Qed.

Lemma safe_break_link_and_auto_fix (node1 node2 : string) :
  safe (fun n => plans_can_run n && all_present n (pair_names test_pairs))
    (break_link_and_auto_fix cmd_ok ping_reply node1 node2).
Proof.
  intros w Hw. rewrite break_link_and_auto_fix_eq.
  set (w1 := (print ("🔨 Breaking " +:+ node1 +:+ "↔" +:+ node2) w).2).
  set (w2 := (configLinkStatus node1 node2 st_down w1).2).
  assert (Hn : same_nodes (net w) (net w2))
    by apply (configLinkStatus_same_nodes node1 node2 st_down w1).
  destruct (safe_auto_detect w2) as [Hr Hn'].
  - cbv beta. rewrite (plans_can_run_same_nodes _ _ Hn),
      (all_present_same_nodes _ _ _ Hn). exact Hw.
  - split; [exact Hr|]. etransitivity; eassumption.
Qed.

Lemma keeps_node_routes_same_nodes (n n' : Mininet) :
  keeps_node_routes n n' -> same_nodes n n'.
Proof.
  intros H x. specialize (H x). unfold is_set_node.
  destruct (nameToNode n !! x), (nameToNode n' !! x);
    first [reflexivity|contradiction].
Qed.

Lemma safe_operation (exn_text : Exn -> string) (o : Operation) :
  safe (fun n => op_ok n o) (run_operation cmd_ok ping_reply exn_text o).
Proof.
  destruct o; cbn [run_operation op_ok]; try apply safe_discard.
  - apply safe_of_raises_unless, setup_basic_routing_ok.
  - apply safe_of_raises_unless.
    apply (clear_routes_ok subnet_pairs subnet_pairs). auto.
  - apply safe_set_route.
  - apply safe_of_raises_unless, raises_unless_test_connectivity.
  - apply safe_get_node_subnet.
  - apply safe_of_raises_unless, plan_raises_unless.
  - intros w _. rewrite detect_link_failure_eq.
    split; [eexists|]; reflexivity.
  - apply safe_auto_detect.
  - intros w _. destruct (graceful_reset_run exn_text w) as (Hr & _ & Hk).
    split; [eexists; exact Hr|apply keeps_node_routes_same_nodes, Hk].
  - apply safe_of_raises_unless. unfold test_basic_connectivity.
    apply raises_unless_last; [apply basic_probe_loop_ok|intros _].
    apply raises_unless_ret.
  - apply safe_break_link_and_auto_fix.
  - intros w _. split; [eexists; reflexivity|].
    apply (configLinkStatus_same_nodes src dst status w).
Qed.

Lemma op_ok_same_nodes (n n' : Mininet) (o : Operation) :
  same_nodes n n' -> op_ok n' o = op_ok n o.
Proof.
  intros H. destruct o as [| |[]| | | | | | | | |]; cbn [op_ok set_route_ok];
    rewrite ?(plans_can_run_same_nodes _ _ H),
      ?(all_present_same_nodes _ _ _ H), ?(H _); reflexivity.
Qed.

Lemma run_operations_ok (exn_text : Exn -> string) (os : list Operation)
    (w : World) :
  forallb (op_ok (net w)) os = true ->
  (run_operations cmd_ok ping_reply exn_text os w).1 = Ret tt
  /\ same_nodes (net w)
       (net (run_operations cmd_ok ping_reply exn_text os w).2).
Proof.
  revert w. induction os as [|o rest IH]; intros w Hw;
    cbn [run_operations].
  - split; reflexivity.
  - cbn [forallb] in Hw. apply andb_true_iff in Hw.
    destruct Hw as [Ho Hrest].
    destruct (safe_operation exn_text o w Ho) as [[[] Hr] Hn].
    unfold bind.
    destruct (run_operation cmd_ok ping_reply exn_text o w) as [r w1].
    cbn [fst snd] in *. subst r.
    destruct (IH w1) as [Hr1 Hn1].
    { rewrite <- Hrest. clear -Hn.
      induction rest as [|o' rest IH]; [reflexivity|].
      cbn [forallb]. rewrite IH, (op_ok_same_nodes _ _ o' Hn).
      reflexivity. }
    split; [exact Hr1|]. etransitivity; eassumption.
Qed.

(** X16: A session at the controller does not raise when, for each of its calls,
    the nodes that the call may look up are in the network and the dict of
    a [setRoute] call has the keys that are read: whatever the order of the
    calls and whatever the kernel accepts, every call returns, and the
    network keeps its node names.  (A call that names a node the network
    does not have raises [KeyError], as the properties above show; only
    [graceful_reset_network_only] catches it.) *)
Theorem controller_session_never_raises
    (exn_text : Exn -> string) (os : list Operation) (w : World) :
  forallb (op_ok (net w)) os = true ->
  (run_operations cmd_ok ping_reply exn_text os w).1 = Ret tt
  /\ same_nodes (net w)
       (net (run_operations cmd_ok ping_reply exn_text os w).2).
Proof. apply run_operations_ok. Qed.

(** ** update_router_route with an unknown route type *)

Lemma metrics_to_none (t : gmap (string * nat) Route) (d : string) :
  (forall m, t !! (d, m) = None) -> metrics_to t d = [].
Proof.
  intros H. destruct (metrics_to t d) as [|m l] eqn:E; [reflexivity|].
  assert (Hm : m ∈ metrics_to t d) by (rewrite E; left).
  apply metrics_to_spec in Hm. rewrite H in Hm. destruct Hm as [r Hr].
  discriminate Hr.
Qed.

(** X17: A route configuration whose type is neither [dev] nor [via] is not
    refused: on an existing router, with a kernel that accepts the commands
    and routes within reach of the three deletions, [update_router_route]
    removes every route to the destination, installs none, and answers
    [True], whatever else the dict holds. *)
Theorem update_router_route_unknown_type_removes_route
    (w : World) (name d type : string) (rc : route_config) (nd : Node) :
  (forall n c, cmd_ok n name c = true) ->
  nameToNode (net w) !! name = Some nd ->
  clearable d (routes nd) ->
  cfg_type rc = Some type -> type <> "dev" -> type <> "via" ->
  (update_router_route cmd_ok ping_reply name d rc w).1 = Ret true
  /\ routes_to
       (net (update_router_route cmd_ok ping_reply name d rc w).2)
       name d = [].
Proof.
  intros Hacc Hnode Hclear Hty Hdev Hvia. split.
  - pose proof (set_route_run (router_route name d rc) w) as H.
    cbn [set_route set_route_ok] in H. rewrite H.
    unfold is_set_node, well_formed. rewrite Hnode, Hty.
    rewrite !bool_decide_false by assumption. reflexivity.
  - rewrite (update_router_route_net cmd_ok ping_reply w name d _ nd Hacc Hnode).
    unfold routes_to. rewrite with_routes_lookup. cbn [routes set_routes].
    apply metrics_to_none. intros m. unfold replace_route, rc_hop.
    rewrite Hty. rewrite !bool_decide_false by assumption.
    apply three_deletes_clear, Hclear.
Qed.

(** ** The failure stays detected *)

(** What the detector answers on a list of links. *)
Lemma is_down_links (n : Mininet) (a b : string) :
  is_down n a b = is_down {| nameToNode := ∅; links := links n |} a b.
Proof. reflexivity. Qed.

Lemma find_set_links (a b x y : string) (st : LinkState) (ls : list Link) :
  find (link_between a b) (set_links x y st ls)
  = (fun l => if link_between x y l then set_link st l else l)
      <$> find (link_between a b) ls.
Proof.
  unfold set_links. induction ls as [|l ls IH]; [reflexivity|].
  cbn [map find].
  replace (link_between a b (if link_between x y l then set_link st l else l))
    with (link_between a b l)
    by (destruct (link_between x y l); reflexivity).
  destruct (link_between a b l); [reflexivity|exact IH].
Qed.

Lemma down_stays_down_step (a b x y : string) (ls : list Link) :
  a <> b ->
  is_down {| nameToNode := ∅; links := ls |} a b = true ->
  is_down {| nameToNode := ∅; links := set_links x y st_down ls |} a b = true.
Proof.
  intros Hne. unfold is_down. cbn [links].
  rewrite !(detect_link_failure_loop_eq _ a b Hne), find_set_links.
  destruct (find (link_between a b) ls) as [l|]; cbn [fmap option_fmap option_map];
    [|intros H; exact H].
  destruct (link_between x y l); [reflexivity|intros H; exact H].
Qed.

Lemma down_stays_down (nodes : gmap string Node) (name : string)
    (others : list string) (a b : string) (ls : list Link) :
  a <> b ->
  is_down {| nameToNode := ∅; links := ls |} a b = true ->
  is_down {| nameToNode := ∅;
             links := foldl (fun ls other =>
                               if is_set_node nodes name
                                  && is_set_node nodes other
                               then set_links name other st_down ls
                               else ls) ls others |} a b = true.
Proof.
  intros Hne. revert ls. induction others as [|o os IH]; intros ls H;
    [exact H|].
  cbn [foldl]. apply IH.
  destruct (is_set_node nodes name && is_set_node nodes o); [|exact H].
  apply down_stays_down_step; assumption.
Qed.

Lemma other_pairs_unchanged (nodes : gmap string Node) (name : string)
    (others : list string) (a b : string) (ls : list Link) :
  a <> b ->
  Forall (fun other => (name <> a \/ other <> b) /\ (name <> b \/ other <> a))
         others ->
  is_down {| nameToNode := ∅;
             links := foldl (fun ls other =>
                               if is_set_node nodes name
                                  && is_set_node nodes other
                               then set_links name other st_down ls
                               else ls) ls others |} a b
  = is_down {| nameToNode := ∅; links := ls |} a b.
Proof.
  intros Hne Hall. revert ls.
  induction Hall as [|o os [H1 H2] _ IH]; intros ls; [reflexivity|].
  cbn [foldl]. rewrite IH.
  destruct (is_set_node nodes name && is_set_node nodes o); [|reflexivity].
  unfold is_down. cbn [links].
  rewrite !(detect_link_failure_loop_eq _ a b Hne).
  rewrite (find_set_links_other name o a b st_down ls H1 H2). reflexivity.
Qed.

Lemma auto_detect_links (w : World) (c : Candidate) :
  first_down (net w) = Some c ->
  links (net (auto_detect_and_fix_failures cmd_ok ping_reply w).2)
  = marked (element_name (element c)) (neighbours (element_name (element c)))
      (net w).
Proof.
  intros Hc. rewrite auto_detect_eq, Hc.
  destruct (plan_run cmd_ok ping_reply (element c) (announced c w))
    as (evs & _ & _ & Hl).
  destruct (plan cmd_ok ping_reply (element c) (announced c w))
    as [[[]|e] wp]; cbn [snd net] in *; [|exact Hl].
  destruct (verify_fixes_quiet cmd_ok ping_reply [label c] wp) as [_ Hsame].
  unfold same_net in Hsame. rewrite Hsame. exact Hl.
Qed.

Ltac pairs_differ :=
  match goal with
  | |- Forall _ (neighbours ?x) =>
      let l := eval vm_compute in (neighbours x) in
      change (neighbours x) with l
  end;
  repeat (apply List.Forall_cons;
          [ split; first [left; discriminate|right; discriminate] | ]);
  apply List.Forall_nil.

Ltac scan_step Hl :=
  match goal with
  | |- exists c', (if is_down ?N ?a ?b then _ else _) = Some c' /\ _ =>
      let E := fresh "E" in
      destruct (is_down N a b) eqn:E;
      [ first
          [ solve [eexists; split; reflexivity]
          | exfalso; rewrite is_down_links, Hl in E; unfold marked in E;
            rewrite other_pairs_unchanged in E;
              [ unfold is_down in *; cbn [links] in *; congruence
              | discriminate
              | pairs_differ ] ]
      | try solve
          [ exfalso; rewrite is_down_links, Hl in E; unfold marked in E;
            rewrite down_stays_down in E;
              [ discriminate E
              | discriminate
              | assumption ] ] ]
  end.

(** X18: The recovery never clears the failure it has detected: after a run of
    [auto_detect_and_fix_failures] that found a candidate link down, the
    detector still finds a link down, and the first one in scan order
    belongs to the same element, so the next run enters the same plan
    again. *)
Theorem auto_fix_leaves_the_failure_detected (w : World) (c : Candidate) :
  first_down (net w) = Some c ->
  exists c',
    first_down (net (auto_detect_and_fix_failures cmd_ok ping_reply w).2)
    = Some c'
    /\ element c' = element c.
Proof.
  intros Hc. pose proof (auto_detect_links w c Hc) as Hl.
  set (w' := (auto_detect_and_fix_failures cmd_ok ping_reply w).2) in *.
  clearbody w'.
  unfold first_down, candidate_links in Hc |- *.
  cbn [find node1 node2] in Hc |- *.
  repeat match type of Hc with
         | (if is_down ?N ?a ?b then _ else _) = Some _ =>
             let D := fresh "D" in
             destruct (is_down N a b) eqn:D;
             [ injection Hc as <-; cbn [element element_name] in Hl |- *;
               repeat scan_step Hl | ]
         end.
  discriminate Hc.
Qed.

(** ** Breaking a link of the fat-tree *)





End Extras.

(** ** Concrete runs of the additional properties *)

Lemma update_host_route_replaces_single_route_witness :
  net (set_lab_host_route (set_lab_host_route lab_world).2).2
  = net (set_lab_host_route lab_world).2.
Proof.
  apply (update_host_route_replaces_single_route
           accept_all ping_success lab_world "r1" "10.9.0.0/16"
           "172.16.0.9" lab_router).
  - intros n c. reflexivity.
  - apply lookup_singleton_eq.
  - intros m m' [r Hr] [r' Hr']. unfold lab_router in Hr, Hr'.
    cbn [routes] in Hr, Hr'.
    apply lookup_singleton_Some in Hr. destruct Hr as [Hk _].
    apply lookup_singleton_Some in Hr'. destruct Hr' as [Hk' _].
    congruence.
Defined.

Lemma set_routes_keep_one_route_per_prefix_witness :
  at_most_one_route
    (net (set_routes_seq accept_all ping_success
            [ router_route "r1" "10.9.0.0/16" (rc_via "172.16.0.9" (Some 5));
              host_route "r1" "10.8.0.0/16" "172.16.0.1";
              router_route "r1" "10.9.0.0/16" (rc_dev "r1-eth0" None) ]
            lab_world).2).
Proof.
  apply (set_routes_keep_one_route_per_prefix accept_all ping_success).
  - intros n x c. reflexivity.
  - intros x nd d m m' Hx [r Hr] [r' Hr']. unfold lab_world in Hx.
    cbn [net nameToNode] in Hx.
    apply lookup_singleton_Some in Hx. destruct Hx as [_ <-].
    unfold lab_router in Hr, Hr'. cbn [routes] in Hr, Hr'.
    apply lookup_singleton_Some in Hr. destruct Hr as [Hk _].
    apply lookup_singleton_Some in Hr'. destruct Hr' as [Hk' _].
    congruence.
Defined.

Lemma reset_then_auto_detect_finds_nothing_witness :
  let w' := (graceful_reset_network_only accept_all ping_success
               (fun _ => EmptyString) ar1_es1_down).2 in
  (forall a b, (detect_link_failure a b w').1 = Ret false)
  /\ (auto_detect_and_fix_failures accept_all ping_success w').1 = Ret true
  /\ net (auto_detect_and_fix_failures accept_all ping_success w').2 = net w'.
Proof.
  apply (reset_then_auto_detect_finds_nothing accept_all ping_success
           (fun _ => EmptyString) ar1_es1_down).
  vm_compute. reflexivity.
Defined.

Lemma get_node_subnet_replaces_last_field_witness :
  get_node_subnet "h5" {| net := create_network; output := [] |}
  = (Ret (Some "10.2.1.0/24"), {| net := create_network; output := [] |}).
Proof.
  apply (get_node_subnet_replaces_last_field "h5" "10.2.1" "1"
           (mk_node (Some "10.2.1.1"))
           {| net := create_network; output := [] |}).
  - vm_compute. reflexivity.
  - reflexivity.
  - unfold free_of. cbn. intros [H|[]]. discriminate H.
Defined.

Lemma get_node_subnet_of_undotted_address_witness :
  get_node_subnet "n1"
    {| net := {| nameToNode := {[ "n1" := mk_node (Some "localhost") ]};
                 links := [] |};
       output := [] |}
  = (Ret (Some "localhos.0/24"),
     {| net := {| nameToNode := {[ "n1" := mk_node (Some "localhost") ]};
                  links := [] |};
        output := [] |}).
Proof.
  apply (get_node_subnet_of_undotted_address "n1" "localhos"
           (Ascii.ascii_of_nat 116) (mk_node (Some "localhost"))).
  - vm_compute. reflexivity.
  - reflexivity.
  - unfold free_of. cbn. intros H.
    repeat (destruct H as [H|H]; [discriminate H|]). exact H.
Defined.


Lemma controller_session_never_raises_witness :
  (run_operations refuse_all ping_silent (fun _ => EmptyString) a_session
     {| net := create_network; output := [] |}).1 = Ret tt
  /\ same_nodes create_network
       (net (run_operations refuse_all ping_silent (fun _ => EmptyString)
               a_session {| net := create_network; output := [] |}).2).
Proof.
  apply (controller_session_never_raises refuse_all ping_silent
           (fun _ => EmptyString) a_session
           {| net := create_network; output := [] |}).
  vm_compute. reflexivity.
Defined.

Lemma update_router_route_unknown_type_removes_route_witness :
  (update_router_route accept_all ping_success "r1" "10.9.0.0/16"
     (rc_other "blackhole") lab_world).1 = Ret true
  /\ routes_to
       (net (update_router_route accept_all ping_success "r1" "10.9.0.0/16"
               (rc_other "blackhole") lab_world).2)
       "r1" "10.9.0.0/16" = [].
Proof.
  apply (update_router_route_unknown_type_removes_route
           accept_all ping_success lab_world "r1" "10.9.0.0/16" "blackhole"
           (rc_other "blackhole") lab_router).
  - intros n c. reflexivity.
  - apply lookup_singleton_eq.
  - intros m [r Hr]. unfold lab_router in Hr. cbn [routes] in Hr.
    apply lookup_singleton_Some in Hr. destruct Hr as [Hk _].
    injection Hk as <-. right. right. intros m' _. lia.
  - reflexivity.
  - discriminate.
  - discriminate.
Defined.

Lemma auto_fix_leaves_the_failure_detected_witness :
  exists c',
    first_down (net (auto_detect_and_fix_failures accept_all ping_success
                       ar1_es1_down).2) = Some c'
    /\ element c' = element ar1_es1.
Proof.
  apply (auto_fix_leaves_the_failure_detected accept_all ping_success
           ar1_es1_down ar1_es1).
  vm_compute. reflexivity.
Defined.

Lemma verification_decides_result_witness :
  exists b : bool,
    ar1_es1_repaired.1 = Ret b
    /\ (b = true <->
        forall p, In p test_pairs ->
          reachable accept_all ping_success
            (net (plan accept_all ping_success AR1
                    (announced ar1_es1 ar1_es1_down)).2) p = true).
Proof.
  destruct (verification_decides_result accept_all ping_success
              ar1_es1_down
              (plan accept_all ping_success AR1
                 (announced ar1_es1 ar1_es1_down)).2
              ar1_es1)
    as (b & Hrun & Hiff & _).
  - vm_compute. reflexivity.
  - vm_compute. reflexivity.
  - vm_compute. reflexivity.
  - exists b. split; [|exact Hiff].
    unfold ar1_es1_repaired. rewrite Hrun. reflexivity.
Defined.

Lemma probe_answers_by_the_marker_witness :
  exists b : bool,
    test_connectivity accept_all ping_success "h1" "h3"
      {| net := create_network; output := [] |}
    = (Ret b,
       {| net := create_network;
          output := [Cmd "h1" (ping 1 2 "10.1.2.1")] |})
    /\ (b = true <->
        exists m, String.substring m 10
                    (ping_success create_network "h1" "10.1.2.1")
                  = "bytes from").
Proof.
  apply (probe_answers_by_the_marker accept_all ping_success "h1" "h3"
           {| net := create_network; output := [] |}
           (mk_node (Some "10.1.1.1")) (mk_node (Some "10.1.2.1"))).
  - vm_compute. reflexivity.
  - vm_compute. reflexivity.
Defined.

